(** * LocalDocs: the URL security gate, the content fetcher and the batch
    orchestrator, embedded from the Python sources

    Sources embedded here:
    - [src/localdocs/utils/validation.py]     (module [validation])
    - [src/localdocs/utils/network_simple.py] (module [network_simple])
    - [src/localdocs/utils/network.py]        (module [network], synchronous part)
    - [src/localdocs/utils/config.py]         (module [config], the save path)
    - [src/localdocs/managers/doc_manager.py] (module [doc_manager])
    - [src/localdocs/exceptions.py]           (the exception classes)

    Everything the Python code obtains from its standard library or from the
    outside world (URL parsing, DNS, HTTP, codecs, SHA-256, the file system)
    is a field of the record [Env]; the functions of the repository are
    translated statement by statement on top of it.  Exceptions are explicit
    results, the output of [print] and every network or file operation is an
    event appended to a chronological trace. *)

From Stdlib Require Import ZArith List String Ascii Bool Lia DecimalString HexadecimalString.
From Stdlib Require Import Strings.Byte.
Import ListNotations.

Local Open Scope string_scope.
Local Open Scope Z_scope.

(** ** Python built-ins used by the sources

    A Python [str] that is a URL, a host name, a header value, a tag or a
    message is a [string], one character per element; the texts the sources
    build and test are ASCII. *)

Module Py.

(** [str(n)] for an [int]. *)
Definition str_of_int (n : Z) : string := DecimalString.NilZero.string_of_int (Z.to_int n).

(** [len(s)] as an [int]. *)
Definition len (s : string) : Z := Z.of_nat (String.length s).

(** [c.lower()] on an ASCII letter; other characters are kept. *)
Definition lower_ascii (c : ascii) : ascii :=
  let n := nat_of_ascii c in
  if (Nat.leb 65 n && Nat.leb n 90)%bool then ascii_of_nat (n + 32) else c.

(** [s.lower()], for ASCII text. *)
Fixpoint lower (s : string) : string :=
  match s with
  | EmptyString => EmptyString
  | String c r => String (lower_ascii c) (lower r)
  end.

(** [needle in hay] for two strings. *)
Fixpoint contains (needle hay : string) : bool :=
  String.prefix needle hay ||
  match hay with
  | EmptyString => false
  | String _ r => contains needle r
  end.

(** [s.split(sep)[0]]: the text before the first [sep]. *)
Fixpoint split_first (sep : ascii) (s : string) : string :=
  match s with
  | EmptyString => EmptyString
  | String c r => if Ascii.eqb c sep then EmptyString else String c (split_first sep r)
  end.

(** [x in xs] for a set or list of strings. *)
Definition mem_str (x : string) (xs : list string) : bool := existsb (String.eqb x) xs.

(** [x in xs] for a set of integers. *)
Definition mem_int (x : Z) (xs : list Z) : bool := existsb (Z.eqb x) xs.

(** Truthiness of a string: [bool(s)]. *)
Definition truthy (s : string) : bool := negb (String.eqb s EmptyString).

(** [s[:k]] with Python's treatment of a negative or too large bound. *)
Definition slice_to (k : Z) (s : string) : string :=
  let n := len s in
  let stop := if k <? 0 then Z.max 0 (n + k) else Z.min k n in
  String.substring 0 (Z.to_nat stop) s.

(** [s.rsplit(sep, 1)] when [sep] occurs in [s]: the text before the last
    [sep] and the text after it. *)
Fixpoint rsplit_last (sep : ascii) (s : string) : option (string * string) :=
  match s with
  | EmptyString => None
  | String c r =>
      match rsplit_last sep r with
      | Some (a, b) => Some (String c a, b)
      | None => if Ascii.eqb c sep then Some (EmptyString, r) else None
      end
  end.

Fixpoint map_chars (f : ascii -> ascii) (s : string) : string :=
  match s with
  | EmptyString => EmptyString
  | String c r => String (f c) (map_chars f r)
  end.

End Py.

(** ** Exceptions

    The repository defines its exception classes three times: in
    [utils/validation.py], in [utils/network_simple.py] (and again, with the
    same names, in [utils/network.py]) and in [exceptions.py].  Classes of
    different modules are unrelated, which decides what each [except] clause
    catches. *)

Inductive ExnClass : Type :=
| validation_ValidationError       (* utils/validation.py *)
| validation_SSRFError
| validation_PathTraversalError
| network_NetworkError             (* utils/network_simple.py, utils/network.py *)
| network_DownloadError
| network_ContentTooLargeError
| exceptions_ValidationError       (* exceptions.py *)
| exceptions_NetworkError
| exceptions_DownloadError
| exceptions_ConfigurationError
| builtin_Exception.               (* any other subclass of Exception *)

Definition ExnClass_eqb (a b : ExnClass) : bool :=
  match a, b with
  | validation_ValidationError, validation_ValidationError
  | validation_SSRFError, validation_SSRFError
  | validation_PathTraversalError, validation_PathTraversalError
  | network_NetworkError, network_NetworkError
  | network_DownloadError, network_DownloadError
  | network_ContentTooLargeError, network_ContentTooLargeError
  | exceptions_ValidationError, exceptions_ValidationError
  | exceptions_NetworkError, exceptions_NetworkError
  | exceptions_DownloadError, exceptions_DownloadError
  | exceptions_ConfigurationError, exceptions_ConfigurationError
  | builtin_Exception, builtin_Exception => true
  | _, _ => false
  end.

(** The direct base class, [None] for a class that derives from [Exception]
    (or, in [exceptions.py], from [LocalDocsError]). *)
Definition base_class (c : ExnClass) : option ExnClass :=
  match c with
  | validation_SSRFError => Some validation_ValidationError
  | validation_PathTraversalError => Some validation_ValidationError
  | network_DownloadError => Some network_NetworkError
  | network_ContentTooLargeError => Some network_NetworkError
  | exceptions_DownloadError => Some exceptions_NetworkError
  | _ => None
  end.

(** [issubclass(c, d)]; no chain is longer than one step. *)
Definition issubclass (c d : ExnClass) : bool :=
  ExnClass_eqb c d ||
  match base_class c with
  | Some b => ExnClass_eqb b d
  | None => false
  end.

(** An exception object: its class and [str(e)]. *)
Record Exn : Type := mkExn { exn_class : ExnClass; exn_str : string }.

(** [isinstance(e, (c1, ..., cn))], the test of an [except] clause. *)
Definition isinstance (e : Exn) (cs : list ExnClass) : bool :=
  existsb (issubclass (exn_class e)) cs.

(** ** Computations that may raise and that thread a state *)

Inductive Outcome (A : Type) : Type :=
| Return (a : A)
| Raise (e : Exn).
Arguments Return {A} a.
Arguments Raise {A} e.

Definition M (S A : Type) : Type := S -> Outcome A * S.

Definition ret {S A} (a : A) : M S A := fun s => (Return a, s).

Definition raise {S A} (c : ExnClass) (msg : string) : M S A :=
  fun s => (Raise (mkExn c msg), s).

Definition reraise {S A} (e : Exn) : M S A := fun s => (Raise e, s).

Definition bind {S A B} (m : M S A) (k : A -> M S B) : M S B :=
  fun s => match m s with
           | (Return a, s') => k a s'
           | (Raise e, s') => (Raise e, s')
           end.

(** [try: m  except Exception as e: h e]. *)
Definition try_except {S A} (m : M S A) (h : Exn -> M S A) : M S A :=
  fun s => match m s with
           | (Return a, s') => (Return a, s')
           | (Raise e, s') => h e s'
           end.

Declare Scope py_scope.
Delimit Scope py_scope with py.
Notation "x <- m ;; k" := (bind m (fun x => k))
  (at level 100, m at next level, right associativity) : py_scope.
Notation "m ;;; k" := (bind m (fun _ => k))
  (at level 100, right associativity) : py_scope.
Local Open Scope py_scope.

(** ** Data *)

(** Decoded text is a sequence of Unicode code points ([str]); downloaded
    content is a sequence of bytes ([bytes]). *)
Definition Text : Type := list N.
Definition Bytes : Type := list byte.

(** [ipaddress.IPv4Address] and [ipaddress.IPv6Address]: the address as an
    integer ([_ip]), tagged with its version. *)
Inductive IPAddress : Type :=
| IPv4Address (ip : Z)
| IPv6Address (ip : Z).

(** [ipaddress.IPv4Network] and [ipaddress.IPv6Network]: integer network
    address and prefix length. *)
Inductive IPNetwork : Type :=
| IPv4Network (network_address : Z) (prefixlen : Z)
| IPv6Network (network_address : Z) (prefixlen : Z).

(** [_ALL_ONES] of a family of the given width. *)
Definition ALL_ONES (width : Z) : Z := 2 ^ width - 1.

(** [_ip_int_from_prefix]: the netmask of a prefix length as an integer. *)
Definition ip_int_from_prefix (width prefixlen : Z) : Z :=
  Z.lxor (ALL_ONES width) (Z.shiftr (ALL_ONES width) prefixlen).

(** [address in network] ([_BaseNetwork.__contains__]): false across
    versions, otherwise [other._ip & self.netmask._ip == self.network_address._ip]. *)
Definition ip_in_network (address : IPAddress) (network : IPNetwork) : bool :=
  match network, address with
  | IPv4Network n p, IPv4Address a => Z.land a (ip_int_from_prefix 32 p) =? n
  | IPv6Network n p, IPv6Address a => Z.land a (ip_int_from_prefix 128 p) =? n
  | _, _ => false
  end.

(** The integer of a dotted quad and of eight 16-bit groups. *)
Definition ipv4 (a b c d : Z) : Z := a * 2 ^ 24 + b * 2 ^ 16 + c * 2 ^ 8 + d.
Definition ipv6 (g : list Z) : Z := fold_left (fun acc x => acc * 2 ^ 16 + x) g 0.

(** What the code reads from [urllib.parse.urlparse(url)]: [scheme],
    [hostname] and the [port] property, which is [None], an integer, or
    raises [ValueError]. *)
Inductive PortAttr : Type :=
| PortNone
| PortInt (p : Z)
| PortValueError (msg : string).

Record ParseResult : Type := mkParseResult {
  scheme : string;
  hostname : option string;
  port : PortAttr
}.

(** [socket.gethostbyname(host)] followed by [ip_address(host_ip)]. *)
Inductive Resolution : Type :=
| Resolved (ip_addr : IPAddress)
| Gaierror (msg : string)           (* socket.gaierror or AddressValueError *)
| ResolveError (msg : string).      (* any other exception *)

(** [int(text)] of a header value. *)
Inductive IntParse : Type :=
| IntValue (n : Z)
| IntValueError (msg : string).

(** One call of [response.read(CHUNK_SIZE)]: the bytes it returns (at most
    [CHUNK_SIZE] of them, none at the end of the body), or the message of
    the exception it raises (a timeout, a broken connection). *)
Inductive ReadResult : Type :=
| ReadBytes (chunk : Bytes)
| ReadError (msg : string).

(** An HTTP response as the code uses it: two headers and the results of
    the successive [read] calls; once the script is used up, [read] returns
    [b''].  [content_length] pairs the header text with its [int()]. *)
Record Response : Type := mkResponse {
  content_type : option string;
  content_length : option (string * IntParse);
  reads : list ReadResult
}.

(** [urllib.request.urlopen(request, timeout=...)]. *)
Inductive OpenResult : Type :=
| Opened (response : Response)
| HTTPError (code : Z) (reason : string)
| URLError (reason : string)
| SocketTimeout (msg : string)
| OpenError (msg : string).          (* any other exception *)

(** One entry of [config["documents"]] (the [DocumentMetadata] of
    [config.py]). *)
Record DocumentMetadata : Type := mkDocumentMetadata {
  url : string;
  name : option string;
  description : option string;
  tags : list string
}.

(** A Python [dict] with string keys: insertion ordered, keys unique.  The
    order is kept because the validation at save time walks the documents
    in order and may stop half way. *)
Definition Dict (V : Type) : Type := list (string * V).

Fixpoint dict_get {V} (k : string) (d : Dict V) : option V :=
  match d with
  | [] => None
  | (k', v) :: r => if String.eqb k k' then Some v else dict_get k r
  end.

(** [d[k] = v]: replaces the value of an existing key in place, appends a
    new key. *)
Fixpoint dict_set {V} (k : string) (v : V) (d : Dict V) : Dict V :=
  match d with
  | [] => [(k, v)]
  | (k', v') :: r => if String.eqb k k' then (k', v) :: r else (k', v') :: dict_set k v r
  end.

(** The in-memory configuration [DocManager.config]; [documents = None]
    when the key ["documents"] is absent.  ([storage_directory] is not
    touched by the functions embedded here.) *)
Record Config : Type := mkConfig {
  documents : option (Dict DocumentMetadata)
}.

(** ** The outside world *)

(** What the program does to the world, in the order it does it. *)
Inductive Event : Type :=
| ev_gethostbyname (host : string)                      (* a DNS resolution *)
| ev_urlopen (url : string) (timeout : Z)               (* an HTTP request *)
| ev_write_file (filename : string) (content : Text)    (* a content file is written *)
| ev_write_config (cfg : Config)                        (* the config file is written *)
| ev_print (line : string).                             (* a line on standard output *)

(** The Python standard library and the world behind it.  An answer of the
    network or of the file system may depend on everything that happened
    before, so these fields receive the trace so far. *)
Record Env : Type := mkEnv {
  urlparse : string -> string + ParseResult;        (* [inl msg]: ValueError *)
  gethostbyname : list Event -> string -> Resolution;
  ip_str : IPAddress -> string;                      (* [str(ip_addr)] *)
  urlopen : list Event -> string -> Z -> OpenResult;
  decode : string -> Bytes -> option Text;           (* [bytes.decode(encoding)] *)
  decode_error_str : Bytes -> string;                (* [str(e)] of the UTF-8 error *)
  sha256_hexdigest : string -> string;
  write_file : list Event -> string -> Text -> option string;   (* [Some msg]: OSError *)
  write_config : list Event -> Config -> bool                   (* [false]: the write fails *)
}.

(** Network-level computations run on the trace alone. *)
Definition Net (A : Type) : Type := M (list Event) A.

Definition emit (e : Event) : Net unit := fun h => (Return tt, (h ++ [e])%list).

Definition print (line : string) : Net unit := emit (ev_print line).

(** ** utils/validation.py *)

Module validation.

(** [PRIVATE_IP_RANGES], in source order. *)
Definition PRIVATE_IP_RANGES : list IPNetwork :=
  [ IPv4Network (ipv4 10 0 0 0) 8;
    IPv4Network (ipv4 172 16 0 0) 12;
    IPv4Network (ipv4 192 168 0 0) 16;
    IPv4Network (ipv4 127 0 0 0) 8;
    IPv4Network (ipv4 169 254 0 0) 16;
    IPv4Network (ipv4 224 0 0 0) 4;
    IPv4Network (ipv4 240 0 0 0) 4;
    IPv6Network (ipv6 [0; 0; 0; 0; 0; 0; 0; 1]) 128;
    IPv6Network (ipv6 [0xfc00; 0; 0; 0; 0; 0; 0; 0]) 7;
    IPv6Network (ipv6 [0xfe80; 0; 0; 0; 0; 0; 0; 0]) 10 ].

Definition ALLOWED_SCHEMES : list string := ["http"; "https"].

Definition ALLOWED_CONTENT_TYPES : list string :=
  ["text/plain"; "text/markdown"; "text/html"; "text/x-markdown";
   "application/octet-stream"].

Definition RESERVED_NAMES : list string :=
  ["con"; "prn"; "aux"; "nul";
   "com1"; "com2"; "com3"; "com4"; "com5"; "com6"; "com7"; "com8"; "com9";
   "lpt1"; "lpt2"; "lpt3"; "lpt4"; "lpt5"; "lpt6"; "lpt7"; "lpt8"; "lpt9"].

(** The set [dangerous_ports] of [validate_url_security]. *)
Definition dangerous_ports : list Z := [22; 23; 25; 53; 110; 143; 993; 995].

Section WithEnv.
Context (env : Env).

(** [urllib.parse.urlparse(url)]. *)
Definition call_urlparse (url : string) : Net ParseResult :=
  match urlparse env url with
  | inl msg => raise builtin_Exception msg
  | inr parsed => ret parsed
  end.

(** The inner [try] of the resolution step:
    [host_ip = socket.gethostbyname(parsed.hostname); ip_addr = ip_address(host_ip)],
    with [socket.gaierror] and [AddressValueError] turned into
    [ValidationError]. *)
Definition resolve_hostname (host : string) : Net IPAddress :=
  fun h =>
    let h' := (h ++ [ev_gethostbyname host])%list in
    match gethostbyname env h host with
    | Resolved ip_addr => (Return ip_addr, h')
    | Gaierror msg =>
        (Raise (mkExn validation_ValidationError
                  ("Cannot resolve hostname '" ++ host ++ "': " ++ msg)), h')
    | ResolveError msg => (Raise (mkExn builtin_Exception msg), h')
    end.

(** The loop [for private_range in PRIVATE_IP_RANGES: if ip_addr in private_range: raise]. *)
Fixpoint check_private_ranges (ranges : list IPNetwork) (ip_addr : IPAddress) : Net unit :=
  match ranges with
  | [] => ret tt
  | private_range :: rest =>
      if ip_in_network ip_addr private_range
      then raise validation_SSRFError
             ("Access to private IP address " ++ ip_str env ip_addr ++ " is not allowed")
      else check_private_ranges rest ip_addr
  end.

(** The block [if parsed.port: ...].  The property raises [ValueError] for a
    port that is not a number in 0..65535; the test [if parsed.port] is
    false for [None] and for [0]. *)
Definition check_port (parsed : ParseResult) : Net unit :=
  match port parsed with
  | PortValueError msg => raise builtin_Exception msg
  | PortNone => ret tt
  | PortInt p =>
      if p =? 0 then ret tt
      else if (p <? 1) || (p >? 65535)
      then raise validation_ValidationError ("Invalid port number: " ++ Py.str_of_int p)
      else if Py.mem_int p dangerous_ports
      then raise validation_SSRFError ("Access to port " ++ Py.str_of_int p ++ " is not allowed")
      else ret tt
  end.

(** The body of [with urllib.request.urlopen(...) as response:] in the
    trial request. *)
Definition inspect_response (response : Response) : Outcome (bool * option string) :=
  let content_type :=
    Py.split_first ";" (Py.lower (match content_type response with
                                  | Some v => v
                                  | None => EmptyString
                                  end)) in
  if Py.truthy content_type && negb (Py.mem_str content_type ALLOWED_CONTENT_TYPES)
  then Return (false, Some ("Content type '" ++ content_type ++ "' not allowed for documentation"))
  else
    match content_length response with
    | None => Return (true, None)
    | Some (text, parsed) =>
        if Py.truthy text then
          match parsed with
          | IntValueError msg => Raise (mkExn builtin_Exception msg)
          | IntValue n =>
              if n >? 50 * 1024 * 1024
              then Return (false, Some "Content too large (max 50MB allowed)")
              else Return (true, None)
          end
        else Return (true, None)
    end.

(** The trial request with its four [except] clauses. *)
Definition trial_request (url : string) (timeout : Z) : Net (bool * option string) :=
  fun h =>
    let h' := (h ++ [ev_urlopen url timeout])%list in
    match urlopen env h url timeout with
    | Opened response =>
        match inspect_response response with
        | Return r => (Return r, h')
        | Raise e => (Return (false, Some ("Unexpected error: " ++ exn_str e)), h')
        end
    | HTTPError code reason =>
        (Return (false, Some ("HTTP error " ++ Py.str_of_int code ++ ": " ++ reason)), h')
    | URLError reason => (Return (false, Some ("URL error: " ++ reason)), h')
    | SocketTimeout _ => (Return (false, Some "Connection timeout"), h')
    | OpenError msg => (Return (false, Some ("Unexpected error: " ++ msg)), h')
    end.

(** The clauses that close [validate_url_security]:
    [except (SSRFError, ValidationError): raise] and
    [except Exception as e: raise ValidationError(...)]. *)
Definition reraise_or_wrap {A} (e : Exn) : Net A :=
  if isinstance e [validation_SSRFError; validation_ValidationError]
  then reraise e
  else raise validation_ValidationError ("URL validation failed: " ++ exn_str e).

(** [validate_url_security(url, timeout)]. *)
Definition validate_url_security (url : string) (timeout : Z) : Net (bool * option string) :=
  try_except
    (parsed <- call_urlparse url ;;
     if negb (Py.mem_str (Py.lower (scheme parsed)) ALLOWED_SCHEMES)
     then raise validation_SSRFError
            ("Scheme '" ++ scheme parsed ++ "' not allowed. Only HTTP/HTTPS are permitted.")
     else
       match hostname parsed with
       | None => raise validation_ValidationError "URL must contain a valid hostname"
       | Some host =>
           if negb (Py.truthy host)
           then raise validation_ValidationError "URL must contain a valid hostname"
           else
             ip_addr <- resolve_hostname host ;;
             check_private_ranges PRIVATE_IP_RANGES ip_addr ;;;
             check_port parsed ;;;
             trial_request url timeout
       end)
    reraise_or_wrap.

End WithEnv.

(** The character class of the [re.sub] in [sanitize_filename]: the nine
    punctuation characters and the control characters 0 to 31. *)
Definition dangerous_char (c : ascii) : bool :=
  existsb (Ascii.eqb c) ["<"%char; ">"%char; ":"%char; ascii_of_nat 34; "/"%char;
                         "\"%char; "|"%char; "?"%char; "*"%char]
  || Nat.leb (nat_of_ascii c) 31.

(** [sanitize_filename(filename, max_length)].  After the traversal check
    the name holds no separator, so [Path(filename).name] keeps it (["."]
    becomes empty and ends as ["sanitized_file"] either way). *)
Definition sanitize_filename (filename : string) (max_length : Z) : Outcome string :=
  if negb (Py.truthy filename)
  then Raise (mkExn validation_ValidationError "Filename cannot be empty")
  else if Py.contains ".." filename || Py.contains "/" filename || Py.contains "\" filename
  then Raise (mkExn validation_PathTraversalError "Path traversal detected in filename")
  else
    let filename := Py.map_chars (fun c => if dangerous_char c then "_"%char else c) filename in
    let name_part := Py.lower (Py.split_first "." filename) in
    let filename := if Py.mem_str name_part RESERVED_NAMES then "safe_" ++ filename else filename in
    let filename :=
      if Py.len filename >? max_length then
        match Py.rsplit_last "." filename with
        | Some (name, ext) => Py.slice_to (max_length - Py.len ext - 1) name ++ "." ++ ext
        | None => Py.slice_to max_length filename
        end
      else filename in
    let filename :=
      if negb (Py.truthy filename) || String.eqb filename "." then "sanitized_file" else filename in
    Return filename.

End validation.

(** Sequencing of pure steps that may raise. *)
Definition and_then {A B} (o : Outcome A) (k : A -> Outcome B) : Outcome B :=
  match o with
  | Return a => k a
  | Raise e => Raise e
  end.

(** [sum(len(c) for c in chunks)] and [b''.join(chunks)]. *)
Definition total_len (chunks : list Bytes) : Z :=
  fold_right (fun c acc => Z.of_nat (List.length c) + acc) 0 chunks.

Definition join (chunks : list Bytes) : Bytes := List.concat chunks.

(** ** utils/network_simple.py *)

Module network_simple.

Definition DEFAULT_TIMEOUT : Z := 30.
Definition VALIDATION_TIMEOUT : Z := 10.
Definition DOWNLOAD_TIMEOUT : Z := 60.
Definition CHUNK_SIZE : Z := 8192.
Definition MAX_CONTENT_LENGTH : Z := 50 * 1024 * 1024.
Definition USER_AGENT : string := "Mozilla/5.0 (LocalDocs/1.0; Documentation Downloader)".

Section WithEnv.
Context (env : Env).

(** [validate_url_sync(url, timeout)].  The [NetworkError] raised inside
    the [try] is caught by [except Exception] and wrapped once more. *)
Definition validate_url_sync (url : string) (timeout : Z) : Net bool :=
  try_except
    (r <- validation.validate_url_security env url timeout ;;
     let '(is_valid, error_msg) := r in
     if negb is_valid
     then raise network_NetworkError
            (match error_msg with
             | Some m => if Py.truthy m then m else "URL validation failed"
             | None => "URL validation failed"
             end)
     else ret true)
    (fun e =>
       if isinstance e [validation_SSRFError; validation_ValidationError]
       then reraise e
       else raise network_NetworkError ("URL validation error: " ++ exn_str e)).

(** The check of the [content-length] header before the body is read. *)
Definition check_content_length (response : Response) (max_size : Z) : Outcome unit :=
  match content_length response with
  | None => Return tt
  | Some (text, parsed) =>
      if Py.truthy text then
        match parsed with
        | IntValueError msg => Raise (mkExn builtin_Exception msg)
        | IntValue n =>
            if n >? max_size
            then Raise (mkExn network_ContentTooLargeError
                          ("Content too large: " ++ text ++ " bytes"))
            else Return tt
        end
      else Return tt
  end.

(** The loop [while True: chunk = response.read(CHUNK_SIZE) ...] over the
    results of the successive reads. *)
Fixpoint read_chunks (script : list ReadResult) (max_size total_size : Z)
    (content_chunks : list Bytes) : Outcome (list Bytes) :=
  match script with
  | [] => Return content_chunks
  | ReadError msg :: _ => Raise (mkExn builtin_Exception msg)
  | ReadBytes chunk :: rest =>
      match chunk with
      | [] => Return content_chunks
      | _ :: _ =>
          let total_size := total_size + Z.of_nat (List.length chunk) in
          if total_size >? max_size
          then Raise (mkExn network_ContentTooLargeError
                        ("Content exceeded " ++ Py.str_of_int max_size ++ " bytes during download"))
          else read_chunks rest max_size total_size (content_chunks ++ [chunk])%list
      end
  end.

(** The loop [for encoding in ['latin-1', 'cp1252', 'iso-8859-1']] inside
    [except UnicodeDecodeError as e]. *)
Fixpoint try_encodings (encodings : list string) (content_bytes : Bytes) : Outcome Text :=
  match encodings with
  | [] => Raise (mkExn network_DownloadError
                   ("Cannot decode content: " ++ decode_error_str env content_bytes))
  | encoding :: rest =>
      match decode env encoding content_bytes with
      | Some text => Return text
      | None => try_encodings rest content_bytes
      end
  end.

(** The decoding step. *)
Definition decode_content (content_bytes : Bytes) : Outcome Text :=
  match decode env "utf-8" content_bytes with
  | Some text => Return text
  | None => try_encodings ["latin-1"; "cp1252"; "iso-8859-1"] content_bytes
  end.

(** The body of [with urllib.request.urlopen(...) as response:] in
    [download_content_sync]. *)
Definition read_response (response : Response) (max_size : Z) : Outcome Text :=
  and_then (check_content_length response max_size) (fun _ =>
  and_then (read_chunks (reads response) max_size 0 []) (fun content_chunks =>
  decode_content (join content_chunks))).

(** The [try] block of [download_content_sync] with its [except] clauses. *)
Definition fetch (url : string) (max_size timeout : Z) : Net Text :=
  fun h =>
    let h' := (h ++ [ev_urlopen url timeout])%list in
    match urlopen env h url timeout with
    | Opened response =>
        match read_response response max_size with
        | Return text => (Return text, h')
        | Raise e =>
            if isinstance e [validation_SSRFError; validation_ValidationError;
                             network_ContentTooLargeError]
            then (Raise e, h')
            else (Raise (mkExn network_DownloadError
                           ("Unexpected download error: " ++ exn_str e)), h')
        end
    | HTTPError code reason =>
        (Raise (mkExn network_DownloadError
                  ("HTTP error " ++ Py.str_of_int code ++ ": " ++ reason)), h')
    | URLError reason => (Raise (mkExn network_NetworkError ("URL error: " ++ reason)), h')
    | SocketTimeout msg =>
        (Raise (mkExn network_DownloadError ("Unexpected download error: " ++ msg)), h')
    | OpenError msg =>
        (Raise (mkExn network_DownloadError ("Unexpected download error: " ++ msg)), h')
    end.

(** [download_content_sync(url, max_size, timeout)]. *)
Definition download_content_sync (url : string) (max_size timeout : Z) : Net Text :=
  validate_url_sync url VALIDATION_TIMEOUT ;;;
  fetch url max_size timeout.

(** The asynchronous entry points of this module call the synchronous ones
    and never suspend. *)
Definition validate_url_async (url : string) (timeout : Z) : Net bool :=
  validate_url_sync url timeout.

Definition download_content_async (url : string) (max_size timeout : Z) : Net Text :=
  download_content_sync url max_size timeout.

End WithEnv.
End network_simple.

(** ** utils/network.py, synchronous part

    [validate_url_sync] and [download_content_sync] of this module have the
    same text as those of [network_simple]; the header check, the read loop
    and the decoding step are shared with it here. *)

Module network.

Definition VALIDATION_TIMEOUT : Z := 10.
Definition DOWNLOAD_TIMEOUT : Z := 60.
Definition CHUNK_SIZE : Z := 8192.
Definition MAX_CONTENT_LENGTH : Z := 50 * 1024 * 1024.
Definition MAX_REDIRECTS : Z := 5.

Section WithEnv.
Context (env : Env).

Definition validate_url_sync (url : string) (timeout : Z) : Net bool :=
  try_except
    (r <- validation.validate_url_security env url timeout ;;
     let '(is_valid, error_msg) := r in
     if negb is_valid
     then raise network_NetworkError
            (match error_msg with
             | Some m => if Py.truthy m then m else "URL validation failed"
             | None => "URL validation failed"
             end)
     else ret true)
    (fun e =>
       if isinstance e [validation_SSRFError; validation_ValidationError]
       then reraise e
       else raise network_NetworkError ("URL validation error: " ++ exn_str e)).

Definition fetch (url : string) (max_size timeout : Z) : Net Text :=
  fun h =>
    let h' := (h ++ [ev_urlopen url timeout])%list in
    match urlopen env h url timeout with
    | Opened response =>
        match network_simple.read_response env response max_size with
        | Return text => (Return text, h')
        | Raise e =>
            if isinstance e [validation_SSRFError; validation_ValidationError;
                             network_ContentTooLargeError]
            then (Raise e, h')
            else (Raise (mkExn network_DownloadError
                           ("Unexpected download error: " ++ exn_str e)), h')
        end
    | HTTPError code reason =>
        (Raise (mkExn network_DownloadError
                  ("HTTP error " ++ Py.str_of_int code ++ ": " ++ reason)), h')
    | URLError reason => (Raise (mkExn network_NetworkError ("URL error: " ++ reason)), h')
    | SocketTimeout msg =>
        (Raise (mkExn network_DownloadError ("Unexpected download error: " ++ msg)), h')
    | OpenError msg =>
        (Raise (mkExn network_DownloadError ("Unexpected download error: " ++ msg)), h')
    end.

Definition download_content_sync (url : string) (max_size timeout : Z) : Net Text :=
  validate_url_sync url VALIDATION_TIMEOUT ;;;
  fetch url max_size timeout.

End WithEnv.
End network.

(** ** utils/config.py: what [save_config] does to the documents *)

Module ConfigManager.

(** The per-entry part of [_validate_config_structure] on a typed entry:
    the tags longer than 20 characters are dropped. *)
Definition validate_metadata (metadata : DocumentMetadata) : DocumentMetadata :=
  mkDocumentMetadata (url metadata) (name metadata) (description metadata)
    (filter (fun tag => Py.len tag <=? 20) (tags metadata)).

(** The loop [for hash_id, metadata in documents.items()], which updates
    the entries in place and stops at the first key that is not 8
    characters long. *)
Fixpoint validate_documents (docs : Dict DocumentMetadata)
  : Outcome unit * Dict DocumentMetadata :=
  match docs with
  | [] => (Return tt, [])
  | (hash_id, metadata) :: rest =>
      if negb (Py.len hash_id =? 8)
      then (Raise (mkExn validation_ValidationError
                     ("Invalid document hash ID: " ++ hash_id)), docs)
      else
        let '(r, rest') := validate_documents rest in
        (r, (hash_id, validate_metadata metadata) :: rest')
  end.

(** [_validate_config_structure(config)]: the outcome and the configuration
    as it is left (the argument is updated in place). *)
Definition _validate_config_structure (cfg : Config) : Outcome unit * Config :=
  let docs := match documents cfg with Some d => d | None => [] end in
  let '(r, docs') := validate_documents docs in
  (r, mkConfig (Some docs')).

(** What leaves [save_config] when anything fails inside its [try]: the
    clause [except (OSError, json.JSONEncodeError)] names an attribute that
    the [json] module does not have, so matching the clause raises
    [AttributeError] in place of the original exception. *)
Definition except_clause_error : Exn :=
  mkExn builtin_Exception "module 'json' has no attribute 'JSONEncodeError'".

(** [save_config(config)]: validate in place, then write the file (the
    directory creation, the temporary file, the atomic replace and the
    cache update are one step of the environment). *)
Definition save_config (env : Env) (cfg : Config) (h : list Event)
  : Outcome unit * Config * list Event :=
  let '(r, validated_config) := _validate_config_structure cfg in
  match r with
  | Raise _ => (Raise except_clause_error, validated_config, h)
  | Return _ =>
      let h' := (h ++ [ev_write_config validated_config])%list in
      if write_config env h validated_config
      then (Return tt, validated_config, h')
      else (Raise except_clause_error, validated_config, h')
  end.

End ConfigManager.

(** ** managers/doc_manager.py *)

Module doc_manager.

(** The state of a [DocManager] and of the world around it: the in-memory
    configuration [self.config] and the trace of what has happened. *)
Record State : Type := mkState {
  config : Config;
  trace : list Event
}.

Definition Mgr (A : Type) : Type := M State A.

(** A network-level computation inside a method of the manager. *)
Definition lift {A} (m : Net A) : Mgr A :=
  fun s => let '(r, h) := m (trace s) in (r, mkState (config s) h).

Definition lift_outcome {A} (o : Outcome A) : Mgr A := fun s => (o, s).

(** The character written [\n] in the sources. *)
Definition newline : string := String (ascii_of_nat 10) EmptyString.

Section WithEnv.
Context (env : Env).

(** [_generate_hash_id(url)]: the first 8 characters of the hex digest. *)
Definition _generate_hash_id (url : string) : string :=
  String.substring 0 8 (sha256_hexdigest env url).

(** [_generate_filename(url)]. *)
Definition _generate_filename (url : string) : Outcome string :=
  validation.sanitize_filename (_generate_hash_id url ++ ".md") 255.

(** [_save_config()]. *)
Definition _save_config : Mgr unit :=
  fun s =>
    let '(r, cfg, h) := ConfigManager.save_config env (config s) (trace s) in
    match r with
    | Return _ => (Return tt, mkState cfg h)
    | Raise e =>
        (Raise (mkExn exceptions_ConfigurationError
                  ("Failed to save configuration: " ++ exn_str e)), mkState cfg h)
    end.

(** [validate_url(url)]: the category of the failure is decided by a search
    in the text of the exception. *)
Definition validate_url (url : string) : Mgr bool :=
  try_except
    (lift (network_simple.validate_url_sync env url network_simple.VALIDATION_TIMEOUT))
    (fun e =>
       if Py.contains "SSRF" (exn_str e) || Py.contains "private IP" (exn_str e)
       then raise exceptions_ValidationError ("Security violation: " ++ exn_str e)
       else raise exceptions_NetworkError ("URL validation failed: " ++ exn_str e)).

(** [with open(file_path, 'w', encoding='utf-8') as f: f.write(content)],
    [OSError] turned into [DownloadError]. *)
Definition save_content (filename : string) (content : Text) : Mgr unit :=
  fun s =>
    let s' := mkState (config s) (trace s ++ [ev_write_file filename content])%list in
    match write_file env (trace s) filename content with
    | None => (Return tt, s')
    | Some msg =>
        (Raise (mkExn exceptions_DownloadError ("Failed to save file: " ++ msg)), s')
    end.

(** [if hash_id not in documents: documents[hash_id] = {...}
    else: documents[hash_id]["url"] = url]. *)
Definition set_document_url (hash_id url' : string) (docs : Dict DocumentMetadata)
  : Dict DocumentMetadata :=
  match dict_get hash_id docs with
  | None => dict_set hash_id (mkDocumentMetadata url' None None []) docs
  | Some metadata =>
      dict_set hash_id
        (mkDocumentMetadata url' (name metadata) (description metadata) (tags metadata))
        docs
  end.

(** The block [# Update metadata in config]; a missing ["documents"] key is
    first set to the empty dict. *)
Definition update_metadata (hash_id url' : string) : Mgr unit :=
  fun s =>
    let docs := match documents (config s) with Some d => d | None => [] end in
    (Return tt, mkState (mkConfig (Some (set_document_url hash_id url' docs))) (trace s)).

(** What [add_doc] and [add_doc_async] do with the downloaded content. *)
Definition store_content (url : string) (content : Text) : Mgr string :=
  match content with
  | [] => raise exceptions_DownloadError "Downloaded content is empty"
  | _ :: _ =>
      let hash_id := _generate_hash_id url in
      filename <- lift_outcome (_generate_filename url) ;;
      save_content filename content ;;;
      update_metadata hash_id url ;;;
      _save_config ;;;
      lift (print ("✓ Downloaded as " ++ hash_id ++ ".md")) ;;;
      ret hash_id
  end.

(** The two [except] clauses that close [add_doc] and [add_doc_async]. *)
Definition add_doc_handler (url : string) (e : Exn) : Mgr string :=
  lift (print ("✗ Failed to download " ++ url)) ;;;
  if isinstance e [exceptions_ValidationError; exceptions_NetworkError;
                   exceptions_DownloadError]
  then reraise e
  else raise exceptions_DownloadError ("Unexpected error: " ++ exn_str e).

(** [add_doc(url)]. *)
Definition add_doc (url : string) : Mgr string :=
  lift (print ("Downloading " ++ url ++ "...")) ;;;
  try_except
    (validate_url url ;;;
     content <- lift (network_simple.download_content_sync env url
                        network_simple.MAX_CONTENT_LENGTH network_simple.DOWNLOAD_TIMEOUT) ;;
     store_content url content)
    (add_doc_handler url).

(** [add_doc_async(url)]; [download_content_async] is the one of
    [network_simple], which [utils/__init__.py] exports. *)
Definition add_doc_async (url : string) : Mgr string :=
  lift (print ("Downloading " ++ url ++ "...")) ;;;
  try_except
    (content <- lift (network_simple.download_content_async env url
                        network_simple.MAX_CONTENT_LENGTH network_simple.DOWNLOAD_TIMEOUT) ;;
     store_content url content)
    (add_doc_handler url).

(** The loop of [_add_multiple_sync]. *)
Fixpoint add_multiple_sync_loop (urls : list string) (success_count : Z) : Mgr Z :=
  match urls with
  | [] => ret success_count
  | url :: rest =>
      success_count <-
        try_except
          (result <- add_doc url ;;
           if Py.truthy result then ret (success_count + 1) else ret success_count)
          (fun e =>
             lift (print ("Skipping " ++ url ++ ": " ++ exn_str e)) ;;;
             ret success_count) ;;
      add_multiple_sync_loop rest success_count
  end.

Definition completed_line (success_count : Z) (urls : list string) : string :=
  newline ++ "Completed: " ++ Py.str_of_int success_count ++ "/"
    ++ Py.str_of_int (Z.of_nat (List.length urls)) ++ " documents downloaded".

(** [_add_multiple_sync(urls)]. *)
Definition _add_multiple_sync (urls : list string) : Mgr Z :=
  success_count <- add_multiple_sync_loop urls 0 ;;
  lift (print (completed_line success_count urls)) ;;;
  ret success_count.

(** [download_with_semaphore(url)] inside [_add_multiple_async]. *)
Definition download_with_semaphore (url : string) : Mgr bool :=
  try_except
    (_ <- add_doc_async url ;; ret true)
    (fun e =>
       lift (print ("Skipping " ++ url ++ ": " ++ exn_str e)) ;;;
       ret false).

(** [asyncio.gather] over [download_with_semaphore(url) for url in urls].
    The tasks are started in list order and none of them ever suspends: the
    semaphore of width 3 is free whenever a task acquires it, and the
    asynchronous functions of [network_simple] run the synchronous ones.
    So each task runs to its end before the next one starts. *)
Fixpoint gather (urls : list string) : Mgr (list bool) :=
  match urls with
  | [] => ret []
  | url :: rest =>
      result <- download_with_semaphore url ;;
      results <- gather rest ;;
      ret (result :: results)
  end.

(** [_add_multiple_async(urls)]. *)
Definition _add_multiple_async (urls : list string) : Mgr Z :=
  results <- gather urls ;;
  let success_count := Z.of_nat (List.length (filter (fun result => result) results)) in
  lift (print (completed_line success_count urls)) ;;;
  ret success_count.

(** [add_multiple(urls, use_async)]. *)
Definition add_multiple (urls : list string) (use_async : bool) : Mgr Z :=
  lift (print ("Downloading " ++ Py.str_of_int (Z.of_nat (List.length urls)) ++ " documents...")) ;;;
  if use_async then _add_multiple_async urls else _add_multiple_sync urls.

End WithEnv.
End doc_manager.

(** ** The codecs of the Python runtime

    [bytes.decode] belongs to the environment; this module gives the four
    codecs the fetcher names, to build a concrete environment and to see
    which branches of the fallback can run under CPython. *)

Module codecs.

Local Open Scope N_scope.

Definition between (lo hi x : N) : bool := (lo <=? x) && (x <=? hi).

(** A continuation byte [10xxxxxx]. *)
Definition cont (x : N) : bool := between 0x80 0xBF x.

Definition cons_opt (c : N) (r : option Text) : option Text :=
  match r with
  | Some t => Some (c :: t)
  | None => None
  end.

(** Strict UTF-8: shortest form only, no surrogates, nothing above
    U+10FFFF. *)
Fixpoint utf_8_N (bs : list N) : option Text :=
  match bs with
  | [] => Some []
  | b0 :: r0 =>
      if b0 <? 0x80 then cons_opt b0 (utf_8_N r0)
      else if between 0xC2 0xDF b0 then
        match r0 with
        | b1 :: r1 =>
            if cont b1 then cons_opt ((b0 - 0xC0) * 64 + (b1 - 0x80)) (utf_8_N r1)
            else None
        | _ => None
        end
      else if between 0xE0 0xEF b0 then
        match r0 with
        | b1 :: b2 :: r2 =>
            let lo := if b0 =? 0xE0 then 0xA0 else 0x80 in
            let hi := if b0 =? 0xED then 0x9F else 0xBF in
            if between lo hi b1 && cont b2
            then cons_opt ((b0 - 0xE0) * 4096 + (b1 - 0x80) * 64 + (b2 - 0x80)) (utf_8_N r2)
            else None
        | _ => None
        end
      else if between 0xF0 0xF4 b0 then
        match r0 with
        | b1 :: b2 :: b3 :: r3 =>
            let lo := if b0 =? 0xF0 then 0x90 else 0x80 in
            let hi := if b0 =? 0xF4 then 0x8F else 0xBF in
            if between lo hi b1 && cont b2 && cont b3
            then cons_opt ((b0 - 0xF0) * 262144 + (b1 - 0x80) * 4096
                           + (b2 - 0x80) * 64 + (b3 - 0x80)) (utf_8_N r3)
            else None
        | _ => None
        end
      else None
  end.

Definition utf_8 (bs : Bytes) : option Text := utf_8_N (map Byte.to_N bs).

(** Latin-1 maps every byte to the code point of the same number. *)
Definition latin_1 (bs : Bytes) : option Text := Some (map Byte.to_N bs).

(** Windows-1252 differs from Latin-1 on 0x80..0x9F, where five bytes are
    undefined. *)
Definition cp1252_high : list (option N) :=
  [ Some 0x20AC; None; Some 0x201A; Some 0x0192; Some 0x201E; Some 0x2026; Some 0x2020;
    Some 0x2021; Some 0x02C6; Some 0x2030; Some 0x0160; Some 0x2039; Some 0x0152; None;
    Some 0x017D; None; None; Some 0x2018; Some 0x2019; Some 0x201C; Some 0x201D;
    Some 0x2022; Some 0x2013; Some 0x2014; Some 0x02DC; Some 0x2122; Some 0x0161;
    Some 0x203A; Some 0x0153; None; Some 0x017E; Some 0x0178 ].

Definition cp1252_char (b : N) : option N :=
  if between 0x80 0x9F b then nth (N.to_nat (b - 0x80)) cp1252_high None else Some b.

Fixpoint cp1252_N (bs : list N) : option Text :=
  match bs with
  | [] => Some []
  | b :: r =>
      match cp1252_char b with
      | Some c => cons_opt c (cp1252_N r)
      | None => None
      end
  end.

Definition cp1252 (bs : Bytes) : option Text := cp1252_N (map Byte.to_N bs).

(** [content_bytes.decode(encoding)] for the four names the fetcher uses. *)
Definition python_decode (encoding : string) (bs : Bytes) : option Text :=
  if String.eqb encoding "utf-8" then utf_8 bs
  else if String.eqb encoding "latin-1" then latin_1 bs
  else if String.eqb encoding "cp1252" then cp1252 bs
  else if String.eqb encoding "iso-8859-1" then latin_1 bs
  else None.

End codecs.

(** ** A concrete environment

    A small world used to run the embedding: a handful of URLs with what
    [urlparse] returns for them under CPython 3.11, a resolver that knows
    two hosts, canned HTTP answers, the codecs above and a file system that
    accepts every write. *)

Module sample.

Definition doc_url : string := "https://example.com/doc.md".
Definition a_url : string := "https://example.com/a.md".
Definition b_url : string := "https://example.com/b.md".
Definition c_url : string := "https://example.com/c.md".
Definition empty_url : string := "https://example.com/empty.md".
Definition latin1_url : string := "https://example.com/latin1.md".
Definition missing_url : string := "https://example.com/missing.md".
Definition port0_url : string := "https://example.com:0/".
Definition ssh_url : string := "https://example.com:22/".
Definition ftp_url : string := "ftp://example.com/file.txt".
Definition unknown_host_url : string := "https://nonexistent.invalid/".
Definition internal_url : string := "https://internal.company.com/".

Fixpoint assoc {V} (k : string) (table : list (string * V)) (default : V) : V :=
  match table with
  | [] => default
  | (k', v) :: r => if String.eqb k k' then v else assoc k r default
  end.

Definition on_example_com (p : PortAttr) : ParseResult :=
  mkParseResult "https" (Some "example.com") p.

(** Outside the table the text is taken as a relative reference, which has
    an empty scheme and no host. *)
Definition urlparse (url : string) : string + ParseResult :=
  inr (assoc url
         [ (doc_url, on_example_com PortNone);
           (a_url, on_example_com PortNone);
           (b_url, on_example_com PortNone);
           (c_url, on_example_com PortNone);
           (empty_url, on_example_com PortNone);
           (latin1_url, on_example_com PortNone);
           (missing_url, on_example_com PortNone);
           (port0_url, on_example_com (PortInt 0));
           (ssh_url, on_example_com (PortInt 22));
           (ftp_url, mkParseResult "ftp" (Some "example.com") PortNone);
           (unknown_host_url, mkParseResult "https" (Some "nonexistent.invalid") PortNone);
           (internal_url, mkParseResult "https" (Some "internal.company.com") PortNone) ]
         (mkParseResult EmptyString None PortNone)).

Definition gethostbyname (_ : list Event) (host : string) : Resolution :=
  assoc host
    [ ("example.com", Resolved (IPv4Address (ipv4 93 184 216 34)));
      ("internal.company.com", Resolved (IPv4Address (ipv4 10 0 0 1))) ]
    (Gaierror "[Errno -2] Name or service not known").

(** [str] of an IPv4 address; an IPv6 address, which this resolver never
    returns, is written as its eight groups without zero compression. *)
Definition ip_str (ip_addr : IPAddress) : string :=
  match ip_addr with
  | IPv4Address a =>
      Py.str_of_int (a / 2 ^ 24 mod 256) ++ "." ++ Py.str_of_int (a / 2 ^ 16 mod 256) ++ "."
        ++ Py.str_of_int (a / 2 ^ 8 mod 256) ++ "." ++ Py.str_of_int (a mod 256)
  | IPv6Address a =>
      String.concat ":"
        (map (fun i => HexadecimalString.NilZero.string_of_uint
                         (N.to_hex_uint (Z.to_N (a / 2 ^ (16 * i) mod 65536))))
             [7; 6; 5; 4; 3; 2; 1; 0])
  end.

Definition markdown (body : string) : OpenResult :=
  Opened (mkResponse (Some "text/markdown; charset=utf-8")
            (Some (Py.str_of_int (Py.len body), IntValue (Py.len body)))
            [ReadBytes (list_byte_of_string body)]).

Definition urlopen (_ : list Event) (url : string) (_ : Z) : OpenResult :=
  assoc url
    [ (doc_url, markdown "# Hello, docs");
      (a_url, markdown "# A");
      (b_url, markdown "# B");
      (c_url, markdown "# C");
      (empty_url, Opened (mkResponse (Some "text/plain") (Some ("0", IntValue 0)) []));
      (latin1_url, Opened (mkResponse (Some "text/plain") None
                             [ReadBytes ["c"%byte; "a"%byte; "f"%byte; Byte.xe9]]));
      (missing_url, HTTPError 404 "Not Found");
      (port0_url, URLError "[Errno 111] Connection refused");
      (ssh_url, URLError "[Errno 111] Connection refused") ]
    (URLError "[Errno 113] No route to host").

(** The digests of the URLs above are their SHA-256; any other text gets a
    placeholder of the same length. *)
Definition sha256_hexdigest (text : string) : string :=
  assoc text
    [ (doc_url, "89b8c46b8bbdb67a77b97bd773e45e7303516144a5f0ba79639f7c00634edec4");
      (a_url, "38507e16bada08fddf3c51bd2378c74f95d0842d2f71dc181467d5d27097306a");
      (b_url, "041f6dce30968b56f4091d54f7ed3fbf08d6610bb173febe93b4ba0e6d629407");
      (c_url, "77a7fe802bbdacbfac5243c9c6fbdf9c45c7aaefea517ba434e25588317e0831");
      (empty_url, "49def8a2ad1426c00e5b4dc434ba06af0aa37b090c063d15fd8558e2c8abb3bc");
      (latin1_url, "19b298bd6300c40b42e49d8bd4fa4050173bd21a1a4cf26b6f352fd34e635250");
      (missing_url, "089129cb90b87a77b0fcc938271c354bcd366ef9a63bb652e93dc90e37e122f9");
      (port0_url, "3517501637ba381c6d4a90ebf643d6f6fb7399893f0255deea085fce350eb322");
      (ssh_url, "280623a89d51b95153aaea96b4aed18f67f36293959f7e9b664de25fc4348e43");
      (ftp_url, "b9b1898d353af715c2d8273f4b63eec7c9507c9ae7029a9a3388191e1946294a");
      (unknown_host_url, "87100a46efa01ab8a1da003257d8ae93833957f720695ee3ccd766ba075b7cf5");
      (internal_url, "7ef37bc81bf95d4cdd378a90f269b8cc7e2611f7b852819be4b617c4a99d9656") ]
    "0000000000000000000000000000000000000000000000000000000000000000".

Definition env : Env :=
  mkEnv urlparse gethostbyname ip_str urlopen codecs.python_decode
    (fun _ => "'utf-8' codec can't decode the content")
    sha256_hexdigest
    (fun _ _ _ => None)
    (fun _ _ => true).

(** A manager that has just loaded an empty configuration. *)
Definition fresh : doc_manager.State := doc_manager.mkState (mkConfig (Some [])) [].

(** A manager whose store already holds [doc_url], with metadata set. *)
Definition doc_metadata : DocumentMetadata :=
  mkDocumentMetadata "https://example.com/doc.md" (Some "Docs") (Some "The example page")
    ["python"; "docs"].

Definition stored : doc_manager.State :=
  doc_manager.mkState (mkConfig (Some [("89b8c46b", doc_metadata)])) [].

(** Five URLs, two of which cannot be fetched: an unknown host and a page
    that answers 404. *)
Definition five_urls : list string :=
  [a_url; unknown_host_url; b_url; missing_url; c_url].

End sample.

(** * More of the sources

    The functions below are further functions of the same files, embedded
    in the same way: the validators of user input of
    [utils/validation.py] (module [input_validation]) and, of
    [managers/doc_manager.py], the metadata, update and filter methods
    (module [doc_updates]), [add_from_file] (module [doc_files]) and the
    packaging methods up to the creation of the package directory (module
    [doc_packaging]); and, of [utils/config.py],
    [_validate_config_structure] on the raw values [json.load] gives it
    (module [config_json]), next to its typed form in [ConfigManager].

    An event of the trace records one call of [gethostbyname] or of
    [urlopen] with its arguments.  What [urlopen] does within the call,
    such as following a redirect, is part of the answer of the
    environment and leaves no event of its own.

    A [str] typed by the user is a [string] as before; its characters are
    the code points below 256, and [PyStr.isspace] lists the white space
    among them.  On such text [Py.lower] agrees with [str.lower] wherever
    the sources compare the result with ASCII text. *)

(** [config.get("documents", {})]: the stored documents, none when the key
    is absent. *)
Definition stored_documents (cfg : Config) : Dict DocumentMetadata :=
  match documents cfg with Some d => d | None => [] end.

(** ** More of Python's [str] and [re] *)

Module PyStr.

Definition newline : ascii := ascii_of_nat 10.

(** [c.isspace()] for a character with code below 256: the codes 9 to 13,
    28 to 32, 133 and 160. *)
Definition isspace (c : ascii) : bool :=
  let n := nat_of_ascii c in
  (Nat.leb 9 n && Nat.leb n 13) || (Nat.leb 28 n && Nat.leb n 32)
  || Nat.eqb n 133 || Nat.eqb n 160.

(** [s.lstrip()], [s.rstrip()] and [s.strip()]. *)
Fixpoint lstrip (s : string) : string :=
  match s with
  | EmptyString => EmptyString
  | String c r => if isspace c then lstrip r else s
  end.

Fixpoint rstrip (s : string) : string :=
  match s with
  | EmptyString => EmptyString
  | String c r =>
      match rstrip r with
      | EmptyString => if isspace c then EmptyString else String c EmptyString
      | r' => String c r'
      end
  end.

Definition strip (s : string) : string := rstrip (lstrip s).

(** [s.split(sep)] for a separator of one character; the empty string
    gives one empty piece. *)
Fixpoint split (sep : ascii) (s : string) : list string :=
  match s with
  | EmptyString => [EmptyString]
  | String c r =>
      if Ascii.eqb c sep then EmptyString :: split sep r
      else match split sep r with
           | piece :: pieces => String c piece :: pieces
           | [] => [String c EmptyString]
           end
  end.

(** [s.startswith(prefix)] and [s.endswith(suffix)]. *)
Definition startswith (prefix s : string) : bool := String.prefix prefix s.

Fixpoint endswith (suffix s : string) : bool :=
  String.eqb suffix s ||
  match s with
  | EmptyString => false
  | String _ r => endswith suffix r
  end.

(** Every character of [s] is in the class. *)
Fixpoint all_chars (cls : ascii -> bool) (s : string) : bool :=
  match s with
  | EmptyString => true
  | String c r => cls c && all_chars cls r
  end.

(** [re.sub(cls, '', s)] for a character class. *)
Fixpoint remove_chars (cls : ascii -> bool) (s : string) : string :=
  match s with
  | EmptyString => EmptyString
  | String c r => if cls c then remove_chars cls r else String c (remove_chars cls r)
  end.

(** [s] without one final newline, if it has one. *)
Fixpoint before_final_newline (s : string) : string :=
  match s with
  | EmptyString => EmptyString
  | String c r =>
      match r with
      | EmptyString => if Ascii.eqb c newline then EmptyString else s
      | String _ _ => String c (before_final_newline r)
      end
  end.

(** [re.match('^[cls]+$', s)] as a condition, for a class that does not
    hold the newline: the dollar also matches just before a newline that
    ends the string, so one final newline is let through. *)
Definition re_match_plus (cls : ascii -> bool) (s : string) : bool :=
  let body := before_final_newline s in
  Py.truthy body && all_chars cls body.

Definition in_range (lo hi : nat) (c : ascii) : bool :=
  Nat.leb lo (nat_of_ascii c) && Nat.leb (nat_of_ascii c) hi.

Definition is_lower (c : ascii) : bool := in_range 97 122 c.
Definition is_upper (c : ascii) : bool := in_range 65 90 c.
Definition is_digit (c : ascii) : bool := in_range 48 57 c.

End PyStr.

(** ** utils/validation.py: the validators of user input *)

Module input_validation.

(** The class [a-zA-Z0-9._-]. *)
Definition package_name_char (c : ascii) : bool :=
  PyStr.is_lower c || PyStr.is_upper c || PyStr.is_digit c
  || Ascii.eqb c "."%char || Ascii.eqb c "_"%char || Ascii.eqb c "-"%char.

(** [validate_package_name(package_name)]. *)
Definition validate_package_name (package_name : string) : bool :=
  if negb (Py.truthy package_name) then false
  else if Py.len package_name >? 255 then false
  else if Py.contains ".." package_name || PyStr.startswith "/" package_name
          || PyStr.startswith "\" package_name then false
  else if negb (PyStr.re_match_plus package_name_char package_name) then false
  else if Py.mem_str (Py.lower package_name) validation.RESERVED_NAMES then false
  else if PyStr.startswith "." package_name || PyStr.endswith "." package_name
          || String.eqb package_name "." then false
  else true.

(** The class [a-z0-9-]. *)
Definition tag_char (c : ascii) : bool :=
  PyStr.is_lower c || PyStr.is_digit c || Ascii.eqb c "-"%char.

(** The loop [for tag in raw_tags] of [validate_and_clean_tags]. *)
Fixpoint collect_tags (raw_tags valid_tags : list string) : list string :=
  match raw_tags with
  | [] => valid_tags
  | tag :: rest =>
      if negb (Py.truthy tag) then collect_tags rest valid_tags
      else if negb (PyStr.re_match_plus tag_char tag) || (Py.len tag >? 20) || (Py.len tag <? 1)
      then collect_tags rest valid_tags
      else if negb (Py.mem_str tag valid_tags)
      then collect_tags rest (valid_tags ++ [tag])
      else collect_tags rest valid_tags
  end.

(** [validate_and_clean_tags(tags_input)]. *)
Definition validate_and_clean_tags (tags_input : string) : list string :=
  if negb (Py.truthy tags_input) || negb (Py.truthy (PyStr.strip tags_input)) then []
  else
    let raw_tags := map (fun tag => Py.lower (PyStr.strip tag)) (PyStr.split ","%char tags_input) in
    firstn 10 (collect_tags raw_tags []).

(** The class of control characters: the codes 0 to 31 and 127. *)
Definition control_char (c : ascii) : bool :=
  Nat.leb (nat_of_ascii c) 31 || Nat.eqb (nat_of_ascii c) 127.

(** What [validate_document_metadata] does to one field that is given:
    strip, cut at the limit, remove the control characters; an empty
    result is [None]. *)
Definition sanitize_field (limit : Z) (value : string) : option string :=
  let value := PyStr.strip value in
  let value := if Py.len value >? limit then Py.slice_to limit value else value in
  let value := PyStr.remove_chars control_char value in
  if Py.truthy value then Some value else None.

(** [validate_document_metadata(name, description)]. *)
Definition validate_document_metadata (name description : option string)
  : option string * option string :=
  let sanitized_name :=
    match name with
    | Some name => sanitize_field 200 name
    | None => None
    end in
  let sanitized_description :=
    match description with
    | Some description => sanitize_field 1000 description
    | None => None
    end in
  (sanitized_name, sanitized_description).

End input_validation.

(** ** managers/doc_manager.py: metadata, updates and filters *)

Module doc_updates.

Import doc_manager.

(** [DocumentNotFoundError] of [exceptions.py], a subclass of
    [LocalDocsError] that no [except] clause of the embedded functions
    names: it is an exception of another class with its message. *)
Definition DocumentNotFoundError (hash_id : string) : Exn :=
  mkExn builtin_Exception ("Document '" ++ hash_id ++ "' not found").

(** [KeyError(key)], whose text is the [repr] of the key. *)
Definition KeyError (key : string) : Exn :=
  mkExn builtin_Exception ("'" ++ key ++ "'").

(** [if "documents" not in self.config: self.config["documents"] = {}]. *)
Definition ensure_documents : Mgr unit :=
  fun s => (Return tt, mkState (mkConfig (Some (stored_documents (config s)))) (trace s)).

(** [self.config["documents"][hash_id]]. *)
Definition get_entry (hash_id : string) : Mgr DocumentMetadata :=
  fun s =>
    match dict_get hash_id (stored_documents (config s)) with
    | Some metadata => (Return metadata, s)
    | None => (Raise (KeyError hash_id), s)
    end.

(** [self.config["documents"][hash_id][field] = value], the field given by
    the function that sets it. *)
Definition set_field (hash_id : string) (set : DocumentMetadata -> DocumentMetadata)
  : Mgr unit :=
  metadata <- get_entry hash_id ;;
  fun s =>
    (Return tt,
     mkState (mkConfig (Some (dict_set hash_id (set metadata) (stored_documents (config s)))))
       (trace s)).

Definition with_name (value : string) (metadata : DocumentMetadata) : DocumentMetadata :=
  mkDocumentMetadata (url metadata) (Some value) (description metadata) (tags metadata).

Definition with_description (value : string) (metadata : DocumentMetadata)
  : DocumentMetadata :=
  mkDocumentMetadata (url metadata) (name metadata) (Some value) (tags metadata).

Definition with_tags (value : list string) (metadata : DocumentMetadata) : DocumentMetadata :=
  mkDocumentMetadata (url metadata) (name metadata) (description metadata) value.

(** [if value is not None: step(value)]. *)
Definition when_given {A} (value : option A) (step : A -> Mgr unit) : Mgr unit :=
  match value with
  | Some v => step v
  | None => ret tt
  end.

(** The list [updates] of [set_metadata]. *)
Definition updates (sanitized_name sanitized_description : option string)
    (tag_list : option (list string)) : list string :=
  let name_part :=
    match sanitized_name with
    | Some n => ["name: '" ++ n ++ "'"]
    | None => []
    end in
  let description_part :=
    match sanitized_description with
    | Some d => ["description: '" ++ d ++ "'"]
    | None => []
    end in
  let tags_part :=
    match tag_list with
    | Some [] => ["tags: []"]
    | Some tag_list => ["tags: [" ++ String.concat ", " tag_list ++ "]"]
    | None => []
    end in
  List.app name_part (List.app description_part tags_part).

Section WithEnv.
Context (env : Env).

(** [set_metadata(hash_id, name, description, tags)]. *)
Definition set_metadata (hash_id : string) (name' description' tags' : option string)
  : Mgr bool :=
  ensure_documents ;;;
  fun s =>
    match dict_get hash_id (stored_documents (config s)) with
    | None => (Raise (DocumentNotFoundError hash_id), s)
    | Some _ =>
        try_except
          (let '(sanitized_name, sanitized_description) :=
             input_validation.validate_document_metadata name' description' in
           when_given sanitized_name (fun v => set_field hash_id (with_name v)) ;;;
           when_given sanitized_description
             (fun v => set_field hash_id (with_description v)) ;;;
           when_given tags'
             (fun v => set_field hash_id
                         (with_tags (input_validation.validate_and_clean_tags v))) ;;;
           _save_config env ;;;
           tag_list <- match tags' with
                       | Some _ => metadata <- get_entry hash_id ;; ret (Some (tags metadata))
                       | None => ret None
                       end ;;
           lift (print ("Updated " ++ hash_id ++ ": "
                        ++ String.concat ", "
                             (updates sanitized_name sanitized_description tag_list))) ;;;
           ret true)
          (fun e => raise exceptions_ValidationError
                      ("Failed to update metadata: " ++ exn_str e))
          s
    end.

(** [update_doc(hash_id, use_async)]; [asyncio.run] of the one coroutine
    runs it to its end. *)
Definition update_doc (hash_id : string) (use_async : bool) : Mgr bool :=
  fun s =>
    match match documents (config s) with
          | Some docs => dict_get hash_id docs
          | None => None
          end with
    | None => (Raise (DocumentNotFoundError hash_id), s)
    | Some metadata =>
        (lift (print ("Updating " ++ hash_id ++ "...")) ;;;
         try_except
           (result <- (if use_async then add_doc_async env (url metadata)
                       else add_doc env (url metadata)) ;;
            if Py.truthy result
            then lift (print ("✓ " ++ hash_id ++ " updated")) ;;; ret true
            else lift (print ("✗ " ++ hash_id ++ " update failed")) ;;; ret false)
           (fun e =>
              lift (print ("✗ " ++ hash_id ++ " update failed: " ++ exn_str e)) ;;;
              reraise e)) s
    end.

(** The loop [for hash_id in docs.keys()] of [update_all].  The keys are
    those of the dictionary when the loop starts; before it takes the next
    key, and before it finds that there is none left, the iterator raises
    [RuntimeError] if the dictionary has not the size it had ([size]).
    The calls inside the loop never remove or reorder a key, so as long as
    the size is the same the keys are the same. *)
Fixpoint update_all_loop (size : nat) (keys : list string) (updated_count : Z)
    {struct keys} : Mgr Z :=
  fun s =>
    if negb (Nat.eqb (List.length (stored_documents (config s))) size)
    then (Raise (mkExn builtin_Exception "dictionary changed size during iteration"), s)
    else
      match keys with
      | [] => (Return updated_count, s)
      | hash_id :: rest =>
          (updated_count <-
             try_except
               (updated <- update_doc hash_id false ;;
                if updated : bool then ret (updated_count + 1) else ret updated_count)
               (fun e =>
                  lift (print ("Skipping " ++ hash_id ++ ": " ++ exn_str e)) ;;;
                  ret updated_count) ;;
           update_all_loop size rest updated_count) s
      end.

(** [update_single(hash_id, url)] inside [update_all_async]. *)
Definition update_single (hash_id url' : string) : Mgr bool :=
  try_except
    (_ <- add_doc_async env url' ;; ret true)
    (fun e =>
       lift (print ("✗ " ++ hash_id ++ " update failed: " ++ exn_str e)) ;;;
       ret false).

(** [asyncio.gather] over the calls of [update_single], which run one
    after the other as those of [_add_multiple_async] do. *)
Fixpoint gather_updates (urls : list (string * string)) : Mgr (list bool) :=
  match urls with
  | [] => ret []
  | (hash_id, url') :: rest =>
      result <- update_single hash_id url' ;;
      results <- gather_updates rest ;;
      ret (result :: results)
  end.

Definition updated_line (updated_count : Z) (docs : Dict DocumentMetadata) : string :=
  newline ++ "Completed: " ++ Py.str_of_int updated_count ++ "/"
    ++ Py.str_of_int (Z.of_nat (List.length docs)) ++ " documents updated".

(** [update_all(use_async)]. *)
Definition update_all (use_async : bool) : Mgr Z :=
  fun s =>
    match documents (config s) with
    | None | Some [] => (lift (print "No documents to update") ;;; ret 0) s
    | Some docs =>
        (lift (print ("Updating " ++ Py.str_of_int (Z.of_nat (List.length docs))
                      ++ " documents...")) ;;;
         updated_count <-
           (if use_async
            then
              results <- gather_updates (map (fun entry => (fst entry, url (snd entry))) docs) ;;
              ret (Z.of_nat (List.length (filter (fun result => result) results)))
            else update_all_loop (List.length docs) (map fst docs) 0) ;;
         (fun s' =>
            lift (print (updated_line updated_count (stored_documents (config s')))) s') ;;;
         ret updated_count) s
    end.

End WithEnv.

(** [set(a) == set(b)] for two lists of strings. *)
Definition set_eq (a b : list string) : bool :=
  forallb (fun x => Py.mem_str x b) a && forallb (fun x => Py.mem_str x a) b.

(** The set [all_available_tags] of [_filter_docs_by_tags], as the list of
    the tags in use. *)
Definition all_available_tags (docs : Dict DocumentMetadata) : list string :=
  flat_map (fun entry => tags (snd entry)) docs.

(** The test that keeps a document in [_filter_docs_by_tags]. *)
Definition shown (tag_filters : list string) (metadata : DocumentMetadata) : bool :=
  let doc_tags := tags metadata in
  existsb (fun tag => Py.mem_str tag tag_filters) doc_tags
  || (match doc_tags with [] => true | _ => false end
      && match tag_filters with [] => true | _ => false end).

(** [_filter_docs_by_tags(docs, tag_filters)]. *)
Definition _filter_docs_by_tags (docs : Dict DocumentMetadata) (tag_filters : list string)
  : Dict DocumentMetadata :=
  match tag_filters with
  | [] => []
  | _ =>
      if set_eq tag_filters (all_available_tags docs) then docs
      else
        fold_left
          (fun filtered_docs entry =>
             if shown tag_filters (snd entry)
             then dict_set (fst entry) (snd entry) filtered_docs
             else filtered_docs)
          docs []
  end.

End doc_updates.

(** ** managers/doc_manager.py: [add_from_file] *)

Module doc_files.

Import doc_manager.

(** What [Path.exists], [open] and the iteration over the lines of the
    file give: the file does not exist; [open] raises; or the lines that
    are read, each with its line end, and the error that stops the reading
    after them if there is one. *)
Inductive FileRead : Type :=
| NoSuchFile
| OpenFailed (msg : string)
| Lines (lines : list string) (failure : option string).

(** The file system, asked after the trace so far. *)
Definition FileSystem : Type := list Event -> string -> FileRead.

(** The loop [for line_num, line in enumerate(f, 1)]. *)
Fixpoint collect_urls (lines : list string) (line_num : Z) (urls : list string)
  : Mgr (list string) :=
  match lines with
  | [] => ret urls
  | line :: rest =>
      let line := PyStr.strip line in
      if Py.truthy line && negb (PyStr.startswith "#" line)
      then
        if negb (PyStr.startswith "http://" line || PyStr.startswith "https://" line)
        then
          lift (print ("Warning: Skipping invalid URL on line " ++ Py.str_of_int line_num
                       ++ ": " ++ line)) ;;;
          collect_urls rest (line_num + 1) urls
        else collect_urls rest (line_num + 1) (urls ++ [line])
      else collect_urls rest (line_num + 1) urls
  end.

Section WithEnv.
Context (env : Env) (read_file : FileSystem).

(** [add_from_file(file_path, use_async)]. *)
Definition add_from_file (file_path : string) (use_async : bool) : Mgr Z :=
  try_except
    (fun s =>
       match read_file (trace s) file_path with
       | NoSuchFile =>
           raise exceptions_ValidationError ("File not found: " ++ file_path) s
       | OpenFailed msg => raise builtin_Exception msg s
       | Lines lines failure =>
           (urls <- collect_urls lines 1 [] ;;
            match failure with
            | Some msg => raise builtin_Exception msg
            | None =>
                match urls with
                | [] => lift (print ("No valid URLs found in " ++ file_path)) ;;; ret 0
                | _ :: _ => add_multiple env urls use_async
                end
            end) s
       end)
    (fun e =>
       raise exceptions_ValidationError
         ("Error reading " ++ file_path ++ ": " ++ exn_str e)).

End WithEnv.
End doc_files.

(** ** managers/doc_manager.py: packaging, up to the package directory *)

Module doc_packaging.

Import doc_manager.

(** [PackagingError] of [exceptions.py], which no [except] clause of the
    embedded functions names. *)
Definition PackagingError (msg : string) : Exn := mkExn builtin_Exception msg.

(** The loop [for doc_id in include_docs] of [package_selected_docs]. *)
Fixpoint select_docs (include_docs : list string) (all_docs docs : Dict DocumentMetadata)
    (missing_docs : list string) : Dict DocumentMetadata * list string :=
  match include_docs with
  | [] => (docs, missing_docs)
  | doc_id :: rest =>
      match dict_get doc_id all_docs with
      | Some metadata => select_docs rest all_docs (dict_set doc_id metadata docs) missing_docs
      | None => select_docs rest all_docs docs (missing_docs ++ [doc_id])
      end
  end.

Section WithFiles.

(** [Path(name).resolve()] (the resolved path as a string, or the text of
    an [OSError]) and [Path.exists], asked after the trace so far; and
    everything [package_selected_docs] does once the path has passed its
    checks: [mkdir], the generation and the writing of the package, with
    their own error handling. *)
Context (resolve : list Event -> string -> string + string)
        (path_exists : list Event -> string -> bool)
        (create_package : string -> string -> Dict DocumentMetadata -> string -> bool
                          -> Mgr bool).

(** [package_selected_docs(package_name, include_docs, format_type, soft_links)]. *)
Definition package_selected_docs (package_name : string) (include_docs : list string)
    (format_type : string) (soft_links : bool) : Mgr bool :=
  fun s =>
    match documents (config s) with
    | None | Some [] => (lift (print "No documents available for packaging") ;;; ret true) s
    | Some all_docs =>
        if negb (input_validation.validate_package_name package_name)
        then raise exceptions_ValidationError
               ("Invalid package name '" ++ package_name
                ++ "'. Use only alphanumeric characters, hyphens, underscores, and dots.") s
        else
          let '(docs, missing_docs) := select_docs include_docs all_docs [] [] in
          (match missing_docs with
           | [] => ret tt
           | _ :: _ =>
               lift (print ("Warning: Documents not found: "
                            ++ String.concat ", " missing_docs))
           end ;;;
           match docs with
           | [] => lift (print "No valid documents to package") ;;; ret false
           | _ :: _ =>
               fun s1 =>
                 match resolve (trace s1) package_name with
                 | inl msg =>
                     (Raise (PackagingError ("Cannot create package directory: " ++ msg)), s1)
                 | inr package_path =>
                     if path_exists (trace s1) package_path
                     then (Raise (PackagingError
                                    ("Directory '" ++ package_name ++ "' already exists")), s1)
                     else if Py.contains ".." package_path
                             || PyStr.startswith "/" package_path
                     then (Raise (PackagingError
                                    "Cannot create package directory: Invalid package path"),
                           s1)
                     else create_package package_name package_path docs format_type
                            soft_links s1
                 end
           end) s
    end.

(** [package_all_docs(package_name, format_type, soft_links)]. *)
Definition package_all_docs (package_name format_type : string) (soft_links : bool)
  : Mgr bool :=
  fun s =>
    match documents (config s) with
    | None | Some [] => (lift (print "No documents available for packaging") ;;; ret true) s
    | Some all_docs =>
        package_selected_docs package_name (map fst all_docs) format_type soft_links s
    end.

End WithFiles.
End doc_packaging.

(** ** utils/config.py: [_validate_config_structure] on the values it is given *)

Module config_json.

(** A configuration as [json.load] returns it, before anything is known
    of its shape: a JSON value.  The keys of an object are strings, so
    the test [isinstance(hash_id, str)] of the loop always holds; no two
    entries share one object. *)
#[warnings="-register-all"] Inductive Json : Type :=
| JNull
| JBool (b : bool)
| JInt (n : Z)
| JFloat (repr : string)
| JStr (s : string)
| JList (items : list Json)
| JDict (items : Dict Json).

(** [value is None]; [isinstance(value, str)]. *)
Definition is_none (value : Json) : bool :=
  match value with JNull => true | _ => false end.

Definition isinstance_str (value : Json) : bool :=
  match value with JStr _ => true | _ => false end.

(** [key in d]. *)
Definition contains {V} (key : string) (d : Dict V) : bool :=
  match dict_get key d with Some _ => true | None => false end.

(** The condition of the list comprehension over the tags:
    [isinstance(tag, str) and len(tag) <= 20]. *)
Definition keep_tag (tag : Json) : bool :=
  match tag with JStr s => Py.len s <=? 20 | _ => false end.

(** The last branch of the loop body: the tags are set to the empty list
    when the key is absent or its value is no list, and filtered
    otherwise. *)
Definition clean_tags (metadata : Dict Json) : Dict Json :=
  match dict_get "tags" metadata with
  | None => dict_set "tags" (JList []) metadata
  | Some (JList tags) => dict_set "tags" (JList (filter keep_tag tags)) metadata
  | Some _ => dict_set "tags" (JList []) metadata
  end.

Definition ValidationError (msg : string) : Exn := mkExn validation_ValidationError msg.

Section WithStr.

(** [str(value)] for a value that is no string. *)
Context (py_str : Json -> string).

(** The treatment of [name] and of [description]: a value that is there,
    is not [None] and is no string is replaced by its [str]. *)
Definition coerce_field (key : string) (metadata : Dict Json) : Dict Json :=
  match dict_get key metadata with
  | Some value =>
      if negb (is_none value) && negb (isinstance_str value)
      then dict_set key (JStr (py_str value)) metadata
      else metadata
  | None => metadata
  end.

(** The body of the loop for one entry: what it raises, or the metadata
    as it leaves them.  The three checks come before the first
    assignment, so an entry that raises is left as it was. *)
Definition validate_entry (hash_id : string) (metadata : Json) : Outcome Json :=
  if negb (Py.len hash_id =? 8)
  then Raise (ValidationError ("Invalid document hash ID: " ++ hash_id))
  else
    match metadata with
    | JDict fields =>
        if negb (contains "url" fields)
        then Raise (ValidationError ("Document missing URL: " ++ hash_id))
        else Return (JDict (clean_tags
                              (coerce_field "description" (coerce_field "name" fields))))
    | _ => Raise (ValidationError ("Document metadata must be a dictionary: " ++ hash_id))
    end.

(** The loop [for hash_id, metadata in documents.items()]: the entries
    are updated in place, and the loop stops at the first one that
    raises. *)
Fixpoint validate_documents (documents : Dict Json) : Outcome unit * Dict Json :=
  match documents with
  | [] => (Return tt, [])
  | (hash_id, metadata) :: rest =>
      match validate_entry hash_id metadata with
      | Raise e => (Raise e, documents)
      | Return metadata' =>
          let '(r, rest') := validate_documents rest in
          (r, (hash_id, metadata') :: rest')
      end
  end.

(** [_validate_config_structure(config)]: the outcome, and the value of
    the argument as the call leaves it (it is updated in place, and is
    what the call returns). *)
Definition _validate_config_structure (config : Json) : Outcome unit * Json :=
  match config with
  | JDict fields =>
      let fields :=
        if negb (contains "storage_directory" fields)
        then dict_set "storage_directory" (JStr ".") fields else fields in
      let fields :=
        if negb (contains "documents" fields)
        then dict_set "documents" (JDict []) fields else fields in
      match dict_get "storage_directory" fields with
      | Some (JStr _) =>
          match dict_get "documents" fields with
          | Some (JDict documents) =>
              let '(r, documents') := validate_documents documents in
              (r, JDict (dict_set "documents" (JDict documents') fields))
          | _ => (Raise (ValidationError "documents must be a dictionary"), JDict fields)
          end
      | _ => (Raise (ValidationError "storage_directory must be a string"), JDict fields)
      end
  | _ => (Raise (ValidationError "Config must be a dictionary"), config)
  end.

End WithStr.

End config_json.

(** * Vocabulary of the properties *)

(** An address fits the width of its family. *)
Definition valid_ip (ip_addr : IPAddress) : Prop :=
  match ip_addr with
  | IPv4Address a => 0 <= a < 2 ^ 32
  | IPv6Address a => 0 <= a < 2 ^ 128
  end.

(** A prefix as the specification names it: a family, a first address and
    a number of leading bits; it covers the addresses from the first one up
    to the last one with the same leading bits. *)
Inductive Family : Type := V4 | V6.

Record Prefix : Type := mkPrefix {
  family : Family;
  first_address : Z;
  leading_bits : Z
}.

Definition family_width (f : Family) : Z :=
  match f with V4 => 32 | V6 => 128 end.

Definition inside (ip_addr : IPAddress) (p : Prefix) : bool :=
  let hosts := 2 ^ (family_width (family p) - leading_bits p) in
  match ip_addr, family p with
  | IPv4Address a, V4 | IPv6Address a, V6 =>
      (first_address p <=? a) && (a <? first_address p + hosts)
  | _, _ => false
  end.

(** 10.0.0.0/8, 172.16.0.0/12, 192.168.0.0/16, 127.0.0.0/8, 169.254.0.0/16,
    224.0.0.0/4, 240.0.0.0/4, ::1/128, fc00::/7, fe80::/10. *)
Definition blocked_prefixes : list Prefix :=
  [ mkPrefix V4 (ipv4 10 0 0 0) 8;
    mkPrefix V4 (ipv4 172 16 0 0) 12;
    mkPrefix V4 (ipv4 192 168 0 0) 16;
    mkPrefix V4 (ipv4 127 0 0 0) 8;
    mkPrefix V4 (ipv4 169 254 0 0) 16;
    mkPrefix V4 (ipv4 224 0 0 0) 4;
    mkPrefix V4 (ipv4 240 0 0 0) 4;
    mkPrefix V6 1 128;
    mkPrefix V6 (0xfc00 * 2 ^ 112) 7;
    mkPrefix V6 (0xfe80 * 2 ^ 112) 10 ].

Definition in_blocked_prefix (ip_addr : IPAddress) : bool :=
  existsb (inside ip_addr) blocked_prefixes.

(** The prefix that corresponds to a network object. *)
Definition prefix_of (network : IPNetwork) : Prefix :=
  match network with
  | IPv4Network n p => mkPrefix V4 n p
  | IPv6Network n p => mkPrefix V6 n p
  end.

(** A network object is well formed: the prefix length fits the family and
    the network address has no host bit set. *)
Definition aligned (network : IPNetwork) : bool :=
  let p := prefix_of network in
  let w := family_width (family p) in
  (0 <=? leading_bits p) && (leading_bits p <=? w)
  && (first_address p mod 2 ^ (w - leading_bits p) =? 0).

(** What [validate_url_security] still has to do once the address check
    has let the address through. *)
Definition after_address_check (env : Env) (url : string) (timeout : Z)
    (parsed : ParseResult) : Net (bool * option string) :=
  try_except
    (validation.check_port parsed ;;; validation.trial_request env url timeout)
    validation.reraise_or_wrap.

(** An event that opens a connection to the URL's destination. *)
Definition is_request (e : Event) : bool :=
  match e with
  | ev_urlopen _ _ => true
  | _ => false
  end.

(** The four checks of the gate, evaluated in the world as it is after the
    trace [h]: the scheme is allowed, a host name is present, it resolves,
    and the resolved address is in no blocked range. *)
Definition security_checks_pass (env : Env) (h : list Event) (url : string) : bool :=
  match urlparse env url with
  | inl _ => false
  | inr parsed =>
      Py.mem_str (Py.lower (scheme parsed)) validation.ALLOWED_SCHEMES &&
      match hostname parsed with
      | None => false
      | Some host =>
          Py.truthy host &&
          match gethostbyname env h host with
          | Resolved ip_addr =>
              negb (existsb (ip_in_network ip_addr) validation.PRIVATE_IP_RANGES)
          | _ => false
          end
      end
  end.

(** A run that starts after the trace [h] is gated: it only appends events;
    when a check fails it raises and appends no request; any request it
    appends comes after a resolution, the checks having passed. *)
Definition gated {A} (env : Env) (url : string) (h : list Event)
    (run : Outcome A * list Event) : Prop :=
  exists evs,
    snd run = (h ++ evs)%list /\
    (security_checks_pass env h url = false ->
       (exists e, fst run = Raise e) /\ filter is_request evs = []) /\
    (forall pre e post,
       evs = (pre ++ e :: post)%list -> is_request e = true ->
       security_checks_pass env h url = true /\
       exists host, In (ev_gethostbyname host) pre).

(** The [content-length] header is absent, or declares a size within the
    maximum (so it is silent about, or understates, a larger body). *)
Definition header_absent_or_within (response : Response) (max_size : Z) : Prop :=
  match content_length response with
  | None => True
  | Some (_, IntValue n) => n <= max_size
  | Some (_, IntValueError _) => False
  end.

(** The body has zero bytes: the first [read] returns [b'']. *)
Definition zero_byte_body (response : Response) : Prop :=
  reads response = [] \/ exists rest, reads response = ReadBytes [] :: rest.

(** The order of the decoding attempts as the specification gives it. *)
Definition fallback_order : list string := ["utf-8"; "latin-1"; "cp1252"; "iso-8859-1"].

(** The first successful decode along a list of encodings. *)
Fixpoint first_decoded (env : Env) (encodings : list string) (content_bytes : Bytes)
  : option Text :=
  match encodings with
  | [] => None
  | encoding :: rest =>
      match decode env encoding content_bytes with
      | Some text => Some text
      | None => first_decoded env rest content_bytes
      end
  end.

(** [hashlib.sha256(...).hexdigest()] has 64 characters. *)
Definition hexdigest_ok (env : Env) : Prop :=
  forall text, String.length (sha256_hexdigest env text) = 64%nat.

(** The batch as the specification describes it: every URL of the list is
    run once, in order; a failure is reported on one line and the next URL
    is run from there. *)
Definition log_skip (url : string) (e : Exn) (s : doc_manager.State) : doc_manager.State :=
  doc_manager.mkState (doc_manager.config s)
    (doc_manager.trace s ++ [ev_print ("Skipping " ++ url ++ ": " ++ exn_str e)])%list.

Fixpoint run_each (op : string -> doc_manager.Mgr string) (urls : list string)
    (s : doc_manager.State) : list (Outcome string) * doc_manager.State :=
  match urls with
  | [] => ([], s)
  | url :: rest =>
      let '(o, s1) := op url s in
      let s2 := match o with
                | Return _ => s1
                | Raise e => log_skip url e s1
                end in
      let '(os, s3) := run_each op rest s2 in
      (o :: os, s3)
  end.

Definition succeeded {A} (o : Outcome A) : bool :=
  match o with
  | Return _ => true
  | Raise _ => false
  end.

Definition successes {A} (outcomes : list (Outcome A)) : Z :=
  Z.of_nat (List.length (filter succeeded outcomes)).

Definition failures {A} (outcomes : list (Outcome A)) : Z :=
  Z.of_nat (List.length (filter (fun o => negb (succeeded o)) outcomes)).

(** The per-URL operation of each mode. *)
Definition batch_op (env : Env) (use_async : bool) : string -> doc_manager.Mgr string :=
  if use_async then doc_manager.add_doc_async env else doc_manager.add_doc env.

(** The first and the last line a batch prints. *)
Definition announced (urls : list string) (s : doc_manager.State) : doc_manager.State :=
  doc_manager.mkState (doc_manager.config s)
    (doc_manager.trace s
       ++ [ev_print ("Downloading " ++ Py.str_of_int (Z.of_nat (List.length urls))
                     ++ " documents...")])%list.

Definition concluded (count : Z) (urls : list string) (s : doc_manager.State)
  : doc_manager.State :=
  doc_manager.mkState (doc_manager.config s)
    (doc_manager.trace s ++ [ev_print (doc_manager.completed_line count urls)])%list.

(** The gate rejects a URL, in every state of the world, with an exception
    that is ([true]) or is not ([false]) of the security class [SSRFError]. *)
Definition rejected_as (env : Env) (url : string) (security : bool) : Prop :=
  forall h, exists e h',
    network_simple.validate_url_sync env url network_simple.VALIDATION_TIMEOUT h = (Raise e, h')
    /\ ExnClass_eqb (exn_class e) validation_SSRFError = security.

(** The claim that the result of a batch tells a security rejection from an
    ordinary failure: two one-URL batches, one of each kind, started in the
    same state, would have to deliver different results. *)
Definition categories_reach_caller : Prop :=
  forall env use_async s url1 url2,
    rejected_as env url1 true ->
    rejected_as env url2 false ->
    fst (doc_manager.add_multiple env [url1] use_async s)
    <> fst (doc_manager.add_multiple env [url2] use_async s).

(** A manager whose store holds one document, the one of [url], added and
    never given a name, a description or tags. *)
Definition holding (env : Env) (url' : string) : doc_manager.State :=
  doc_manager.mkState
    (mkConfig (Some [(doc_manager._generate_hash_id env url',
                      mkDocumentMetadata url' None None [])])) [].

(** A configuration as [load_config] and [set_metadata] leave it: no tag is
    longer than 20 characters. *)
Definition tags_within_limit (metadata : DocumentMetadata) : Prop :=
  Forall (fun tag => Py.len tag <= 20) (tags metadata).

Definition validated (cfg : Config) : Prop :=
  forall docs, documents cfg = Some docs ->
               Forall (fun entry => tags_within_limit (snd entry)) docs.

(** A later trace extends an earlier one. *)
Definition extends (h h' : list Event) : Prop := exists evs, h' = (h ++ evs)%list.

(** The configuration after a successful update of the entry of [url]:
    the entry is set, then the save validates the documents in place. *)
Definition config_after_update (env : Env) (url' : string) (cfg : Config) : Config :=
  let docs := match documents cfg with Some d => d | None => [] end in
  snd (ConfigManager._validate_config_structure
         (mkConfig (Some (doc_manager.set_document_url
                            (doc_manager._generate_hash_id env url') url' docs)))).

(** What a call leaves of a stored entry: the entry of the same key keeps
    its name, description and tags; its URL is the old one or the new one,
    and the new one when the call succeeds; every other key keeps its
    entry. *)
Definition entry_preserved (hash_id url' : string) (metadata : DocumentMetadata)
    (docs : Dict DocumentMetadata) (run : Outcome string * doc_manager.State) : Prop :=
  exists docs' metadata',
    documents (doc_manager.config (snd run)) = Some docs'
    /\ dict_get hash_id docs' = Some metadata'
    /\ name metadata' = name metadata
    /\ description metadata' = description metadata
    /\ tags metadata' = tags metadata
    /\ (url metadata' = url metadata \/ url metadata' = url')
    /\ (succeeded (fst run) = true -> url metadata' = url')
    /\ (forall k, k <> hash_id -> dict_get k docs' = dict_get k docs).

(** The first two steps of [add_doc]: validate, then download. *)
Definition validate_and_download (env : Env) (url' : string) : doc_manager.Mgr Text :=
  (doc_manager.validate_url env url' ;;;
   doc_manager.lift (network_simple.download_content_sync env url'
                       network_simple.MAX_CONTENT_LENGTH
                       network_simple.DOWNLOAD_TIMEOUT))%py.

(** A computation of the manager only appends to the trace. *)
Definition only_appends {A} (m : doc_manager.Mgr A) : Prop :=
  forall s, extends (doc_manager.trace s) (doc_manager.trace (snd (m s))).

(** ** Vocabulary for the further properties *)

(** An event on the network: a resolution or a request. *)
Definition is_network (e : Event) : bool :=
  match e with
  | ev_gethostbyname _ | ev_urlopen _ _ => true
  | _ => false
  end.

(** The events one validation may append: nothing, the resolution, or the
    resolution and the trial request. *)
Definition validation_events (url' : string) (timeout : Z) (evs : list Event) : Prop :=
  evs = []
  \/ exists host,
       evs = [ev_gethostbyname host]
       \/ evs = [ev_gethostbyname host; ev_urlopen url' timeout].

(** The host name [validate_url_security] resolves for a URL. *)
Definition host_of (env : Env) (url' host : string) : Prop :=
  exists parsed, urlparse env url' = inr parsed /\ hostname parsed = Some host.

(** What [add_doc] may write: nothing; the content file, with a content
    that is not empty; or the content file and then the configuration. *)
Definition write_events (writes : list Event) : Prop :=
  writes = []
  \/ exists filename content,
       content <> []
       /\ (writes = [ev_write_file filename content]
           \/ exists cfg, writes = [ev_write_file filename content; ev_write_config cfg]).

(** The network events of one validation that passes, and of one download
    that reaches the real GET. *)
Definition validated_once (url' host : string) : list Event :=
  [ev_gethostbyname host; ev_urlopen url' network_simple.VALIDATION_TIMEOUT].

Definition downloaded_once (url' host : string) : list Event :=
  (validated_once url' host
     ++ [ev_urlopen url' network_simple.DOWNLOAD_TIMEOUT])%list.

(** The order of the effects of one [add_doc] or [add_doc_async]: the
    opening line; then network events only; then what is written; then one
    closing line.  Something is written only after the whole network part
    ([full_net]) has taken place; a call that returns has written the
    content file and then the configuration it leaves in memory. *)
Definition effects_in_order (env : Env) (url' : string) (full_net : string -> list Event)
    (s : doc_manager.State) (run : Outcome string * doc_manager.State) : Prop :=
  exists net writes closing,
    doc_manager.trace (snd run)
    = (doc_manager.trace s
         ++ ev_print ("Downloading " ++ url' ++ "...") :: net ++ writes ++ [ev_print closing])%list
    /\ Forall (fun e => is_network e = true) net
    /\ write_events writes
    /\ (writes <> [] -> exists host, host_of env url' host /\ net = full_net host)
    /\ (forall r, fst run = Return r ->
        r = doc_manager._generate_hash_id env url'
        /\ closing = "✓ Downloaded as " ++ r ++ ".md"
        /\ exists filename content,
             writes = [ev_write_file filename content;
                       ev_write_config (doc_manager.config (snd run))])
    /\ (forall e, fst run = Raise e -> closing = "✗ Failed to download " ++ url').

(** A download step as [add_doc] and [add_doc_async] use one: it keeps the
    configuration, appends network events only, and has appended the
    whole network part when it returns. *)
Definition network_step (env : Env) (url' : string) (full_net : string -> list Event)
    (download : doc_manager.Mgr Text) : Prop :=
  forall s, exists net,
    snd (download s)
    = doc_manager.mkState (doc_manager.config s) (doc_manager.trace s ++ net)%list
    /\ Forall (fun e => is_network e = true) net
    /\ (forall content, fst (download s) = Return content ->
        exists host, host_of env url' host /\ net = full_net host).

(** Two versions of an entry that differ at most in that the new one has
    lost the tags longer than 20 characters. *)
Definition same_but_tags (old new : DocumentMetadata) : Prop :=
  url new = url old
  /\ name new = name old
  /\ description new = description old
  /\ (tags new = filter (fun tag => Py.len tag <=? 20) (tags old) \/ tags new = tags old).

(** *** User input *)

(** The last character of a string. *)
Fixpoint last_char (s : string) : option ascii :=
  match s with
  | EmptyString => None
  | String c r =>
      match r with
      | EmptyString => Some c
      | String _ _ => last_char r
      end
  end.

(** A name that can be used as one component of a path: it is not empty,
    has at most 255 characters, holds no separator and no [..], does not
    start with a dot, and is made of the characters of [a-zA-Z0-9._-],
    with at most one newline after them. *)
Definition safe_package_name (package_name : string) : Prop :=
  package_name <> EmptyString
  /\ Py.len package_name <= 255
  /\ Py.contains "/" package_name = false
  /\ Py.contains "\" package_name = false
  /\ Py.contains ".." package_name = false
  /\ PyStr.startswith "." package_name = false
  /\ exists body,
       (package_name = body \/ package_name = body ++ String PyStr.newline EmptyString)
       /\ body <> EmptyString
       /\ PyStr.all_chars input_validation.package_name_char body = true.

(** A tag as the store keeps it: 1 to 20 characters of [a-z0-9-]. *)
Definition valid_tag (tag : string) : Prop :=
  tag <> EmptyString
  /\ Py.len tag <= 20
  /\ PyStr.all_chars input_validation.tag_char tag = true.

(** A list of tags as [validate_and_clean_tags] returns one: valid tags,
    no tag twice, ten tags at most. *)
Definition well_formed_tags (tags : list string) : Prop :=
  Forall valid_tag tags /\ NoDup tags /\ (List.length tags <= 10)%nat.

(** A sanitized field: unset, or a text that is not empty, within the
    limit and free of control characters. *)
Definition sanitized (limit : Z) (field : option string) : Prop :=
  forall value, field = Some value ->
    value <> EmptyString
    /\ Py.len value <= limit
    /\ PyStr.all_chars (fun c => negb (input_validation.control_char c)) value = true.

(** A lower-case hexadecimal digit, and a digest made of 64 of them. *)
Definition hex_char (c : ascii) : bool := PyStr.is_digit c || PyStr.in_range 97 102 c.

Definition hexdigest_hex (env : Env) : Prop :=
  forall text, String.length (sha256_hexdigest env text) = 64%nat
               /\ PyStr.all_chars hex_char (sha256_hexdigest env text) = true.

(** The replacement [sanitize_filename] applies to each character. *)
Definition replace_dangerous (c : ascii) : ascii :=
  if validation.dangerous_char c then "_"%char else c.

(** *** The document store *)

(** Every key of the store is the hash ID of the URL of its entry. *)
Definition keys_are_hashes (env : Env) (docs : Dict DocumentMetadata) : Prop :=
  Forall (fun entry => fst entry = doc_manager._generate_hash_id env (url (snd entry))) docs.

(** A store as the manager builds one: every tag is within the limit, every
    key is the hash ID of its URL, and no key occurs twice (it is a
    dictionary). *)
Definition well_formed_store (env : Env) (cfg : Config) : Prop :=
  validated cfg
  /\ keys_are_hashes env (stored_documents cfg)
  /\ NoDup (map fst (stored_documents cfg)).

(** The entry [set_metadata] leaves for given arguments: the name and the
    description are replaced when their sanitized value is set, the tags
    whenever tags are given. *)
Definition edited (name' description' tags' : option string) (metadata : DocumentMetadata)
  : DocumentMetadata :=
  let sanitized_fields := input_validation.validate_document_metadata name' description' in
  mkDocumentMetadata (url metadata)
    (match fst sanitized_fields with Some v => Some v | None => name metadata end)
    (match snd sanitized_fields with Some v => Some v | None => description metadata end)
    (match tags' with
     | Some v => input_validation.validate_and_clean_tags v
     | None => tags metadata
     end).

(** What [set_metadata] appends to the trace: nothing, the write of the
    configuration, or the write and the line that reports the update. *)
Definition metadata_events (cfg : Config) (evs : list Event) : Prop :=
  evs = [] \/ evs = [ev_write_config cfg]
  \/ exists line, evs = [ev_write_config cfg; ev_print line].

(** *** What the network calls are given *)

(** A call that names nothing outside a list of URLs: [urlopen] is given a
    URL of the list, [gethostbyname] is given the host name of a URL of the
    list.  An event records the call and its argument; what [urlopen] does
    within the call, such as following a redirect to another URL, is no
    event and is not described by this predicate. *)
Definition call_within (env : Env) (urls : list string) (e : Event) : Prop :=
  match e with
  | ev_urlopen u _ => In u urls
  | ev_gethostbyname host => exists u, In u urls /\ host_of env u host
  | _ => True
  end.

(** A computation that only appends events with a given property. *)
Definition net_appends (P : Event -> Prop) {A} (m : Net A) : Prop :=
  forall h, exists evs, snd (m h) = (h ++ evs)%list /\ Forall P evs.

Definition appends (P : Event -> Prop) {A} (m : doc_manager.Mgr A) : Prop :=
  forall s, exists evs,
    doc_manager.trace (snd (m s)) = (doc_manager.trace s ++ evs)%list /\ Forall P evs.

(** A line of a URL file that [add_from_file] takes as a URL. *)
Definition url_line (line : string) : bool :=
  Py.truthy line && negb (PyStr.startswith "#" line)
  && (PyStr.startswith "http://" line || PyStr.startswith "https://" line).

Definition url_lines (lines : list string) : list string :=
  filter url_line (map PyStr.strip lines).

(** *** Raw configurations *)

(** [value.get(key)] of a JSON object; nothing for another value. *)
Definition json_field (key : string) (value : config_json.Json) : option config_json.Json :=
  match value with
  | config_json.JDict fields => dict_get key fields
  | _ => None
  end.

(** The documents of a raw configuration, none when there is no such
    object. *)
Definition json_documents (config : config_json.Json) : Dict config_json.Json :=
  match json_field "documents" config with
  | Some (config_json.JDict documents) => documents
  | _ => []
  end.

(** A name or a description after the validation: what was absent, [None]
    or a string is as it was; another value has become its [str]. *)
Definition coerced (py_str : config_json.Json -> string) (old : option config_json.Json)
  : option config_json.Json :=
  match old with
  | None => None
  | Some config_json.JNull => old
  | Some (config_json.JStr _) => old
  | Some value => Some (config_json.JStr (py_str value))
  end.

(** The tags after the validation: of a list, the strings of at most 20
    characters, in their order; the empty list in place of anything
    else. *)
Definition cleaned (old : option config_json.Json) : config_json.Json :=
  match old with
  | Some (config_json.JList tags) => config_json.JList (filter config_json.keep_tag tags)
  | _ => config_json.JList []
  end.

(** An entry before and after its validation: the name and the
    description are coerced, the tags cleaned, and every other field, the
    URL among them, is as it was. *)
Definition entry_sanitized (py_str : config_json.Json -> string)
    (old new : config_json.Json) : Prop :=
  json_field "name" new = coerced py_str (json_field "name" old)
  /\ json_field "description" new = coerced py_str (json_field "description" old)
  /\ json_field "tags" new = Some (cleaned (json_field "tags" old))
  /\ forall key, key <> "name" -> key <> "description" -> key <> "tags" ->
                 json_field key new = json_field key old.

(** An entry the loop accepts: its key has 8 characters and its metadata
    are an object with a URL. *)
Definition entry_accepted (entry : string * config_json.Json) : Prop :=
  Py.len (fst entry) = 8
  /\ exists fields, snd entry = config_json.JDict fields /\ dict_get "url" fields <> None.

(** A raw configuration [_validate_config_structure] accepts: an object
    whose storage directory, if any, is a string, and whose documents, if
    any, are an object of accepted entries. *)
Definition config_accepted (config : config_json.Json) : Prop :=
  exists fields,
    config = config_json.JDict fields
    /\ match dict_get "storage_directory" fields with
       | None | Some (config_json.JStr _) => True
       | Some _ => False
       end
    /\ match dict_get "documents" fields with
       | None => True
       | Some (config_json.JDict documents) => Forall entry_accepted documents
       | Some _ => False
       end.

(** The typed configuration of the manager as a raw value: the entries as
    [add_doc] writes them. *)
Definition json_of_option (field : option string) : config_json.Json :=
  match field with Some value => config_json.JStr value | None => config_json.JNull end.

Definition json_of_metadata (metadata : DocumentMetadata) : config_json.Json :=
  config_json.JDict
    [("url", config_json.JStr (url metadata));
     ("name", json_of_option (name metadata));
     ("description", json_of_option (description metadata));
     ("tags", config_json.JList (map config_json.JStr (tags metadata)))].

Definition json_of_documents (docs : Dict DocumentMetadata) : Dict config_json.Json :=
  map (fun entry => (fst entry, json_of_metadata (snd entry))) docs.

Definition json_of_config (cfg : Config) : config_json.Json :=
  config_json.JDict
    (("storage_directory", config_json.JStr ".")
     :: match documents cfg with
        | Some docs => [("documents", config_json.JDict (json_of_documents docs))]
        | None => []
        end).

(** A raw configuration as a hand-edited file may hold one: no storage
    directory, a number as a name, and among the tags a number and a tag
    of more than 20 characters. *)
Definition raw_sample : config_json.Json :=
  config_json.JDict
    [("documents",
      config_json.JDict
        [("89b8c46b",
          config_json.JDict
            [("url", config_json.JStr "https://example.com/a.md");
             ("name", config_json.JInt 42);
             ("tags", config_json.JList
                        [config_json.JStr "guide"; config_json.JInt 7;
                         config_json.JStr "a-tag-of-more-than-20-characters"])])])].

(** * Properties *)

(** ** The IP range table *)

Section Netmask.

Local Open Scope Z_scope.

Lemma testbit_high (w a i : Z) : 0 <= w -> 0 <= a < 2 ^ w -> w <= i -> Z.testbit a i = false.
Proof.
  intros Hw Ha Hi.
  rewrite <- (Z.mod_small a (2 ^ w)) by exact Ha.
  apply Z.mod_pow2_bits_high. lia.
Qed.

(** Masking with the netmask of a prefix clears the host bits. *)
Lemma land_netmask (w p a : Z) :
  0 <= p <= w -> 0 <= a < 2 ^ w ->
  Z.land a (ip_int_from_prefix w p) = a / 2 ^ (w - p) * 2 ^ (w - p).
Proof.
  intros Hp Ha.
  rewrite <- Z.shiftr_div_pow2, <- Z.shiftl_mul_pow2 by lia.
  unfold ip_int_from_prefix, ALL_ONES.
  replace (2 ^ w - 1) with (Z.ones w) by (rewrite Z.ones_equiv; lia).
  apply Z.bits_inj'. intros i Hi.
  rewrite Z.land_spec, Z.lxor_spec, Z.shiftr_spec by lia.
  rewrite !Z.testbit_ones_nonneg by lia.
  destruct (Z.ltb_spec i (w - p)) as [Hlow | Hhigh].
  - rewrite Z.shiftl_spec_low by lia.
    replace (i <? w) with true by (symmetry; apply Z.ltb_lt; lia).
    replace (i + p <? w) with true by (symmetry; apply Z.ltb_lt; lia).
    apply Bool.andb_false_r.
  - rewrite Z.shiftl_spec by lia.
    rewrite Z.shiftr_spec by lia.
    replace (i - (w - p) + (w - p)) with i by lia.
    replace (i + p <? w) with false by (symmetry; apply Z.ltb_ge; lia).
    destruct (Z.ltb_spec i w) as [Hin | Hout].
    + apply Bool.andb_true_r.
    + rewrite (testbit_high w a i) by lia. reflexivity.
Qed.

(** The mask test of [__contains__] selects the interval of the prefix. *)
Lemma netmask_interval (w p a n : Z) :
  0 <= p <= w -> 0 <= a < 2 ^ w -> n mod 2 ^ (w - p) = 0 ->
  (Z.land a (ip_int_from_prefix w p) =? n) = ((n <=? a) && (a <? n + 2 ^ (w - p))).
Proof.
  intros Hp Ha Hn.
  rewrite land_netmask by assumption.
  assert (Hk : 0 < 2 ^ (w - p)) by (apply Z.pow_pos_nonneg; lia).
  pose proof (Z.div_mod a (2 ^ (w - p)) ltac:(lia)) as Hdm.
  pose proof (Z.mod_pos_bound a (2 ^ (w - p)) Hk) as Hr.
  pose proof (Z.div_mod n (2 ^ (w - p)) ltac:(lia)) as Hnd.
  rewrite Hn in Hnd.
  apply Bool.eq_iff_eq_true.
  rewrite Z.eqb_eq, Bool.andb_true_iff, Z.leb_le, Z.ltb_lt.
  split.
  - intros E. lia.
  - intros [Hlo Hhi].
    assert (Hq : a / 2 ^ (w - p) = n / 2 ^ (w - p)).
    { symmetry. apply (Z.div_unique a (2 ^ (w - p)) (n / 2 ^ (w - p)) (a - n)); lia. }
    rewrite Hq. lia.
Qed.

End Netmask.

(** The Python table and the specification's list name the same prefixes. *)
Lemma table_is_the_listed_prefixes :
  map prefix_of validation.PRIVATE_IP_RANGES = blocked_prefixes.
Proof. reflexivity. Qed.

Lemma table_aligned : forallb aligned validation.PRIVATE_IP_RANGES = true.
Proof. vm_compute. reflexivity. Qed.

(** On a well-formed network, membership by mask is membership in the
    interval of the prefix. *)
Lemma ip_in_network_inside (ip_addr : IPAddress) (network : IPNetwork) :
  valid_ip ip_addr -> aligned network = true ->
  ip_in_network ip_addr network = inside ip_addr (prefix_of network).
Proof.
  intros Hip Hal. unfold aligned in Hal.
  apply Bool.andb_true_iff in Hal as [Hal Hmod].
  apply Bool.andb_true_iff in Hal as [H0 Hw].
  apply Z.leb_le in H0. apply Z.leb_le in Hw. apply Z.eqb_eq in Hmod.
  destruct network as [n p | n p], ip_addr as [a | a]; simpl in *;
    try reflexivity; apply netmask_interval; auto.
Qed.

Lemma existsb_table_inside (ip_addr : IPAddress) (ranges : list IPNetwork) :
  valid_ip ip_addr -> forallb aligned ranges = true ->
  existsb (ip_in_network ip_addr) ranges = existsb (inside ip_addr) (map prefix_of ranges).
Proof.
  intros Hip. induction ranges as [| r rs IH]; simpl; intros Hal.
  - reflexivity.
  - apply Bool.andb_true_iff in Hal as [Hr Hrs].
    rewrite (ip_in_network_inside _ _ Hip Hr), (IH Hrs). reflexivity.
Qed.

(** The lookup of the IP range table agrees with the ten listed prefixes. *)
Lemma table_lookup (ip_addr : IPAddress) :
  valid_ip ip_addr ->
  existsb (ip_in_network ip_addr) validation.PRIVATE_IP_RANGES = in_blocked_prefix ip_addr.
Proof.
  intros Hip. unfold in_blocked_prefix. rewrite <- table_is_the_listed_prefixes.
  apply existsb_table_inside; [exact Hip | exact table_aligned].
Qed.

(** ** The steps of [validate_url_security] *)

(** The loop over the table raises exactly when some range holds the
    address, and touches nothing. *)
Lemma check_private_ranges_eq (env : Env) (ranges : list IPNetwork)
    (ip_addr : IPAddress) (h : list Event) :
  validation.check_private_ranges env ranges ip_addr h =
  if existsb (ip_in_network ip_addr) ranges
  then (Raise (mkExn validation_SSRFError
                 ("Access to private IP address " ++ ip_str env ip_addr ++ " is not allowed")), h)
  else (Return tt, h).
Proof.
  induction ranges as [| r rs IH]; simpl.
  - reflexivity.
  - destruct (ip_in_network ip_addr r); simpl; [reflexivity | exact IH].
Qed.

(** The run up to the address check, once the URL has parsed with an
    allowed scheme and a host that resolves. *)
Lemma validate_after_resolution (env : Env) (url : string) (timeout : Z)
    (h : list Event) (parsed : ParseResult) (host : string) (ip_addr : IPAddress) :
  urlparse env url = inr parsed ->
  Py.mem_str (Py.lower (scheme parsed)) validation.ALLOWED_SCHEMES = true ->
  hostname parsed = Some host ->
  Py.truthy host = true ->
  gethostbyname env h host = Resolved ip_addr ->
  validation.validate_url_security env url timeout h =
  if existsb (ip_in_network ip_addr) validation.PRIVATE_IP_RANGES
  then (Raise (mkExn validation_SSRFError
                 ("Access to private IP address " ++ ip_str env ip_addr ++ " is not allowed")),
        (h ++ [ev_gethostbyname host])%list)
  else after_address_check env url timeout parsed (h ++ [ev_gethostbyname host])%list.
Proof.
  intros Hparse Hscheme Hhost Htruthy Hres.
  unfold validation.validate_url_security, after_address_check, try_except, bind,
    validation.call_urlparse.
  rewrite Hparse. unfold ret. rewrite Hscheme, Hhost, Htruthy. cbn [negb].
  unfold validation.resolve_hostname. rewrite Hres.
  rewrite check_private_ranges_eq.
  destruct (existsb (ip_in_network ip_addr) validation.PRIVATE_IP_RANGES); reflexivity.
Qed.

Lemma truthy_true (s : string) : s <> EmptyString -> Py.truthy s = true.
Proof.
  intros Hs. unfold Py.truthy. destruct (String.eqb_spec s EmptyString); [contradiction | reflexivity].
Qed.

(** C2: a URL whose host resolves into one of the ten blocked prefixes is
    rejected with [SSRFError], the message carrying the address; an address
    outside all ten prefixes (8.8.8.8 and 1.1.1.1 are outside) passes the
    address check, and validation goes on with the port check and the trial
    request. *)
Theorem blocked_address_rejected (env : Env) (url : string) (timeout : Z)
    (h : list Event) (parsed : ParseResult) (host : string) (ip_addr : IPAddress) :
  urlparse env url = inr parsed ->
  Py.mem_str (Py.lower (scheme parsed)) validation.ALLOWED_SCHEMES = true ->
  hostname parsed = Some host ->
  host <> EmptyString ->
  gethostbyname env h host = Resolved ip_addr ->
  valid_ip ip_addr ->
  (in_blocked_prefix ip_addr = true ->
   validation.validate_url_security env url timeout h =
   (Raise (mkExn validation_SSRFError
             ("Access to private IP address " ++ ip_str env ip_addr ++ " is not allowed")),
    (h ++ [ev_gethostbyname host])%list))
  /\ (in_blocked_prefix ip_addr = false ->
      validation.validate_url_security env url timeout h =
      after_address_check env url timeout parsed (h ++ [ev_gethostbyname host])%list)
  /\ in_blocked_prefix (IPv4Address (ipv4 8 8 8 8)) = false
  /\ in_blocked_prefix (IPv4Address (ipv4 1 1 1 1)) = false.
Proof.
  intros Hparse Hscheme Hhost Hne Hres Hip.
  pose proof (validate_after_resolution env url timeout h parsed host ip_addr
                Hparse Hscheme Hhost (truthy_true host Hne) Hres) as Hrun.
  rewrite (table_lookup ip_addr Hip) in Hrun.
  repeat split.
  - intros Hin. rewrite Hin in Hrun. exact Hrun.
  - intros Hout. rewrite Hout in Hrun. exact Hrun.
Qed.

Lemma blocked_address_rejected_witness :
  validation.validate_url_security sample.env sample.internal_url 10 [] =
  (Raise (mkExn validation_SSRFError "Access to private IP address 10.0.0.1 is not allowed"),
   [ev_gethostbyname "internal.company.com"]).
Proof.
  refine (proj1 (blocked_address_rejected sample.env sample.internal_url 10 []
                   (mkParseResult "https" (Some "internal.company.com") PortNone)
                   "internal.company.com" (IPv4Address (ipv4 10 0 0 1))
                   eq_refl eq_refl eq_refl _ eq_refl _) eq_refl).
  - discriminate.
  - simpl. split; [discriminate | reflexivity].
Defined.

(** C3: a URL whose scheme, compared without regard to case, is neither
    http nor https is rejected with [SSRFError] naming the scheme, and the
    trace is left as it was: no resolution, no trial request, no fetch.
    The download functions stop at the same rejection, and [add_doc] only
    prints its two lines. *)
Theorem disallowed_scheme_rejected (env : Env) (url : string)
    (timeout max_size download_timeout : Z) (h : list Event) (parsed : ParseResult) :
  urlparse env url = inr parsed ->
  Py.lower (scheme parsed) <> "http" ->
  Py.lower (scheme parsed) <> "https" ->
  let rejection :=
    mkExn validation_SSRFError
      ("Scheme '" ++ scheme parsed ++ "' not allowed. Only HTTP/HTTPS are permitted.") in
  validation.validate_url_security env url timeout h = (Raise rejection, h)
  /\ network_simple.download_content_sync env url max_size download_timeout h
     = (Raise rejection, h)
  /\ network.download_content_sync env url max_size download_timeout h
     = (Raise rejection, h)
  /\ forall s, exists e,
       doc_manager.add_doc env url s =
       (Raise e,
        doc_manager.mkState (doc_manager.config s)
          (doc_manager.trace s ++ [ev_print ("Downloading " ++ url ++ "...");
                                   ev_print ("✗ Failed to download " ++ url)])%list).
Proof.
  intros Hparse Hhttp Hhttps rejection.
  assert (Hscheme : Py.mem_str (Py.lower (scheme parsed)) validation.ALLOWED_SCHEMES = false).
  { unfold Py.mem_str, validation.ALLOWED_SCHEMES. simpl.
    destruct (String.eqb_spec (Py.lower (scheme parsed)) "http"); [contradiction |].
    destruct (String.eqb_spec (Py.lower (scheme parsed)) "https"); [contradiction |].
    reflexivity. }
  assert (Hval : forall t h0,
             validation.validate_url_security env url t h0 = (Raise rejection, h0)).
  { intros t h0.
    unfold validation.validate_url_security, try_except, bind, validation.call_urlparse.
    rewrite Hparse. unfold ret. rewrite Hscheme. reflexivity. }
  assert (Hsync : forall t h0,
             network_simple.validate_url_sync env url t h0 = (Raise rejection, h0)).
  { intros t h0. unfold network_simple.validate_url_sync, try_except, bind.
    rewrite Hval. reflexivity. }
  repeat split.
  - apply Hval.
  - unfold network_simple.download_content_sync, bind. rewrite Hsync. reflexivity.
  - unfold network.download_content_sync, network.validate_url_sync, try_except, bind.
    rewrite Hval. reflexivity.
  - intros s.
    unfold doc_manager.add_doc, doc_manager.validate_url, doc_manager.add_doc_handler,
      doc_manager.lift, try_except, bind, print, emit. simpl.
    rewrite Hsync. simpl.
    destruct (Py.contains "SSRF" _ || Py.contains "private IP" _); simpl;
      rewrite <- app_assoc; eexists; reflexivity.
Qed.

Lemma disallowed_scheme_rejected_witness :
  validation.validate_url_security sample.env sample.ftp_url 10 [] =
  (Raise (mkExn validation_SSRFError
            "Scheme 'ftp' not allowed. Only HTTP/HTTPS are permitted."), []).
Proof.
  refine (proj1 (disallowed_scheme_rejected sample.env sample.ftp_url 10
                   network_simple.MAX_CONTENT_LENGTH network_simple.DOWNLOAD_TIMEOUT []
                   (mkParseResult "ftp" (Some "example.com") PortNone) eq_refl _ _)).
  - discriminate.
  - discriminate.
Defined.

(** ** The gate comes before every request *)

(** The trial request always returns a verdict and appends one request. *)
Lemma trial_request_returns (env : Env) (url : string) (timeout : Z) (h : list Event) :
  exists r, validation.trial_request env url timeout h
            = (Return r, (h ++ [ev_urlopen url timeout])%list).
Proof.
  unfold validation.trial_request.
  destruct (urlopen env h url timeout) as [resp | | | |]; try (eexists; reflexivity).
  destruct (validation.inspect_response resp); eexists; reflexivity.
Qed.

(** The port check touches nothing. *)
Lemma check_port_trace (parsed : ParseResult) (h : list Event) :
  snd (validation.check_port parsed h) = h.
Proof.
  unfold validation.check_port.
  destruct (port parsed) as [| p | msg]; try reflexivity.
  destruct (p =? 0); [reflexivity |].
  destruct ((p <? 1) || (p >? 65535)); [reflexivity |].
  destruct (Py.mem_int p validation.dangerous_ports); reflexivity.
Qed.

Lemma after_address_check_shape (env : Env) (url : string) (timeout : Z)
    (parsed : ParseResult) (h : list Event) :
  (exists e, after_address_check env url timeout parsed h = (Raise e, h))
  \/ (exists r, after_address_check env url timeout parsed h
                = (Return r, (h ++ [ev_urlopen url timeout])%list)).
Proof.
  unfold after_address_check, try_except, bind.
  pose proof (check_port_trace parsed h) as Htrace.
  destruct (validation.check_port parsed h) as [[[] | e] h']; simpl in Htrace; subst h'.
  - right. destruct (trial_request_returns env url timeout h) as [r Hr].
    exists r. rewrite Hr. reflexivity.
  - left. unfold validation.reraise_or_wrap.
    destruct (isinstance e _); eexists; reflexivity.
Qed.

(** When one of the four checks fails, validation raises and the only
    event it may have appended is the resolution. *)
Lemma validate_checks_fail (env : Env) (url : string) (timeout : Z) (h : list Event) :
  security_checks_pass env h url = false ->
  exists e evs,
    validation.validate_url_security env url timeout h = (Raise e, (h ++ evs)%list)
    /\ filter is_request evs = [].
Proof.
  unfold security_checks_pass. intros Hfail.
  destruct (urlparse env url) as [msg | parsed] eqn:Hparse.
  - exists (mkExn validation_ValidationError ("URL validation failed: " ++ msg)), [].
    rewrite app_nil_r. split; [| reflexivity].
    unfold validation.validate_url_security, try_except, bind, validation.call_urlparse.
    rewrite Hparse. reflexivity.
  - destruct (Py.mem_str (Py.lower (scheme parsed)) validation.ALLOWED_SCHEMES) eqn:Hscheme.
    + destruct (hostname parsed) as [host |] eqn:Hhost.
      * destruct (Py.truthy host) eqn:Htruthy.
        -- destruct (gethostbyname env h host) as [ip_addr | msg | msg] eqn:Hres.
           ++ cbn [andb] in Hfail. apply Bool.negb_false_iff in Hfail.
              rewrite (validate_after_resolution env url timeout h parsed host ip_addr
                         Hparse Hscheme Hhost Htruthy Hres), Hfail.
              do 2 eexists. split; reflexivity.
           ++ exists (mkExn validation_ValidationError
                        ("Cannot resolve hostname '" ++ host ++ "': " ++ msg)),
                [ev_gethostbyname host].
              split; [| reflexivity].
              unfold validation.validate_url_security, try_except, bind,
                validation.call_urlparse.
              rewrite Hparse. unfold ret. rewrite Hscheme, Hhost, Htruthy. cbn [negb].
              unfold validation.resolve_hostname. rewrite Hres. reflexivity.
           ++ exists (mkExn validation_ValidationError ("URL validation failed: " ++ msg)),
                [ev_gethostbyname host].
              split; [| reflexivity].
              unfold validation.validate_url_security, try_except, bind,
                validation.call_urlparse.
              rewrite Hparse. unfold ret. rewrite Hscheme, Hhost, Htruthy. cbn [negb].
              unfold validation.resolve_hostname. rewrite Hres. reflexivity.
        -- exists (mkExn validation_ValidationError "URL must contain a valid hostname"), [].
           rewrite app_nil_r. split; [| reflexivity].
           unfold validation.validate_url_security, try_except, bind,
             validation.call_urlparse.
           rewrite Hparse. unfold ret. rewrite Hscheme, Hhost, Htruthy. reflexivity.
      * exists (mkExn validation_ValidationError "URL must contain a valid hostname"), [].
        rewrite app_nil_r. split; [| reflexivity].
        unfold validation.validate_url_security, try_except, bind, validation.call_urlparse.
        rewrite Hparse. unfold ret. rewrite Hscheme, Hhost. reflexivity.
    + exists (mkExn validation_SSRFError
                ("Scheme '" ++ scheme parsed ++ "' not allowed. Only HTTP/HTTPS are permitted.")),
        [].
      rewrite app_nil_r. split; [| reflexivity].
      unfold validation.validate_url_security, try_except, bind, validation.call_urlparse.
      rewrite Hparse. unfold ret. rewrite Hscheme. reflexivity.
Qed.

(** When the four checks pass, validation resolves the host first; it then
    either raises at the port check or issues the trial request and
    returns. *)
Lemma validate_checks_pass (env : Env) (url : string) (timeout : Z) (h : list Event) :
  security_checks_pass env h url = true ->
  exists host,
    (exists e, validation.validate_url_security env url timeout h
               = (Raise e, (h ++ [ev_gethostbyname host])%list))
    \/ (exists r, validation.validate_url_security env url timeout h
                  = (Return r, (h ++ [ev_gethostbyname host; ev_urlopen url timeout])%list)).
Proof.
  unfold security_checks_pass. intros Hpass.
  destruct (urlparse env url) as [msg | parsed] eqn:Hparse; [discriminate |].
  apply Bool.andb_true_iff in Hpass as [Hscheme Hpass].
  destruct (hostname parsed) as [host |] eqn:Hhost; [| discriminate].
  apply Bool.andb_true_iff in Hpass as [Htruthy Hpass].
  destruct (gethostbyname env h host) as [ip_addr | msg | msg] eqn:Hres; try discriminate.
  apply Bool.negb_true_iff in Hpass.
  exists host.
  rewrite (validate_after_resolution env url timeout h parsed host ip_addr
             Hparse Hscheme Hhost Htruthy Hres), Hpass.
  destruct (after_address_check_shape env url timeout parsed (h ++ [ev_gethostbyname host])%list)
    as [[e He] | [r Hr]].
  - left. exists e. exact He.
  - right. exists r. rewrite Hr, <- app_assoc. reflexivity.
Qed.

(** How [gated] is established from the shape of the appended events. *)
Lemma gated_intro {A} (env : Env) (url : string) (h : list Event)
    (run : Outcome A * list Event) (evs : list Event) :
  snd run = (h ++ evs)%list ->
  (security_checks_pass env h url = false ->
   (exists e, fst run = Raise e) /\ filter is_request evs = []) ->
  (security_checks_pass env h url = true ->
   exists host rest, evs = ev_gethostbyname host :: rest) ->
  gated env url h run.
Proof.
  intros Hsnd Hfail Hpass. exists evs. split; [exact Hsnd |]. split; [exact Hfail |].
  intros pre e post Hevs Hreq.
  destruct (security_checks_pass env h url) eqn:Hchecks.
  - split; [reflexivity |].
    destruct (Hpass eq_refl) as (host & rest & Hshape).
    exists host. rewrite Hshape in Hevs.
    destruct pre as [| e0 pre'].
    + simpl in Hevs. injection Hevs as He _. subst e. discriminate Hreq.
    + simpl in Hevs. injection Hevs as He0 _. subst e0. left. reflexivity.
  - exfalso. destruct (Hfail eq_refl) as [_ Hnone].
    assert (Hin : In e (filter is_request evs)).
    { apply filter_In. split; [| exact Hreq]. rewrite Hevs. apply in_elt. }
    rewrite Hnone in Hin. exact Hin.
Qed.

Lemma validate_gated (env : Env) (url : string) (timeout : Z) (h : list Event) :
  gated env url h (validation.validate_url_security env url timeout h).
Proof.
  destruct (security_checks_pass env h url) eqn:Hchecks.
  - destruct (validate_checks_pass env url timeout h Hchecks) as [host [[e He] | [r Hr]]].
    + apply (gated_intro env url h _ [ev_gethostbyname host]).
      * rewrite He. reflexivity.
      * rewrite Hchecks. discriminate.
      * intros _. do 2 eexists. reflexivity.
    + apply (gated_intro env url h _ [ev_gethostbyname host; ev_urlopen url timeout]).
      * rewrite Hr. reflexivity.
      * rewrite Hchecks. discriminate.
      * intros _. do 2 eexists. reflexivity.
  - destruct (validate_checks_fail env url timeout h Hchecks) as (e & evs & He & Hnone).
    apply (gated_intro env url h _ evs).
    + rewrite He. reflexivity.
    + intros _. split; [exists e; rewrite He; reflexivity | exact Hnone].
    + rewrite Hchecks. discriminate.
Qed.

(** [validate_url_sync] keeps the trace of [validate_url_security]; it
    returns only when the latter does. *)
Lemma validate_url_sync_inv (env : Env) (url : string) (timeout : Z) (h : list Event) :
  (exists e, network_simple.validate_url_sync env url timeout h
             = (Raise e, snd (validation.validate_url_security env url timeout h)))
  \/ (network_simple.validate_url_sync env url timeout h
      = (Return true, snd (validation.validate_url_security env url timeout h))
      /\ exists msg, fst (validation.validate_url_security env url timeout h)
                     = Return (true, msg)).
Proof.
  unfold network_simple.validate_url_sync, try_except, bind.
  destruct (validation.validate_url_security env url timeout h) as [[[is_valid msg] | e] h'];
    cbn [fst snd].
  - destruct is_valid; cbn [negb].
    + right. split; [reflexivity | exists msg; reflexivity].
    + left. unfold raise.
      destruct (isinstance _ [validation_SSRFError; validation_ValidationError]);
        eexists; reflexivity.
  - left. destruct (isinstance e [validation_SSRFError; validation_ValidationError]);
      eexists; reflexivity.
Qed.

Lemma network_validate_url_sync_eq (env : Env) (url : string) (timeout : Z) :
  network.validate_url_sync env url timeout = network_simple.validate_url_sync env url timeout.
Proof. reflexivity. Qed.

Lemma network_download_content_sync_eq (env : Env) (url : string) (max_size timeout : Z) :
  network.download_content_sync env url max_size timeout
  = network_simple.download_content_sync env url max_size timeout.
Proof. reflexivity. Qed.

Lemma fetch_trace (env : Env) (url : string) (max_size timeout : Z) (h : list Event) :
  snd (network_simple.fetch env url max_size timeout h) = (h ++ [ev_urlopen url timeout])%list.
Proof.
  unfold network_simple.fetch.
  destruct (urlopen env h url timeout) as [resp | | | |]; try reflexivity.
  destruct (network_simple.read_response env resp max_size) as [t | e]; [reflexivity |].
  destruct (isinstance e _); reflexivity.
Qed.

Lemma download_gated (env : Env) (url : string) (max_size timeout : Z) (h : list Event) :
  gated env url h (network_simple.download_content_sync env url max_size timeout h).
Proof.
  unfold network_simple.download_content_sync, bind.
  destruct (validate_url_sync_inv env url network_simple.VALIDATION_TIMEOUT h)
    as [[e He] | [Hret [msg Hmsg]]].
  - rewrite He.
    destruct (validate_gated env url network_simple.VALIDATION_TIMEOUT h)
      as (evs & Hsnd & Hfail & Hreq).
    exists evs. split; [exact Hsnd |]. split; [| exact Hreq].
    intros Hchecks. split; [exists e; reflexivity | apply (Hfail Hchecks)].
  - rewrite Hret.
    destruct (security_checks_pass env h url) eqn:Hchecks.
    + destruct (validate_checks_pass env url network_simple.VALIDATION_TIMEOUT h Hchecks)
        as [host [[e He] | [r Hr]]].
      * rewrite He in Hmsg. discriminate Hmsg.
      * rewrite Hr. cbn [snd].
        apply (gated_intro env url h _
                 [ev_gethostbyname host; ev_urlopen url network_simple.VALIDATION_TIMEOUT;
                  ev_urlopen url timeout]).
        -- rewrite surjective_pairing at 1. rewrite fetch_trace, <- app_assoc. reflexivity.
        -- rewrite Hchecks. discriminate.
        -- intros _. do 2 eexists. reflexivity.
    + destruct (validate_checks_fail env url network_simple.VALIDATION_TIMEOUT h Hchecks)
        as (e & evs & He & _).
      rewrite He in Hmsg. discriminate Hmsg.
Qed.

(** C1: in [validate_url_security] and in [download_content_sync] (of both
    network modules) every request to the destination, the trial request as
    well as the real GET, comes after the host has been resolved, and is
    issued only if the scheme check, the host-name check, the resolution and
    the blocked-range check have all succeeded; when one of them fails the
    function raises and no request is issued. *)
Theorem no_request_before_security_checks (env : Env) (url : string)
    (timeout max_size download_timeout : Z) (h : list Event) :
  gated env url h (validation.validate_url_security env url timeout h)
  /\ gated env url h (network_simple.download_content_sync env url max_size download_timeout h)
  /\ gated env url h (network.download_content_sync env url max_size download_timeout h).
Proof.
  split; [apply validate_gated |].
  split; [apply download_gated |].
  rewrite network_download_content_sync_eq. apply download_gated.
Qed.

(** ** The port check *)

Lemma port_zero_skips_the_check (parsed : ParseResult) (h : list Event) :
  port parsed = PortInt 0 -> validation.check_port parsed h = (Return tt, h).
Proof. intros Hp. unfold validation.check_port. rewrite Hp. reflexivity. Qed.

Lemma port_out_of_range_rejected (parsed : ParseResult) (p : Z) (h : list Event) :
  port parsed = PortInt p -> p <> 0 -> p < 1 \/ 65535 < p ->
  validation.check_port parsed h =
  (Raise (mkExn validation_ValidationError ("Invalid port number: " ++ Py.str_of_int p)), h).
Proof.
  intros Hp Hnz Hrange. unfold validation.check_port. rewrite Hp.
  destruct (Z.eqb_spec p 0); [contradiction |].
  replace ((p <? 1) || (p >? 65535)) with true; [reflexivity |].
  symmetry. apply Bool.orb_true_iff. destruct Hrange; [left | right]; lia.
Qed.

Lemma dangerous_port_rejected (parsed : ParseResult) (p : Z) (h : list Event) :
  port parsed = PortInt p -> In p validation.dangerous_ports ->
  validation.check_port parsed h =
  (Raise (mkExn validation_SSRFError ("Access to port " ++ Py.str_of_int p ++ " is not allowed")), h).
Proof.
  intros Hp Hin. unfold validation.check_port. rewrite Hp.
  simpl in Hin.
  repeat (destruct Hin as [Hin | Hin]; [subst p; reflexivity |]).
  contradiction.
Qed.

Lemma web_ports_pass (parsed : ParseResult) (h : list Event) :
  port parsed = PortNone \/ port parsed = PortInt 80 \/ port parsed = PortInt 443 ->
  validation.check_port parsed h = (Return tt, h).
Proof.
  intros [Hp | [Hp | Hp]]; unfold validation.check_port; rewrite Hp; reflexivity.
Qed.

(** C4: the explicit port 0 lies outside 1..65535, yet it is not rejected as
    an invalid port: the test [if parsed.port] is false for 0, the range
    check is skipped, and validation goes on to resolve the host and to
    issue the trial request to port 0. *)
Theorem port_zero_not_rejected :
  urlparse sample.env sample.port0_url
  = inr (mkParseResult "https" (Some "example.com") (PortInt 0))
  /\ validation.validate_url_security sample.env sample.port0_url 10 [] =
     (Return (false, Some "URL error: [Errno 111] Connection refused"),
      [ev_gethostbyname "example.com"; ev_urlopen sample.port0_url 10]).
Proof. split; reflexivity. Qed.

(** ** The chunked read *)

(** The chunk size is 8 KiB and the default maximum 50 MiB. *)
Lemma default_limits :
  network_simple.CHUNK_SIZE = 8 * 1024
  /\ network_simple.MAX_CONTENT_LENGTH = 50 * 1024 * 1024
  /\ network.CHUNK_SIZE = network_simple.CHUNK_SIZE
  /\ network.MAX_CONTENT_LENGTH = network_simple.MAX_CONTENT_LENGTH.
Proof. repeat split. Qed.

Lemma total_len_nonneg (chunks : list Bytes) : 0 <= total_len chunks.
Proof. induction chunks as [| c cs IH]; simpl; lia. Qed.

(** Once the running total passes the maximum inside a run of non-empty
    chunks, the loop raises at the first chunk that passes it. *)
Lemma read_chunks_exceeds (pre : list Bytes) (rest : list ReadResult)
    (max_size total_size : Z) (content_chunks : list Bytes) :
  Forall (fun chunk => chunk <> []) pre ->
  total_size <= max_size ->
  total_size + total_len pre > max_size ->
  network_simple.read_chunks (map ReadBytes pre ++ rest) max_size total_size content_chunks =
  Raise (mkExn network_ContentTooLargeError
           ("Content exceeded " ++ Py.str_of_int max_size ++ " bytes during download")).
Proof.
  revert total_size content_chunks.
  induction pre as [| chunk pre IH]; intros total_size content_chunks Hne Hle Hgt.
  - simpl in Hgt. lia.
  - inversion Hne as [| ? ? Hchunk Hpre]; subst.
    destruct chunk as [| b chunk']; [contradiction |].
    cbn [map app network_simple.read_chunks].
    destruct (Z.gtb_spec (total_size + Z.of_nat (List.length (b :: chunk'))) max_size)
      as [Hover | Hunder].
    + reflexivity.
    + apply IH; [exact Hpre | lia |].
      cbn [total_len fold_right] in Hgt. unfold total_len. lia.
Qed.

Lemma header_check_passes (response : Response) (max_size : Z) :
  header_absent_or_within response max_size ->
  network_simple.check_content_length response max_size = Return tt.
Proof.
  unfold header_absent_or_within, network_simple.check_content_length.
  destruct (content_length response) as [[text [n | msg]] |]; intros Hh;
    try reflexivity; try contradiction.
  destruct (Py.truthy text); [| reflexivity].
  destruct (Z.gtb_spec n max_size); [lia | reflexivity].
Qed.

(** [download_content_sync] after a validation that passed: the real GET. *)
Lemma download_after_validation (env : Env) (url : string) (max_size timeout : Z)
    (h h1 : list Event) :
  network_simple.validate_url_sync env url network_simple.VALIDATION_TIMEOUT h
  = (Return true, h1) ->
  network_simple.download_content_sync env url max_size timeout h
  = network_simple.fetch env url max_size timeout h1.
Proof.
  intros Hval. unfold network_simple.download_content_sync, bind. rewrite Hval. reflexivity.
Qed.

(** C5: when the bytes read chunk by chunk pass the maximum size at some
    point of the read, [download_content_sync] (of both network modules)
    raises [ContentTooLargeError] and returns no content, the
    [content-length] header being absent or within the maximum. *)
Theorem oversized_body_aborts (env : Env) (url : string) (max_size timeout : Z)
    (h h1 : list Event) (response : Response) (pre : list Bytes) (rest : list ReadResult) :
  0 <= max_size ->
  network_simple.validate_url_sync env url network_simple.VALIDATION_TIMEOUT h
  = (Return true, h1) ->
  urlopen env h1 url timeout = Opened response ->
  header_absent_or_within response max_size ->
  reads response = (map ReadBytes pre ++ rest)%list ->
  Forall (fun chunk => chunk <> []) pre ->
  total_len pre > max_size ->
  let too_large :=
    mkExn network_ContentTooLargeError
      ("Content exceeded " ++ Py.str_of_int max_size ++ " bytes during download") in
  network_simple.download_content_sync env url max_size timeout h
  = (Raise too_large, (h1 ++ [ev_urlopen url timeout])%list)
  /\ network.download_content_sync env url max_size timeout h
     = (Raise too_large, (h1 ++ [ev_urlopen url timeout])%list).
Proof.
  intros Hmax Hval Hopen Hheader Hreads Hne Hgt too_large.
  assert (Hrun : network_simple.download_content_sync env url max_size timeout h
                 = (Raise too_large, (h1 ++ [ev_urlopen url timeout])%list)).
  { rewrite (download_after_validation env url max_size timeout h h1 Hval).
    unfold network_simple.fetch. rewrite Hopen.
    unfold network_simple.read_response.
    rewrite (header_check_passes response max_size Hheader), Hreads.
    cbn [and_then].
    rewrite (read_chunks_exceeds pre rest max_size 0 [] Hne Hmax) by lia.
    reflexivity. }
  split; [exact Hrun |].
  rewrite network_download_content_sync_eq. exact Hrun.
Qed.

Lemma oversized_body_aborts_witness :
  network_simple.download_content_sync sample.env sample.latin1_url 3 60 [] =
  (Raise (mkExn network_ContentTooLargeError "Content exceeded 3 bytes during download"),
   [ev_gethostbyname "example.com"; ev_urlopen sample.latin1_url 10;
    ev_urlopen sample.latin1_url 60]).
Proof.
  refine (proj1 (oversized_body_aborts sample.env sample.latin1_url 3 60 []
                   [ev_gethostbyname "example.com"; ev_urlopen sample.latin1_url 10]
                   (mkResponse (Some "text/plain") None
                      [ReadBytes ["c"%byte; "a"%byte; "f"%byte; Byte.xe9]])
                   [["c"%byte; "a"%byte; "f"%byte; Byte.xe9]] []
                   _ eq_refl eq_refl I eq_refl _ eq_refl)).
  - discriminate.
  - constructor; [discriminate | constructor].
Defined.

(** ** Decoding *)

Lemma try_encodings_first_decoded (env : Env) (encodings : list string) (content_bytes : Bytes) :
  network_simple.try_encodings env encodings content_bytes =
  match first_decoded env encodings content_bytes with
  | Some text => Return text
  | None => Raise (mkExn network_DownloadError
                     ("Cannot decode content: " ++ decode_error_str env content_bytes))
  end.
Proof.
  induction encodings as [| encoding rest IH]; simpl.
  - reflexivity.
  - destruct (decode env encoding content_bytes); [reflexivity | exact IH].
Qed.

(** The decoding step tries the four encodings in the listed order. *)
Lemma decode_content_first_decoded (env : Env) (content_bytes : Bytes) :
  network_simple.decode_content env content_bytes =
  match first_decoded env fallback_order content_bytes with
  | Some text => Return text
  | None => Raise (mkExn network_DownloadError
                     ("Cannot decode content: " ++ decode_error_str env content_bytes))
  end.
Proof.
  unfold network_simple.decode_content, fallback_order.
  cbn [first_decoded].
  destruct (decode env "utf-8" content_bytes); [reflexivity |].
  apply (try_encodings_first_decoded env ["latin-1"; "cp1252"; "iso-8859-1"]).
Qed.

(** The real GET when the response opens, the header passes and the read
    loop ends normally: the result is the decoding of the joined chunks. *)
Lemma fetch_decodes (env : Env) (url : string) (max_size timeout : Z) (h : list Event)
    (response : Response) (content_chunks : list Bytes) :
  urlopen env h url timeout = Opened response ->
  network_simple.check_content_length response max_size = Return tt ->
  network_simple.read_chunks (reads response) max_size 0 [] = Return content_chunks ->
  network_simple.fetch env url max_size timeout h =
  (match first_decoded env fallback_order (join content_chunks) with
   | Some text => Return text
   | None =>
       Raise (mkExn network_DownloadError
                ("Unexpected download error: Cannot decode content: "
                 ++ decode_error_str env (join content_chunks)))
   end, (h ++ [ev_urlopen url timeout])%list).
Proof.
  intros Hopen Hheader Hread.
  unfold network_simple.fetch, network_simple.read_response.
  rewrite Hopen, Hheader, Hread. cbn [and_then].
  rewrite decode_content_first_decoded.
  destruct (first_decoded env fallback_order (join content_chunks)); reflexivity.
Qed.

(** C7: the fetcher decodes the downloaded bytes as UTF-8, then latin-1,
    then cp1252, then iso-8859-1, and returns the first decode that
    succeeds; bytes that fail as UTF-8 and succeed as latin-1 come back as
    the latin-1 text; bytes that fail under all four end in a
    [DownloadError] that says the content cannot be decoded. *)
Theorem decoding_fallback_order (env : Env) (url : string) (max_size timeout : Z)
    (h h1 : list Event) (response : Response) (content_chunks : list Bytes) :
  network_simple.validate_url_sync env url network_simple.VALIDATION_TIMEOUT h
  = (Return true, h1) ->
  urlopen env h1 url timeout = Opened response ->
  network_simple.check_content_length response max_size = Return tt ->
  network_simple.read_chunks (reads response) max_size 0 [] = Return content_chunks ->
  let content_bytes := join content_chunks in
  let run := network_simple.download_content_sync env url max_size timeout h in
  let undecodable :=
    mkExn network_DownloadError
      ("Unexpected download error: Cannot decode content: "
       ++ decode_error_str env content_bytes) in
  run = (match first_decoded env fallback_order content_bytes with
         | Some text => Return text
         | None => Raise undecodable
         end, (h1 ++ [ev_urlopen url timeout])%list)
  /\ (forall text,
        decode env "utf-8" content_bytes = None ->
        decode env "latin-1" content_bytes = Some text ->
        fst run = Return text)
  /\ (decode env "utf-8" content_bytes = None ->
      decode env "latin-1" content_bytes = None ->
      decode env "cp1252" content_bytes = None ->
      decode env "iso-8859-1" content_bytes = None ->
      fst run = Raise undecodable).
Proof.
  intros Hval Hopen Hheader Hread content_bytes run undecodable.
  assert (Hrun : run = (match first_decoded env fallback_order content_bytes with
                        | Some text => Return text
                        | None => Raise undecodable
                        end, (h1 ++ [ev_urlopen url timeout])%list)).
  { unfold run. rewrite (download_after_validation env url max_size timeout h h1 Hval).
    apply (fetch_decodes env url max_size timeout h1 response content_chunks);
      assumption. }
  split; [exact Hrun |]. split.
  - intros text Hutf Hlatin. rewrite Hrun. unfold fallback_order. cbn [first_decoded fst].
    rewrite Hutf, Hlatin. reflexivity.
  - intros Hutf Hlatin Hcp Hiso. rewrite Hrun. unfold fallback_order. cbn [first_decoded fst].
    rewrite Hutf, Hlatin, Hcp, Hiso. reflexivity.
Qed.

Lemma decoding_fallback_order_witness :
  network_simple.download_content_sync sample.env sample.latin1_url
    network_simple.MAX_CONTENT_LENGTH network_simple.DOWNLOAD_TIMEOUT []
  = (Return [99; 97; 102; 233]%N,
     [ev_gethostbyname "example.com"; ev_urlopen sample.latin1_url 10;
      ev_urlopen sample.latin1_url 60]).
Proof.
  exact (proj1 (decoding_fallback_order sample.env sample.latin1_url
                  network_simple.MAX_CONTENT_LENGTH network_simple.DOWNLOAD_TIMEOUT []
                  [ev_gethostbyname "example.com"; ev_urlopen sample.latin1_url 10]
                  (mkResponse (Some "text/plain") None
                     [ReadBytes ["c"%byte; "a"%byte; "f"%byte; Byte.xe9]])
                  [["c"%byte; "a"%byte; "f"%byte; Byte.xe9]]
                  eq_refl eq_refl eq_refl eq_refl)).
Defined.

(** Under the codecs of CPython the latin-1 attempt cannot fail, so the
    fallback always finds a text and the last branch never runs. *)
Lemma python_fallback_total (env : Env) (content_bytes : Bytes) :
  decode env = codecs.python_decode ->
  first_decoded env fallback_order content_bytes =
  match codecs.utf_8 content_bytes with
  | Some text => Some text
  | None => Some (map Byte.to_N content_bytes)
  end.
Proof.
  intros Hdec. unfold fallback_order. cbn [first_decoded]. rewrite Hdec.
  unfold codecs.python_decode. cbn [String.eqb Ascii.eqb Bool.eqb].
  destruct (codecs.utf_8 content_bytes); reflexivity.
Qed.

(** ** Empty content *)

Lemma read_chunks_zero_bytes (response : Response) (max_size : Z) :
  zero_byte_body response ->
  network_simple.read_chunks (reads response) max_size 0 [] = Return [].
Proof.
  intros [Hnil | [rest Hrest]]; [rewrite Hnil | rewrite Hrest]; reflexivity.
Qed.

(** The fetcher returns the empty text for a zero-byte body. *)
Lemma empty_body_returned (env : Env) (url : string) (max_size timeout : Z)
    (h h1 : list Event) (response : Response) :
  network_simple.validate_url_sync env url network_simple.VALIDATION_TIMEOUT h
  = (Return true, h1) ->
  urlopen env h1 url timeout = Opened response ->
  header_absent_or_within response max_size ->
  zero_byte_body response ->
  decode env "utf-8" [] = Some [] ->
  network_simple.download_content_sync env url max_size timeout h
  = (Return [], (h1 ++ [ev_urlopen url timeout])%list).
Proof.
  intros Hval Hopen Hheader Hzero Hdec.
  rewrite (download_after_validation env url max_size timeout h h1 Hval).
  rewrite (fetch_decodes env url max_size timeout h1 response []
             Hopen (header_check_passes response max_size Hheader)
             (read_chunks_zero_bytes response max_size Hzero)).
  unfold fallback_order, join. cbn [first_decoded List.concat]. rewrite Hdec. reflexivity.
Qed.

(** ** [DocManager]: one document *)

Lemma add_doc_handler_raises (url : string) (e : Exn) (s : doc_manager.State) :
  exists e',
    doc_manager.add_doc_handler url e s =
    (Raise e', doc_manager.mkState (doc_manager.config s)
                 (doc_manager.trace s ++ [ev_print ("✗ Failed to download " ++ url)])%list).
Proof.
  unfold doc_manager.add_doc_handler, bind, doc_manager.lift, print, emit.
  cbn [fst snd].
  destruct (isinstance e [exceptions_ValidationError; exceptions_NetworkError;
                          exceptions_DownloadError]); eexists; reflexivity.
Qed.

(** [validate_url] after a validation that passed. *)
Lemma validate_url_passes (env : Env) (url : string) (s : doc_manager.State)
    (h1 : list Event) :
  network_simple.validate_url_sync env url network_simple.VALIDATION_TIMEOUT
    (doc_manager.trace s) = (Return true, h1) ->
  doc_manager.validate_url env url s
  = (Return true, doc_manager.mkState (doc_manager.config s) h1).
Proof.
  intros Hval. unfold doc_manager.validate_url, try_except, doc_manager.lift.
  rewrite Hval. reflexivity.
Qed.

(** C9: for a response whose body has zero bytes the fetcher returns the
    empty text and raises nothing; it is [add_doc] that turns the empty
    content into [DownloadError("Downloaded content is empty")], leaving the
    configuration as it was. *)
Theorem empty_content_rejected_by_add_doc (env : Env) (url : string)
    (s : doc_manager.State) (h1 h2 : list Event) (response : Response) :
  let h0 := (doc_manager.trace s ++ [ev_print ("Downloading " ++ url ++ "...")])%list in
  network_simple.validate_url_sync env url network_simple.VALIDATION_TIMEOUT h0
  = (Return true, h1) ->
  network_simple.validate_url_sync env url network_simple.VALIDATION_TIMEOUT h1
  = (Return true, h2) ->
  urlopen env h2 url network_simple.DOWNLOAD_TIMEOUT = Opened response ->
  header_absent_or_within response network_simple.MAX_CONTENT_LENGTH ->
  zero_byte_body response ->
  decode env "utf-8" [] = Some [] ->
  network_simple.download_content_sync env url network_simple.MAX_CONTENT_LENGTH
    network_simple.DOWNLOAD_TIMEOUT h1
  = (Return [], (h2 ++ [ev_urlopen url network_simple.DOWNLOAD_TIMEOUT])%list)
  /\ doc_manager.add_doc env url s
     = (Raise (mkExn exceptions_DownloadError "Downloaded content is empty"),
        doc_manager.mkState (doc_manager.config s)
          (h2 ++ [ev_urlopen url network_simple.DOWNLOAD_TIMEOUT;
                  ev_print ("✗ Failed to download " ++ url)])%list).
Proof.
  intros h0 Hval1 Hval2 Hopen Hheader Hzero Hdec.
  pose proof (empty_body_returned env url network_simple.MAX_CONTENT_LENGTH
                network_simple.DOWNLOAD_TIMEOUT h1 h2 response
                Hval2 Hopen Hheader Hzero Hdec) as Hfetch.
  split; [exact Hfetch |].
  subst h0.
  unfold doc_manager.add_doc, bind, try_except.
  unfold doc_manager.lift at 1. unfold print, emit. cbn [fst snd doc_manager.trace doc_manager.config].
  rewrite (validate_url_passes env url (doc_manager.mkState (doc_manager.config s) _) h1 Hval1).
  unfold doc_manager.lift. cbn [doc_manager.trace doc_manager.config].
  rewrite Hfetch.
  unfold doc_manager.store_content, raise, doc_manager.add_doc_handler, bind,
    doc_manager.lift, print, emit.
  cbn [isinstance existsb issubclass exn_class ExnClass_eqb base_class orb
       doc_manager.trace doc_manager.config reraise].
  rewrite <- app_assoc. reflexivity.
Qed.

Lemma empty_content_rejected_by_add_doc_witness :
  doc_manager.add_doc sample.env sample.empty_url sample.fresh
  = (Raise (mkExn exceptions_DownloadError "Downloaded content is empty"),
     doc_manager.mkState (mkConfig (Some []))
       [ev_print "Downloading https://example.com/empty.md...";
        ev_gethostbyname "example.com"; ev_urlopen sample.empty_url 10;
        ev_gethostbyname "example.com"; ev_urlopen sample.empty_url 10;
        ev_urlopen sample.empty_url 60;
        ev_print "✗ Failed to download https://example.com/empty.md"]).
Proof.
  refine (proj2 (empty_content_rejected_by_add_doc sample.env sample.empty_url sample.fresh
                   [ev_print "Downloading https://example.com/empty.md...";
                    ev_gethostbyname "example.com"; ev_urlopen sample.empty_url 10]
                   [ev_print "Downloading https://example.com/empty.md...";
                    ev_gethostbyname "example.com"; ev_urlopen sample.empty_url 10;
                    ev_gethostbyname "example.com"; ev_urlopen sample.empty_url 10]
                   (mkResponse (Some "text/plain") (Some ("0", IntValue 0)) [])
                   eq_refl eq_refl eq_refl _ _ eq_refl)).
  - simpl. discriminate.
  - left. reflexivity.
Defined.

(** ** The document store *)

Lemma dict_get_set_eq {V} (k : string) (v : V) (d : Dict V) :
  dict_get k (dict_set k v d) = Some v.
Proof.
  induction d as [| [k' v'] r IH]; simpl.
  - rewrite String.eqb_refl. reflexivity.
  - destruct (String.eqb k k') eqn:E; simpl; rewrite E; [reflexivity | exact IH].
Qed.

Lemma dict_get_set_ne {V} (k k0 : string) (v : V) (d : Dict V) :
  k0 <> k -> dict_get k0 (dict_set k v d) = dict_get k0 d.
Proof.
  intros Hne. induction d as [| [k' v'] r IH]; simpl.
  - destruct (String.eqb_spec k0 k); [contradiction | reflexivity].
  - destruct (String.eqb_spec k k') as [Heq | Hneq]; simpl.
    + subst k'. destruct (String.eqb_spec k0 k); [contradiction | reflexivity].
    + destruct (String.eqb k0 k'); [reflexivity | exact IH].
Qed.

Lemma Forall_dict_set {V} (P : V -> Prop) (k : string) (v : V) (d : Dict V) :
  P v -> Forall (fun entry => P (snd entry)) d ->
  Forall (fun entry => P (snd entry)) (dict_set k v d).
Proof.
  intros Hv Hd. induction Hd as [| [k' v'] r Hhead Htail IH]; simpl.
  - constructor; [exact Hv | constructor].
  - destruct (String.eqb k k'); constructor; auto.
Qed.

Lemma filter_all {A} (f : A -> bool) (l : list A) :
  Forall (fun x => f x = true) l -> filter f l = l.
Proof.
  induction 1 as [| x l Hx Hl IH]; simpl; [reflexivity |].
  rewrite Hx, IH. reflexivity.
Qed.

(** The save-time validation changes nothing in an entry whose tags are
    within the limit. *)
Lemma validate_metadata_id (metadata : DocumentMetadata) :
  tags_within_limit metadata -> ConfigManager.validate_metadata metadata = metadata.
Proof.
  intros Htags. unfold ConfigManager.validate_metadata.
  rewrite filter_all.
  - destruct metadata; reflexivity.
  - unfold tags_within_limit in Htags.
    eapply Forall_impl; [| exact Htags]. intros tag Hlen. apply Z.leb_le. exact Hlen.
Qed.

Lemma validate_documents_id (docs : Dict DocumentMetadata) :
  Forall (fun entry => tags_within_limit (snd entry)) docs ->
  snd (ConfigManager.validate_documents docs) = docs.
Proof.
  induction 1 as [| [hash_id metadata] rest Hhead Htail IH]; simpl; [reflexivity |].
  destruct (negb (Py.len hash_id =? 8)); [reflexivity |].
  destruct (ConfigManager.validate_documents rest) as [r rest'].
  simpl in *. rewrite IH, (validate_metadata_id metadata Hhead). reflexivity.
Qed.

(** What the validation leaves is a validated configuration: the invariant
    is established when the configuration is loaded and at every save. *)
Lemma validate_documents_validated (docs : Dict DocumentMetadata) :
  fst (ConfigManager.validate_documents docs) = Return tt ->
  Forall (fun entry => tags_within_limit (snd entry))
    (snd (ConfigManager.validate_documents docs)).
Proof.
  induction docs as [| [hash_id metadata] rest IH]; simpl; [constructor |].
  destruct (negb (Py.len hash_id =? 8)); [discriminate |].
  destruct (ConfigManager.validate_documents rest) as [r rest'].
  simpl in *. intros Hr. constructor; [| exact (IH Hr)].
  unfold tags_within_limit. simpl.
  apply Forall_forall. intros tag Hin. apply filter_In in Hin as [_ Hlen].
  apply Z.leb_le. exact Hlen.
Qed.

Lemma set_document_url_validated (hash_id url' : string) (docs : Dict DocumentMetadata) :
  Forall (fun entry => tags_within_limit (snd entry)) docs ->
  Forall (fun entry => tags_within_limit (snd entry))
    (doc_manager.set_document_url hash_id url' docs).
Proof.
  intros Hdocs. unfold doc_manager.set_document_url.
  destruct (dict_get hash_id docs) as [metadata |] eqn:Hget.
  - apply (Forall_dict_set tags_within_limit); [| exact Hdocs].
    assert (Hmd : tags_within_limit metadata).
    { clear - Hdocs Hget. induction Hdocs as [| [k v] r Hhead Htail IH]; simpl in Hget.
      - discriminate.
      - destruct (String.eqb hash_id k); [injection Hget as <-; exact Hhead | exact (IH Hget)]. }
    exact Hmd.
  - apply (Forall_dict_set tags_within_limit); [constructor | exact Hdocs].
Qed.

(** On a validated configuration the update of an entry is exactly
    [set_document_url]: the save changes nothing else. *)
Lemma config_after_update_validated (env : Env) (url' : string) (cfg : Config)
    (docs : Dict DocumentMetadata) :
  documents cfg = Some docs -> validated cfg ->
  config_after_update env url' cfg
  = mkConfig (Some (doc_manager.set_document_url
                      (doc_manager._generate_hash_id env url') url' docs)).
Proof.
  intros Hdocs Hval. unfold config_after_update, ConfigManager._validate_config_structure.
  rewrite Hdocs. cbn [documents].
  pose proof (validate_documents_id _
                (set_document_url_validated (doc_manager._generate_hash_id env url') url' docs
                   (Hval docs Hdocs))) as Hid.
  destruct (ConfigManager.validate_documents _) as [r docs']. simpl in Hid. subst docs'.
  reflexivity.
Qed.

(** [store_content] either raises before it touches the configuration, or
    leaves the configuration updated and validated. *)
Lemma store_content_config (env : Env) (url' : string) (content : Text)
    (s : doc_manager.State) :
  let run := doc_manager.store_content env url' content s in
  (doc_manager.config (snd run) = doc_manager.config s /\ exists e, fst run = Raise e)
  \/ doc_manager.config (snd run) = config_after_update env url' (doc_manager.config s).
Proof.
  unfold doc_manager.store_content.
  destruct content as [| c content'].
  - left. split; [reflexivity | eexists; reflexivity].
  - unfold bind, doc_manager.lift_outcome.
    destruct (doc_manager._generate_filename env url') as [filename | e].
    + unfold doc_manager.save_content.
      destruct (write_file env (doc_manager.trace s) filename (c :: content')) as [msg |].
      * left. split; [reflexivity | eexists; reflexivity].
      * right. unfold doc_manager.update_metadata, doc_manager._save_config,
          ConfigManager.save_config, config_after_update.
        cbn [doc_manager.config doc_manager.trace].
        destruct (ConfigManager._validate_config_structure _) as [[[] | e] cfg'].
        -- destruct (write_config env _ cfg'); reflexivity.
        -- reflexivity.
    + left. split; [reflexivity | eexists; reflexivity].
Qed.

Lemma bind_assoc {S A B C} (m : M S A) (f : A -> M S B) (g : B -> M S C) (s : S) :
  bind (bind m f) g s = bind m (fun a => bind (f a) g) s.
Proof.
  unfold bind. destruct (m s) as [[a | e] s']; [| reflexivity].
  destruct (f a s') as [[b | e] s'']; reflexivity.
Qed.

Lemma lift_config {A} (m : Net A) (s : doc_manager.State) :
  doc_manager.config (snd (doc_manager.lift m s)) = doc_manager.config s.
Proof.
  unfold doc_manager.lift. destruct (m (doc_manager.trace s)). reflexivity.
Qed.

Lemma validate_url_config (env : Env) (url' : string) (s : doc_manager.State) :
  doc_manager.config (snd (doc_manager.validate_url env url' s)) = doc_manager.config s.
Proof.
  unfold doc_manager.validate_url, try_except.
  pose proof (lift_config (network_simple.validate_url_sync env url'
                             network_simple.VALIDATION_TIMEOUT) s) as Hc.
  destruct (doc_manager.lift _ s) as [[ok | e] s']; cbn [snd] in *; [exact Hc |].
  destruct (Py.contains "SSRF" (exn_str e) || Py.contains "private IP" (exn_str e));
    exact Hc.
Qed.

(** A download step that leaves the configuration alone, followed by
    [store_content] under the handler of [add_doc]. *)
Lemma guarded_store_config (env : Env) (url' : string) (download : doc_manager.Mgr Text)
    (s : doc_manager.State) :
  (forall s0, doc_manager.config (snd (download s0)) = doc_manager.config s0) ->
  let run := try_except (content <- download ;; doc_manager.store_content env url' content)
               (doc_manager.add_doc_handler url') s in
  (doc_manager.config (snd run) = doc_manager.config s /\ exists e, fst run = Raise e)
  \/ (doc_manager.config (snd run) = config_after_update env url' (doc_manager.config s)).
Proof.
  intros Hdl. unfold try_except, bind.
  specialize (Hdl s).
  destruct (download s) as [[content | e] s1]; cbn [snd] in Hdl.
  - pose proof (store_content_config env url' content s1) as Hstore.
    cbv zeta in Hstore. rewrite Hdl in Hstore.
    destruct (doc_manager.store_content env url' content s1) as [[hash_id | e] s2];
      cbn [fst snd] in *.
    + destruct Hstore as [[_ [e He]] | Hupd]; [discriminate He | right; exact Hupd].
    + destruct (add_doc_handler_raises url' e s2) as [e' He']. rewrite He'. cbn [fst snd].
      destruct Hstore as [[Hsame _] | Hupd].
      * left. split; [exact Hsame | exists e'; reflexivity].
      * right. exact Hupd.
  - destruct (add_doc_handler_raises url' e s1) as [e' He']. rewrite He'. cbn [fst snd].
    left. split; [exact Hdl | exists e'; reflexivity].
Qed.

Lemma print_then {A} (line : string) (k : doc_manager.Mgr A) (s : doc_manager.State) :
  (doc_manager.lift (print line) ;;; k)%py s
  = k (doc_manager.mkState (doc_manager.config s)
         (doc_manager.trace s ++ [ev_print line])%list).
Proof. reflexivity. Qed.

Lemma add_doc_unfold (env : Env) (url' : string) (s : doc_manager.State) :
  doc_manager.add_doc env url' s
  = try_except (content <- validate_and_download env url' ;;
                doc_manager.store_content env url' content)
      (doc_manager.add_doc_handler url')
      (doc_manager.mkState (doc_manager.config s)
         (doc_manager.trace s ++ [ev_print ("Downloading " ++ url' ++ "...")])%list).
Proof.
  unfold doc_manager.add_doc. rewrite print_then.
  unfold try_except, validate_and_download. rewrite bind_assoc. reflexivity.
Qed.

Lemma validate_and_download_config (env : Env) (url' : string) (s : doc_manager.State) :
  doc_manager.config (snd (validate_and_download env url' s)) = doc_manager.config s.
Proof.
  unfold validate_and_download, bind.
  pose proof (validate_url_config env url' s) as Hv.
  destruct (doc_manager.validate_url env url' s) as [[ok | e] s1]; cbn [snd] in *;
    [| exact Hv].
  rewrite lift_config. exact Hv.
Qed.

Lemma add_doc_config (env : Env) (url' : string) (s : doc_manager.State) :
  let run := doc_manager.add_doc env url' s in
  (doc_manager.config (snd run) = doc_manager.config s /\ exists e, fst run = Raise e)
  \/ (doc_manager.config (snd run) = config_after_update env url' (doc_manager.config s)).
Proof.
  cbv zeta. rewrite add_doc_unfold.
  pose proof (guarded_store_config env url' (validate_and_download env url')
                (doc_manager.mkState (doc_manager.config s)
                   (doc_manager.trace s
                      ++ [ev_print ("Downloading " ++ url' ++ "...")])%list)
                (validate_and_download_config env url')) as H.
  cbv zeta in H. cbn [doc_manager.config] in H. exact H.
Qed.

Lemma add_doc_async_config (env : Env) (url' : string) (s : doc_manager.State) :
  let run := doc_manager.add_doc_async env url' s in
  (doc_manager.config (snd run) = doc_manager.config s /\ exists e, fst run = Raise e)
  \/ (doc_manager.config (snd run) = config_after_update env url' (doc_manager.config s)).
Proof.
  cbv zeta. unfold doc_manager.add_doc_async. rewrite print_then.
  pose proof (guarded_store_config env url'
                (doc_manager.lift (network_simple.download_content_async env url'
                                     network_simple.MAX_CONTENT_LENGTH
                                     network_simple.DOWNLOAD_TIMEOUT))
                (doc_manager.mkState (doc_manager.config s)
                   (doc_manager.trace s
                      ++ [ev_print ("Downloading " ++ url' ++ "...")])%list)
                (fun s0 => lift_config _ s0)) as H.
  cbv zeta in H. cbn [doc_manager.config] in H. exact H.
Qed.

(** From the two possible configurations to the stored entry. *)
Lemma entry_preserved_intro (env : Env) (url' : string) (s : doc_manager.State)
    (docs : Dict DocumentMetadata) (metadata : DocumentMetadata)
    (run : Outcome string * doc_manager.State) :
  documents (doc_manager.config s) = Some docs ->
  validated (doc_manager.config s) ->
  dict_get (doc_manager._generate_hash_id env url') docs = Some metadata ->
  (doc_manager.config (snd run) = doc_manager.config s /\ exists e, fst run = Raise e)
  \/ (doc_manager.config (snd run) = config_after_update env url' (doc_manager.config s)) ->
  entry_preserved (doc_manager._generate_hash_id env url') url' metadata docs run.
Proof.
  intros Hdocs Hval Hget [[Hsame [e He]] | Hupd].
  - exists docs, metadata. rewrite Hsame.
    repeat split; auto. rewrite He. discriminate.
  - rewrite (config_after_update_validated env url' _ docs Hdocs Hval) in Hupd.
    unfold doc_manager.set_document_url in Hupd. rewrite Hget in Hupd.
    eexists. eexists. rewrite Hupd. cbn [documents].
    split; [reflexivity |]. split; [apply dict_get_set_eq |].
    cbn [name description tags url].
    repeat split; auto.
    intros k Hk. apply dict_get_set_ne. exact Hk.
Qed.

(** C10: when the hash ID of the URL is already a key of the (validated)
    document store, [add_doc] and [add_doc_async] leave the name, the
    description and the tags of that entry as they were; only its [url]
    field may change, to the URL of the call, and no other entry changes. *)
Theorem existing_entry_metadata_preserved (env : Env) (url' : string)
    (s : doc_manager.State) (docs : Dict DocumentMetadata) (metadata : DocumentMetadata) :
  documents (doc_manager.config s) = Some docs ->
  validated (doc_manager.config s) ->
  dict_get (doc_manager._generate_hash_id env url') docs = Some metadata ->
  entry_preserved (doc_manager._generate_hash_id env url') url' metadata docs
    (doc_manager.add_doc env url' s)
  /\ entry_preserved (doc_manager._generate_hash_id env url') url' metadata docs
       (doc_manager.add_doc_async env url' s).
Proof.
  intros Hdocs Hval Hget. split.
  - apply (entry_preserved_intro env url' s docs metadata _ Hdocs Hval Hget).
    apply add_doc_config.
  - apply (entry_preserved_intro env url' s docs metadata _ Hdocs Hval Hget).
    apply add_doc_async_config.
Qed.

Lemma existing_entry_metadata_preserved_witness :
  entry_preserved "89b8c46b" sample.doc_url sample.doc_metadata
    [("89b8c46b", sample.doc_metadata)]
    (doc_manager.add_doc sample.env sample.doc_url sample.stored).
Proof.
  refine (proj1 (existing_entry_metadata_preserved sample.env sample.doc_url sample.stored
                   [("89b8c46b", sample.doc_metadata)] sample.doc_metadata
                   eq_refl _ eq_refl)).
  intros docs Hdocs. injection Hdocs as <-.
  repeat constructor; discriminate.
Defined.

(** The invariant is kept by both operations. *)
Lemma config_after_update_is_validated (env : Env) (url' : string) (cfg : Config) :
  validated cfg -> validated (config_after_update env url' cfg).
Proof.
  intros Hval.
  assert (Hdocs : Forall (fun entry => tags_within_limit (snd entry))
                    (match documents cfg with Some d => d | None => [] end)).
  { destruct (documents cfg) as [d |] eqn:Hd; [exact (Hval d Hd) | constructor]. }
  unfold config_after_update, ConfigManager._validate_config_structure. cbn [documents].
  pose proof (validate_documents_id _
                (set_document_url_validated (doc_manager._generate_hash_id env url') url' _
                   Hdocs)) as Hid.
  destruct (ConfigManager.validate_documents _) as [r docs']. cbn [snd] in *. subst docs'.
  intros docs0 Hsome. injection Hsome as <-.
  apply set_document_url_validated. exact Hdocs.
Qed.

Lemma add_doc_keeps_validated (env : Env) (url' : string) (s : doc_manager.State) :
  validated (doc_manager.config s) ->
  validated (doc_manager.config (snd (doc_manager.add_doc env url' s)))
  /\ validated (doc_manager.config (snd (doc_manager.add_doc_async env url' s))).
Proof.
  intros Hval. split.
  - destruct (add_doc_config env url' s) as [[Hsame _] | Hupd].
    + rewrite Hsame. exact Hval.
    + rewrite Hupd. apply config_after_update_is_validated. exact Hval.
  - destruct (add_doc_async_config env url' s) as [[Hsame _] | Hupd].
    + rewrite Hsame. exact Hval.
    + rewrite Hupd. apply config_after_update_is_validated. exact Hval.
Qed.

(** ** The batch *)

Lemma substring_length (n : nat) (text : string) :
  (n <= String.length text)%nat -> String.length (String.substring 0 n text) = n.
Proof.
  revert text. induction n as [| n IH]; intros text Hn.
  - destruct text; reflexivity.
  - destruct text as [| c r]; simpl in *; [lia |].
    rewrite IH by lia. reflexivity.
Qed.

(** The hash ID is never empty, so it is true as a condition. *)
Lemma hash_id_truthy (env : Env) (url' : string) :
  hexdigest_ok env -> Py.truthy (doc_manager._generate_hash_id env url') = true.
Proof.
  intros Hhex. apply truthy_true. intros Hempty.
  pose proof (substring_length 8 (sha256_hexdigest env url')) as Hlen.
  rewrite (Hhex url') in Hlen. specialize (Hlen ltac:(lia)).
  unfold doc_manager._generate_hash_id in Hempty. rewrite Hempty in Hlen. discriminate Hlen.
Qed.

Lemma store_content_returns (env : Env) (url' : string) (content : Text)
    (s s' : doc_manager.State) (r : string) :
  doc_manager.store_content env url' content s = (Return r, s') ->
  r = doc_manager._generate_hash_id env url'.
Proof.
  unfold doc_manager.store_content.
  destruct content as [| c content']; [discriminate |].
  unfold bind, doc_manager.lift_outcome.
  destruct (doc_manager._generate_filename env url') as [filename | e]; [| discriminate].
  destruct (doc_manager.save_content env filename (c :: content') s) as [[[] | e] s1];
    [| discriminate].
  destruct (doc_manager.update_metadata _ url' s1) as [[[] | e] s2]; [| discriminate].
  destruct (doc_manager._save_config env s2) as [[[] | e] s3]; [| discriminate].
  destruct (doc_manager.lift _ s3) as [[[] | e] s4]; [| discriminate].
  unfold ret. intros H. injection H as H _. symmetry. exact H.
Qed.

Lemma guarded_store_returns (env : Env) (url' : string) (download : doc_manager.Mgr Text)
    (s s' : doc_manager.State) (r : string) :
  try_except (content <- download ;; doc_manager.store_content env url' content)
    (doc_manager.add_doc_handler url') s = (Return r, s') ->
  r = doc_manager._generate_hash_id env url'.
Proof.
  unfold try_except, bind.
  destruct (download s) as [[content | e] s1].
  - destruct (doc_manager.store_content env url' content s1) as [[r0 | e] s2] eqn:Hstore.
    + intros H. injection H as H _. subst r0.
      exact (store_content_returns env url' content s1 s2 r Hstore).
    + destruct (add_doc_handler_raises url' e s2) as [e' He']. rewrite He'. discriminate.
  - destruct (add_doc_handler_raises url' e s1) as [e' He']. rewrite He'. discriminate.
Qed.

Lemma add_doc_returns (env : Env) (url' : string) (s s' : doc_manager.State) (r : string) :
  doc_manager.add_doc env url' s = (Return r, s') ->
  r = doc_manager._generate_hash_id env url'.
Proof.
  rewrite add_doc_unfold.
  apply (guarded_store_returns env url' (validate_and_download env url')).
Qed.

(** The loop of the sequential mode counts the successes of the run. *)
Lemma sync_loop_counts (env : Env) (urls : list string) (count : Z) (s : doc_manager.State) :
  hexdigest_ok env ->
  doc_manager.add_multiple_sync_loop env urls count s
  = (Return (count + successes (fst (run_each (doc_manager.add_doc env) urls s))),
     snd (run_each (doc_manager.add_doc env) urls s)).
Proof.
  intros Hhex. revert count s.
  induction urls as [| url' rest IH]; intros count s.
  - cbn [doc_manager.add_multiple_sync_loop run_each fst snd]. unfold ret, successes.
    cbn [filter List.length]. rewrite Z.add_0_r. reflexivity.
  - cbn [doc_manager.add_multiple_sync_loop run_each].
    unfold bind at 1. unfold try_except, bind at 1.
    destruct (doc_manager.add_doc env url' s) as [[r | e] s1] eqn:Hadd.
    + rewrite (add_doc_returns env url' s s1 r Hadd), (hash_id_truthy env url' Hhex).
      unfold ret. rewrite IH.
      destruct (run_each (doc_manager.add_doc env) rest s1) as [os s3].
      cbn [fst snd]. unfold successes. cbn [filter succeeded List.length].
      f_equal. f_equal. rewrite Nat2Z.inj_succ. lia.
    + rewrite print_then. unfold ret. rewrite IH. fold (log_skip url' e s1).
      destruct (run_each (doc_manager.add_doc env) rest (log_skip url' e s1)) as [os s3].
      cbn [fst snd]. unfold successes. cbn [filter succeeded]. reflexivity.
Qed.

(** The gathered results of the concurrent mode are the success flags of
    the run. *)
Lemma gather_flags (env : Env) (urls : list string) (s : doc_manager.State) :
  doc_manager.gather env urls s
  = (Return (map succeeded (fst (run_each (doc_manager.add_doc_async env) urls s))),
     snd (run_each (doc_manager.add_doc_async env) urls s)).
Proof.
  revert s. induction urls as [| url' rest IH]; intros s.
  - reflexivity.
  - cbn [doc_manager.gather run_each].
    unfold bind at 1. unfold doc_manager.download_with_semaphore, try_except, bind at 1.
    destruct (doc_manager.add_doc_async env url' s) as [[r | e] s1].
    + unfold ret. unfold bind. rewrite IH.
      destruct (run_each (doc_manager.add_doc_async env) rest s1) as [os s3]. reflexivity.
    + rewrite print_then. unfold ret, bind. rewrite IH. fold (log_skip url' e s1).
      destruct (run_each (doc_manager.add_doc_async env) rest (log_skip url' e s1))
        as [os s3]. reflexivity.
Qed.

Lemma count_flags {A} (outcomes : list (Outcome A)) :
  Z.of_nat (List.length (filter (fun result => result) (map succeeded outcomes)))
  = successes outcomes.
Proof.
  unfold successes. f_equal.
  induction outcomes as [| o os IH]; simpl; [reflexivity |].
  destruct (succeeded o); simpl; rewrite IH; reflexivity.
Qed.

Lemma run_each_length (op : string -> doc_manager.Mgr string) (urls : list string)
    (s : doc_manager.State) :
  List.length (fst (run_each op urls s)) = List.length urls.
Proof.
  revert s. induction urls as [| url' rest IH]; intros s; simpl; [reflexivity |].
  destruct (op url' s) as [o s1].
  specialize (IH (match o with Return _ => s1 | Raise e => log_skip url' e s1 end)).
  destruct (run_each op rest _) as [os s3]. simpl in *. rewrite IH. reflexivity.
Qed.

(** Each outcome of the run is the outcome of the operation on the URL at
    the same position. *)
Lemma run_each_nth (op : string -> doc_manager.Mgr string) (urls : list string)
    (s : doc_manager.State) (i : nat) (o : Outcome string) :
  nth_error (fst (run_each op urls s)) i = Some o ->
  exists url' s_i, nth_error urls i = Some url' /\ fst (op url' s_i) = o.
Proof.
  revert s i. induction urls as [| u rest IH]; intros s i Hout.
  - destruct i; discriminate Hout.
  - cbn [run_each] in Hout. destruct (op u s) as [o0 s1] eqn:Hop.
    specialize (IH (match o0 with Return _ => s1 | Raise e => log_skip u e s1 end)).
    destruct (run_each op rest _) as [os s3]. cbn [fst] in *.
    destruct i as [| i'].
    + cbn [nth_error] in Hout. injection Hout as <-.
      exists u, s. rewrite Hop. split; reflexivity.
    + cbn [nth_error] in Hout. destruct (IH i' Hout) as (url' & s_i & Hurl & Ho).
      exists url', s_i. split; [exact Hurl | exact Ho].
Qed.

Lemma successes_failures {A} (outcomes : list (Outcome A)) :
  successes outcomes + failures outcomes = Z.of_nat (List.length outcomes)
  /\ 0 <= successes outcomes /\ 0 <= failures outcomes.
Proof.
  unfold successes, failures.
  induction outcomes as [| o os IH]; cbn [filter List.length]; [lia |].
  destruct (succeeded o); cbn [negb List.length]; rewrite ?Nat2Z.inj_succ; lia.
Qed.

(** [add_multiple] in either mode is the run of the batch between its two
    lines, and returns the number of successes. *)
Lemma add_multiple_is_the_run (env : Env) (urls : list string) (use_async : bool)
    (s : doc_manager.State) :
  hexdigest_ok env ->
  let run := run_each (batch_op env use_async) urls (announced urls s) in
  doc_manager.add_multiple env urls use_async s
  = (Return (successes (fst run)), concluded (successes (fst run)) urls (snd run)).
Proof.
  intros Hhex run. subst run.
  unfold doc_manager.add_multiple. rewrite print_then. fold (announced urls s).
  destruct use_async; unfold batch_op.
  - unfold doc_manager._add_multiple_async, bind at 1. rewrite gather_flags.
    rewrite count_flags, print_then. reflexivity.
  - unfold doc_manager._add_multiple_sync, bind at 1.
    rewrite (sync_loop_counts env urls 0 (announced urls s) Hhex).
    rewrite print_then, Z.add_0_l. reflexivity.
Qed.

(** C6: in both modes every URL of the list is run exactly once and yields
    one outcome, a failure being reported and the next URL run from there;
    the count [add_multiple] returns is the number of URLs whose operation
    succeeded, so it lies between 0 and the number of URLs, and is 3 for
    five URLs of which exactly two fail. *)
Theorem batch_count_is_number_of_successes (env : Env) (urls : list string)
    (use_async : bool) (s : doc_manager.State) :
  hexdigest_ok env ->
  let run := run_each (batch_op env use_async) urls (announced urls s) in
  let outcomes := fst run in
  List.length outcomes = List.length urls
  /\ (forall i o, nth_error outcomes i = Some o ->
       exists url' s_i,
         nth_error urls i = Some url' /\ fst (batch_op env use_async url' s_i) = o)
  /\ doc_manager.add_multiple env urls use_async s
     = (Return (successes outcomes), concluded (successes outcomes) urls (snd run))
  /\ successes outcomes + failures outcomes = Z.of_nat (List.length urls)
  /\ 0 <= successes outcomes <= Z.of_nat (List.length urls)
  /\ (List.length urls = 5%nat -> failures outcomes = 2 ->
      fst (doc_manager.add_multiple env urls use_async s) = Return 3).
Proof.
  intros Hhex run outcomes.
  pose proof (run_each_length (batch_op env use_async) urls (announced urls s)) as Hlen.
  pose proof (add_multiple_is_the_run env urls use_async s Hhex) as Hrun.
  pose proof (successes_failures outcomes) as (Hsum & Hs & Hf).
  fold run in Hlen, Hrun. fold outcomes in Hlen, Hrun. cbv zeta in Hrun.
  rewrite Hlen in Hsum.
  split; [exact Hlen |].
  split; [intros i o; apply run_each_nth |].
  split; [exact Hrun |]. split; [exact Hsum |].
  split; [fold outcomes; lia |].
  intros H5 H2. rewrite Hrun. cbn [fst]. f_equal. fold outcomes. rewrite H5 in Hsum. lia.
Qed.

Lemma sample_hexdigest_ok : hexdigest_ok sample.env.
Proof.
  intros text. cbn [sha256_hexdigest sample.env].
  unfold sample.sha256_hexdigest. cbn [sample.assoc].
  repeat (match goal with
          | |- context [String.eqb text ?k] => destruct (String.eqb text k)
          end; [reflexivity |]).
  reflexivity.
Qed.

Lemma batch_count_is_number_of_successes_witness :
  fst (doc_manager.add_multiple sample.env sample.five_urls false sample.fresh) = Return 3
  /\ fst (doc_manager.add_multiple sample.env sample.five_urls true sample.fresh) = Return 3.
Proof.
  split.
  - refine (proj2 (proj2 (proj2 (proj2 (proj2
              (batch_count_is_number_of_successes sample.env sample.five_urls false
                 sample.fresh sample_hexdigest_ok))))) eq_refl _).
    vm_compute. reflexivity.
  - refine (proj2 (proj2 (proj2 (proj2 (proj2
              (batch_count_is_number_of_successes sample.env sample.five_urls true
                 sample.fresh sample_hexdigest_ok))))) eq_refl _).
    vm_compute. reflexivity.
Defined.

(** ** What reaches the caller of a batch *)

Lemma extends_refl (h : list Event) : extends h h.
Proof. exists []. symmetry. apply app_nil_r. Qed.

Lemma extends_trans (h1 h2 h3 : list Event) : extends h1 h2 -> extends h2 h3 -> extends h1 h3.
Proof.
  intros [e1 H1] [e2 H2]. exists (e1 ++ e2)%list. rewrite H2, H1, app_assoc. reflexivity.
Qed.

Lemma extends_app (h evs : list Event) : extends h (h ++ evs)%list.
Proof. exists evs. reflexivity. Qed.

Lemma extends_In (e : Event) (h h' : list Event) : extends h h' -> In e h -> In e h'.
Proof. intros [evs ->] Hin. apply in_or_app. left. exact Hin. Qed.

Lemma only_appends_bind {A B} (m : doc_manager.Mgr A) (k : A -> doc_manager.Mgr B) :
  only_appends m -> (forall a, only_appends (k a)) -> only_appends (bind m k).
Proof.
  intros Hm Hk s. unfold bind. specialize (Hm s).
  destruct (m s) as [[a | e] s1]; cbn [snd] in *; [| exact Hm].
  exact (extends_trans _ _ _ Hm (Hk a s1)).
Qed.

Lemma only_appends_try_except {A} (m : doc_manager.Mgr A) (handler : Exn -> doc_manager.Mgr A) :
  only_appends m -> (forall e, only_appends (handler e)) -> only_appends (try_except m handler).
Proof.
  intros Hm Hh s. unfold try_except. specialize (Hm s).
  destruct (m s) as [[a | e] s1]; cbn [snd] in *; [exact Hm |].
  exact (extends_trans _ _ _ Hm (Hh e s1)).
Qed.

Lemma only_appends_lift {A} (m : Net A) :
  (forall h, extends h (snd (m h))) -> only_appends (doc_manager.lift m).
Proof.
  intros Hm s. unfold doc_manager.lift. specialize (Hm (doc_manager.trace s)).
  destruct (m (doc_manager.trace s)) as [r h']. exact Hm.
Qed.

Lemma only_appends_pure {A} (o : Outcome A) : only_appends (fun s => (o, s)).
Proof. intros s. apply extends_refl. Qed.

Lemma validate_url_sync_extends (env : Env) (url' : string) (timeout : Z) (h : list Event) :
  extends h (snd (network_simple.validate_url_sync env url' timeout h)).
Proof.
  destruct (validate_gated env url' timeout h) as (evs & Hsnd & _).
  destruct (validate_url_sync_inv env url' timeout h) as [[e He] | [Hret _]].
  - rewrite He. cbn [snd]. rewrite Hsnd. apply extends_app.
  - rewrite Hret. cbn [snd]. rewrite Hsnd. apply extends_app.
Qed.

Lemma download_extends (env : Env) (url' : string) (max_size timeout : Z) (h : list Event) :
  extends h (snd (network_simple.download_content_sync env url' max_size timeout h)).
Proof.
  destruct (download_gated env url' max_size timeout h) as (evs & Hsnd & _).
  rewrite Hsnd. apply extends_app.
Qed.

Lemma print_appends (line : string) : only_appends (doc_manager.lift (print line)).
Proof. apply only_appends_lift. intros h. apply extends_app. Qed.

Lemma validate_url_appends (env : Env) (url' : string) :
  only_appends (doc_manager.validate_url env url').
Proof.
  unfold doc_manager.validate_url. apply only_appends_try_except.
  - apply only_appends_lift. intros h. apply validate_url_sync_extends.
  - intros e.
    destruct (Py.contains "SSRF" (exn_str e) || Py.contains "private IP" (exn_str e));
      apply only_appends_pure.
Qed.

Lemma save_config_appends (env : Env) : only_appends (doc_manager._save_config env).
Proof.
  intros s. unfold doc_manager._save_config, ConfigManager.save_config.
  destruct (ConfigManager._validate_config_structure (doc_manager.config s))
    as [[[] | e] cfg'].
  - destruct (write_config env (doc_manager.trace s) cfg'); apply extends_app.
  - apply extends_refl.
Qed.

Lemma store_content_appends (env : Env) (url' : string) (content : Text) :
  only_appends (doc_manager.store_content env url' content).
Proof.
  unfold doc_manager.store_content.
  destruct content as [| c content']; [apply only_appends_pure |].
  apply only_appends_bind; [apply only_appends_pure | intros filename].
  apply only_appends_bind.
  { intros s. unfold doc_manager.save_content.
    destruct (write_file env (doc_manager.trace s) filename (c :: content'));
      apply extends_app. }
  intros _. apply only_appends_bind.
  { intros s. apply extends_refl. }
  intros _. apply only_appends_bind; [apply save_config_appends | intros _].
  apply only_appends_bind; [apply print_appends | intros _].
  apply only_appends_pure.
Qed.

Lemma add_doc_handler_appends (url' : string) (e : Exn) :
  only_appends (doc_manager.add_doc_handler url' e).
Proof.
  intros s. destruct (add_doc_handler_raises url' e s) as [e' He'].
  rewrite He'. apply extends_app.
Qed.

Lemma add_doc_appends (env : Env) (url' : string) : only_appends (doc_manager.add_doc env url').
Proof.
  unfold doc_manager.add_doc.
  apply only_appends_bind; [apply print_appends | intros _].
  apply only_appends_try_except; [| apply add_doc_handler_appends].
  apply only_appends_bind; [apply validate_url_appends | intros _].
  apply only_appends_bind; [| intros content; apply store_content_appends].
  apply only_appends_lift. intros h. apply download_extends.
Qed.

Lemma add_doc_async_appends (env : Env) (url' : string) :
  only_appends (doc_manager.add_doc_async env url').
Proof.
  unfold doc_manager.add_doc_async.
  apply only_appends_bind; [apply print_appends | intros _].
  apply only_appends_try_except; [| apply add_doc_handler_appends].
  apply only_appends_bind; [| intros content; apply store_content_appends].
  apply only_appends_lift. intros h. apply download_extends.
Qed.

Lemma batch_op_appends (env : Env) (use_async : bool) (url' : string) :
  only_appends (batch_op env use_async url').
Proof.
  destruct use_async; [apply add_doc_async_appends | apply add_doc_appends].
Qed.

Lemma run_each_appends (op : string -> doc_manager.Mgr string) (urls : list string)
    (s : doc_manager.State) :
  (forall u, only_appends (op u)) ->
  extends (doc_manager.trace s) (doc_manager.trace (snd (run_each op urls s))).
Proof.
  intros Hop. revert s. induction urls as [| url' rest IH]; intros s.
  - apply extends_refl.
  - cbn [run_each]. pose proof (Hop url' s) as Hstep.
    destruct (op url' s) as [o s1]. cbn [snd] in Hstep.
    set (s2 := match o with Return _ => s1 | Raise e => log_skip url' e s1 end).
    assert (Hs2 : extends (doc_manager.trace s1) (doc_manager.trace s2)).
    { subst s2. destruct o; [apply extends_refl | apply extends_app]. }
    specialize (IH s2). destruct (run_each op rest s2) as [os s3]. cbn [snd] in *.
    exact (extends_trans _ _ _ Hstep (extends_trans _ _ _ Hs2 IH)).
Qed.

(** Each failed URL of the run has its line in the final trace. *)
Lemma run_each_logs (op : string -> doc_manager.Mgr string) (urls : list string)
    (s : doc_manager.State) (i : nat) (url' : string) (e : Exn) :
  (forall u, only_appends (op u)) ->
  nth_error urls i = Some url' ->
  nth_error (fst (run_each op urls s)) i = Some (Raise e) ->
  In (ev_print ("Skipping " ++ url' ++ ": " ++ exn_str e))
    (doc_manager.trace (snd (run_each op urls s))).
Proof.
  intros Hop. revert s i. induction urls as [| u rest IH]; intros s i Hurl Hout.
  - destruct i; discriminate Hurl.
  - cbn [run_each] in *. destruct (op u s) as [o s1].
    set (s2 := match o with Return _ => s1 | Raise e0 => log_skip u e0 s1 end) in *.
    pose proof (run_each_appends op rest s2 Hop) as Hrest.
    specialize (IH s2).
    destruct (run_each op rest s2) as [os s3]. cbn [fst snd] in *.
    destruct i as [| i'].
    + cbn [nth_error] in Hurl, Hout. injection Hurl as ->. injection Hout as ->.
      apply (extends_In _ _ _ Hrest). subst s2. unfold log_skip. cbn [doc_manager.trace].
      apply in_or_app. right. left. reflexivity.
    + cbn [nth_error] in Hurl, Hout. exact (IH i' Hurl Hout).
Qed.

(** What [add_multiple] hands to its caller is the number of successes
    alone; a URL that fails adds nothing to it, whatever its exception, and
    the text of the exception goes to one printed line
    [Skipping <url>: <text>]. *)
Lemma failure_reaches_caller_only_in_print (env : Env) (urls : list string)
    (use_async : bool) (s : doc_manager.State) :
  hexdigest_ok env ->
  let run := run_each (batch_op env use_async) urls (announced urls s) in
  let result := doc_manager.add_multiple env urls use_async s in
  fst result = Return (successes (fst run))
  /\ (forall i url' e,
        nth_error urls i = Some url' ->
        nth_error (fst run) i = Some (Raise e) ->
        In (ev_print ("Skipping " ++ url' ++ ": " ++ exn_str e))
          (doc_manager.trace (snd result))).
Proof.
  intros Hhex run result. subst result.
  rewrite (add_multiple_is_the_run env urls use_async s Hhex). fold run. cbn [fst snd].
  split; [reflexivity |].
  intros i url' e Hurl Hout. unfold concluded. cbn [doc_manager.trace].
  apply in_or_app. left.
  exact (run_each_logs (batch_op env use_async) urls (announced urls s) i url' e
           (batch_op_appends env use_async) Hurl Hout).
Qed.

Lemma failure_reaches_caller_only_in_print_witness :
  fst (doc_manager.add_multiple sample.env [sample.ftp_url] false sample.fresh) = Return 0
  /\ In (ev_print ("Skipping ftp://example.com/file.txt: URL validation failed: "
                   ++ "Scheme 'ftp' not allowed. Only HTTP/HTTPS are permitted."))
       (doc_manager.trace
          (snd (doc_manager.add_multiple sample.env [sample.ftp_url] false sample.fresh))).
Proof.
  pose proof (failure_reaches_caller_only_in_print sample.env [sample.ftp_url] false
                sample.fresh sample_hexdigest_ok) as [Hcount Hlog].
  split.
  - exact Hcount.
  - exact (Hlog 0%nat sample.ftp_url
             (mkExn exceptions_NetworkError
                ("URL validation failed: "
                 ++ "Scheme 'ftp' not allowed. Only HTTP/HTTPS are permitted."))
             eq_refl eq_refl).
Defined.

(** In the sample world the scheme rejection is a security rejection and
    the unknown host an ordinary failure. *)
Lemma ftp_rejected_as_security : rejected_as sample.env sample.ftp_url true.
Proof. intros h. do 2 eexists. split; reflexivity. Qed.

Lemma unknown_host_rejected_as_ordinary : rejected_as sample.env sample.unknown_host_url false.
Proof. intros h. do 2 eexists. split; reflexivity. Qed.

(** A batch of one URL rejected for its scheme and a batch of one URL whose
    host does not resolve both hand the caller the same result, the count
    0, in the sequential mode (and in the concurrent one). *)
Lemma categories_collapse_in_the_count : ~ categories_reach_caller.
Proof.
  intros Hclaim.
  apply (Hclaim sample.env false sample.fresh sample.ftp_url sample.unknown_host_url
           ftp_rejected_as_security unknown_host_rejected_as_ordinary).
  vm_compute. reflexivity.
Qed.

Lemma concurrent_mode_collapses_too :
  fst (doc_manager.add_multiple sample.env [sample.ftp_url] true sample.fresh)
  = fst (doc_manager.add_multiple sample.env [sample.unknown_host_url] true sample.fresh).
Proof. vm_compute. reflexivity. Qed.

(** Below the batch, [DocManager.validate_url] names a failure a security
    violation only when its text holds [SSRF] or [private IP]: the
    rejection of a private address is reported as [ValidationError], the
    rejection of a scheme or of a dangerous port as [NetworkError]. *)
Lemma security_label_depends_on_the_text :
  fst (doc_manager.validate_url sample.env sample.internal_url sample.fresh)
  = Raise (mkExn exceptions_ValidationError
             "Security violation: Access to private IP address 10.0.0.1 is not allowed")
  /\ fst (doc_manager.validate_url sample.env sample.ftp_url sample.fresh)
     = Raise (mkExn exceptions_NetworkError
                ("URL validation failed: "
                 ++ "Scheme 'ftp' not allowed. Only HTTP/HTTPS are permitted."))
  /\ fst (doc_manager.validate_url sample.env sample.ssh_url sample.fresh)
     = Raise (mkExn exceptions_NetworkError
                "URL validation failed: Access to port 22 is not allowed").
Proof. repeat split; reflexivity. Qed.

(** C8: a security rejection does not reach the caller of a batch as such.
    The gate refuses the scheme [ftp] with an [SSRFError].
    [DocManager.validate_url], which names a failure a security violation
    by a search in its text, names the refusal of a private address so, and
    reports the refusal of the scheme, like that of port 22, as an ordinary
    [NetworkError].  [add_multiple], whose docstring lists
    [Raises: ValidationError], raises nothing: for the refused scheme, for
    the private address and for a host that does not resolve alike it
    returns the count 0, in both modes; and so does [update_all] for a
    store that holds such a URL. *)
Theorem security_rejection_lost_at_the_caller :
  fst (validation.validate_url_security sample.env sample.ftp_url
         network_simple.VALIDATION_TIMEOUT [])
  = Raise (mkExn validation_SSRFError
             "Scheme 'ftp' not allowed. Only HTTP/HTTPS are permitted.")
  /\ fst (doc_manager.validate_url sample.env sample.ftp_url sample.fresh)
     = Raise (mkExn exceptions_NetworkError
                ("URL validation failed: "
                 ++ "Scheme 'ftp' not allowed. Only HTTP/HTTPS are permitted."))
  /\ fst (doc_manager.validate_url sample.env sample.ssh_url sample.fresh)
     = Raise (mkExn exceptions_NetworkError
                "URL validation failed: Access to port 22 is not allowed")
  /\ fst (doc_manager.validate_url sample.env sample.internal_url sample.fresh)
     = Raise (mkExn exceptions_ValidationError
                "Security violation: Access to private IP address 10.0.0.1 is not allowed")
  /\ (forall use_async url',
        In url' [sample.ftp_url; sample.internal_url; sample.unknown_host_url] ->
        fst (doc_manager.add_multiple sample.env [url'] use_async sample.fresh) = Return 0)
  /\ (forall use_async url',
        In url' [sample.ftp_url; sample.internal_url; sample.unknown_host_url] ->
        fst (doc_updates.update_all sample.env use_async (holding sample.env url'))
        = Return 0).
Proof.
  split; [reflexivity |]. split; [reflexivity |]. split; [reflexivity |].
  split; [reflexivity |].
  split; intros use_async url' Hin; cbn [In] in Hin;
    destruct Hin as [<- | [<- | [<- | []]]]; destruct use_async; vm_compute; reflexivity.
Qed.

(** * Further properties *)

(** ** What the network layer raises and how often it asks the network *)

(** Every run of [validate_url_security] has one of three shapes: it raises
    before any event, it raises after the resolution, or it returns after
    the resolution and one request.  What it raises is an [SSRFError] or a
    [ValidationError]. *)
Lemma validate_shape (env : Env) (url' : string) (timeout : Z) (h : list Event) :
  let run := validation.validate_url_security env url' timeout h in
  (exists e, run = (Raise e, h)
             /\ In (exn_class e) [validation_SSRFError; validation_ValidationError])
  \/ (exists e host, run = (Raise e, (h ++ [ev_gethostbyname host])%list)
                     /\ In (exn_class e) [validation_SSRFError; validation_ValidationError])
  \/ (exists r host,
        run = (Return r, (h ++ [ev_gethostbyname host; ev_urlopen url' timeout])%list)).
Proof.
  cbv zeta.
  assert (Hwrap : forall (e : Exn) (h0 : list Event),
             exists e', @validation.reraise_or_wrap (bool * option string) e h0 = (Raise e', h0)
                        /\ (In (exn_class e) [validation_SSRFError; validation_ValidationError;
                                              builtin_Exception] ->
                            In (exn_class e')
                              [validation_SSRFError; validation_ValidationError])).
  { intros [c msg] h0. unfold validation.reraise_or_wrap.
    destruct c; cbn; eexists; (split; [reflexivity |]); cbn; intuition discriminate. }
  unfold validation.validate_url_security, try_except, bind, validation.call_urlparse.
  destruct (urlparse env url') as [msg | parsed].
  { left. destruct (Hwrap (mkExn builtin_Exception msg) h) as (e' & He' & Hc).
    exists e'. unfold raise. rewrite He'. split; [reflexivity |]. apply Hc. cbn. auto. }
  unfold ret.
  destruct (Py.mem_str (Py.lower (scheme parsed)) validation.ALLOWED_SCHEMES); cbn [negb].
  2:{ left. unfold raise.
      destruct (Hwrap (mkExn validation_SSRFError
                         ("Scheme '" ++ scheme parsed
                          ++ "' not allowed. Only HTTP/HTTPS are permitted.")) h)
        as (e' & He' & Hc).
      exists e'. rewrite He'. split; [reflexivity |]. apply Hc. cbn. auto. }
  assert (Hnohost : forall h0,
             exists e', @validation.reraise_or_wrap (bool * option string)
                          (mkExn validation_ValidationError "URL must contain a valid hostname") h0
                        = (Raise e', h0)
                        /\ In (exn_class e')
                             [validation_SSRFError; validation_ValidationError]).
  { intros h0. destruct (Hwrap (mkExn validation_ValidationError
                                  "URL must contain a valid hostname") h0) as (e' & He' & Hc).
    exists e'. split; [exact He' |]. apply Hc. cbn. auto. }
  destruct (hostname parsed) as [host |].
  2:{ left. unfold raise. destruct (Hnohost h) as (e' & He' & Hc).
      exists e'. rewrite He'. split; [reflexivity | exact Hc]. }
  destruct (Py.truthy host); cbn [negb].
  2:{ left. unfold raise. destruct (Hnohost h) as (e' & He' & Hc).
      exists e'. rewrite He'. split; [reflexivity | exact Hc]. }
  unfold validation.resolve_hostname.
  destruct (gethostbyname env h host) as [ip_addr | msg | msg].
  - rewrite check_private_ranges_eq.
    destruct (existsb (ip_in_network ip_addr) validation.PRIVATE_IP_RANGES).
    + right. left.
      destruct (Hwrap (mkExn validation_SSRFError
                         ("Access to private IP address " ++ ip_str env ip_addr
                          ++ " is not allowed")) (h ++ [ev_gethostbyname host])%list)
        as (e' & He' & Hc).
      exists e', host. rewrite He'. split; [reflexivity |]. apply Hc. cbn. auto.
    + pose proof (check_port_trace parsed (h ++ [ev_gethostbyname host])%list) as Htrace.
      assert (Hclass : forall e h0,
                 validation.check_port parsed (h ++ [ev_gethostbyname host])%list
                 = (Raise e, h0) ->
                 In (exn_class e) [validation_SSRFError; validation_ValidationError;
                                   builtin_Exception]).
      { intros e h0. unfold validation.check_port, raise, ret.
        destruct (port parsed) as [| p | pmsg].
        - discriminate.
        - destruct (p =? 0); [discriminate |].
          destruct ((p <? 1) || (p >? 65535)).
          + intros H. injection H as <- _. cbn. auto.
          + destruct (Py.mem_int p validation.dangerous_ports); [| discriminate].
            intros H. injection H as <- _. cbn. auto.
        - intros H. injection H as <- _. cbn. auto. }
      destruct (validation.check_port parsed (h ++ [ev_gethostbyname host])%list)
        as [[[] | e] h0] eqn:Hport; cbn [snd] in Htrace; subst h0.
      * right. right.
        destruct (trial_request_returns env url' timeout (h ++ [ev_gethostbyname host])%list)
          as [r Hr].
        exists r, host. rewrite Hr, <- app_assoc. reflexivity.
      * right. left.
        destruct (Hwrap e (h ++ [ev_gethostbyname host])%list) as (e' & He' & Hc).
        exists e', host. rewrite He'. split; [reflexivity |].
        apply Hc. exact (Hclass e _ eq_refl).
  - right. left.
    destruct (Hwrap (mkExn validation_ValidationError
                       ("Cannot resolve hostname '" ++ host ++ "': " ++ msg))
                (h ++ [ev_gethostbyname host])%list) as (e' & He' & Hc).
    exists e', host. rewrite He'. split; [reflexivity |]. apply Hc. cbn. auto.
  - right. left.
    destruct (Hwrap (mkExn builtin_Exception msg) (h ++ [ev_gethostbyname host])%list)
      as (e' & He' & Hc).
    exists e', host. rewrite He'. split; [reflexivity |]. apply Hc. cbn. auto.
Qed.

Lemma validate_url_sync_shape (env : Env) (url' : string) (timeout : Z) (h : list Event) :
  let run := network_simple.validate_url_sync env url' timeout h in
  (exists e evs, run = (Raise e, (h ++ evs)%list)
                 /\ validation_events url' timeout evs
                 /\ In (exn_class e) [validation_SSRFError; validation_ValidationError;
                                      network_NetworkError])
  \/ (exists host,
        run = (Return true, (h ++ [ev_gethostbyname host; ev_urlopen url' timeout])%list)).
Proof.
  cbv zeta. unfold network_simple.validate_url_sync, try_except, bind.
  destruct (validate_shape env url' timeout h)
    as [(e & Hrun & Hc) | [(e & host & Hrun & Hc) | (r & host & Hrun)]];
    cbv zeta in Hrun; rewrite Hrun.
  - left. exists e, []. rewrite app_nil_r.
    replace (isinstance e [validation_SSRFError; validation_ValidationError]) with true.
    + split; [reflexivity |]. split; [left; reflexivity |].
      cbn in Hc |- *. intuition.
    + destruct e as [c msg]. cbn in Hc. destruct Hc as [<- | [<- | []]]; reflexivity.
  - left. exists e, [ev_gethostbyname host].
    replace (isinstance e [validation_SSRFError; validation_ValidationError]) with true.
    + split; [reflexivity |]. split; [right; exists host; left; reflexivity |].
      cbn in Hc |- *. intuition.
    + destruct e as [c msg]. cbn in Hc. destruct Hc as [<- | [<- | []]]; reflexivity.
  - destruct r as [is_valid msg]. destruct is_valid; cbn [negb].
    + right. exists host. reflexivity.
    + left. unfold raise.
      eexists. exists [ev_gethostbyname host; ev_urlopen url' timeout].
      cbn [isinstance existsb issubclass exn_class ExnClass_eqb base_class orb].
      split; [reflexivity |]. split; [right; exists host; right; reflexivity |].
      cbn. auto.
Qed.

Lemma read_chunks_raises (script : list ReadResult) (max_size total_size : Z)
    (content_chunks : list Bytes) (e : Exn) :
  network_simple.read_chunks script max_size total_size content_chunks = Raise e ->
  In (exn_class e) [builtin_Exception; network_ContentTooLargeError].
Proof.
  revert total_size content_chunks.
  induction script as [| [chunk | msg] rest IH]; intros total_size content_chunks;
    cbn [network_simple.read_chunks].
  - discriminate.
  - destruct chunk as [| b chunk']; [discriminate |].
    destruct (total_size + Z.of_nat (List.length (b :: chunk')) >? max_size).
    + intros H. injection H as <-. cbn. auto.
    + apply IH.
  - intros H. injection H as <-. cbn. auto.
Qed.

Lemma read_response_raises (env : Env) (response : Response) (max_size : Z) (e : Exn) :
  network_simple.read_response env response max_size = Raise e ->
  In (exn_class e) [builtin_Exception; network_ContentTooLargeError; network_DownloadError].
Proof.
  unfold network_simple.read_response, and_then, network_simple.check_content_length.
  assert (Hrest : match network_simple.read_chunks (reads response) max_size 0 [] with
                  | Return content_chunks =>
                      network_simple.decode_content env (join content_chunks)
                  | Raise e0 => Raise e0
                  end = Raise e ->
                  In (exn_class e)
                    [builtin_Exception; network_ContentTooLargeError; network_DownloadError]).
  { destruct (network_simple.read_chunks (reads response) max_size 0 []) as [chunks | e0] eqn:Hr.
    - rewrite decode_content_first_decoded.
      destruct (first_decoded env fallback_order (join chunks)); [discriminate |].
      intros H. injection H as <-. cbn. auto.
    - intros H. injection H as ->.
      pose proof (read_chunks_raises _ _ _ _ _ Hr) as Hc. cbn in Hc |- *. intuition. }
  destruct (content_length response) as [[text [n | msg]] |]; try exact Hrest.
  - destruct (Py.truthy text); [| exact Hrest].
    destruct (n >? max_size); [| exact Hrest].
    intros H. injection H as <-. cbn. auto.
  - destruct (Py.truthy text); [| exact Hrest].
    intros H. injection H as <-. cbn. auto.
Qed.

Lemma fetch_raises (env : Env) (url' : string) (max_size timeout : Z) (h h' : list Event)
    (e : Exn) :
  network_simple.fetch env url' max_size timeout h = (Raise e, h') ->
  In (exn_class e) [network_NetworkError; network_DownloadError; network_ContentTooLargeError].
Proof.
  unfold network_simple.fetch.
  destruct (urlopen env h url' timeout) as [response | code reason | reason | msg | msg];
    try (intros H; injection H as <- _; cbn; auto).
  destruct (network_simple.read_response env response max_size) as [text | e0] eqn:Hread;
    [discriminate |].
  pose proof (read_response_raises env response max_size e0 Hread) as Hc.
  destruct e0 as [c msg]. cbn in Hc.
  destruct Hc as [<- | [<- | [<- | []]]]; cbn; intros H; injection H as <- _; cbn; auto.
Qed.

Lemma download_shape (env : Env) (url' : string) (max_size timeout : Z) (h : list Event) :
  let run := network_simple.download_content_sync env url' max_size timeout h in
  (exists e evs, run = (Raise e, (h ++ evs)%list)
                 /\ validation_events url' network_simple.VALIDATION_TIMEOUT evs
                 /\ In (exn_class e) [validation_SSRFError; validation_ValidationError;
                                      network_NetworkError])
  \/ (exists host,
        snd run = (h ++ [ev_gethostbyname host;
                         ev_urlopen url' network_simple.VALIDATION_TIMEOUT;
                         ev_urlopen url' timeout])%list
        /\ forall e, fst run = Raise e ->
                     In (exn_class e) [network_NetworkError; network_DownloadError;
                                       network_ContentTooLargeError]).
Proof.
  cbv zeta. unfold network_simple.download_content_sync, bind.
  destruct (validate_url_sync_shape env url' network_simple.VALIDATION_TIMEOUT h)
    as [(e & evs & Hrun & Hev & Hc) | (host & Hrun)]; cbv zeta in Hrun; rewrite Hrun.
  - left. exists e, evs. auto.
  - right. exists host. split.
    + rewrite fetch_trace, <- app_assoc. reflexivity.
    + intros e He.
      destruct (network_simple.fetch env url' max_size timeout _) as [o h'] eqn:Hf.
      cbn [fst] in He. subst o. exact (fetch_raises _ _ _ _ _ _ _ Hf).
Qed.

Lemma network_layer_classes (env : Env) (url' : string)
    (timeout max_size download_timeout : Z) (h : list Event) :
  (forall e, fst (validation.validate_url_security env url' timeout h) = Raise e ->
             In (exn_class e) [validation_SSRFError; validation_ValidationError])
  /\ (forall e, fst (network_simple.validate_url_sync env url' timeout h) = Raise e ->
                In (exn_class e) [validation_SSRFError; validation_ValidationError;
                                  network_NetworkError])
  /\ (forall e, fst (network_simple.download_content_sync env url' max_size
                       download_timeout h) = Raise e ->
                In (exn_class e) [validation_SSRFError; validation_ValidationError;
                                  network_NetworkError; network_DownloadError;
                                  network_ContentTooLargeError]).
Proof.
  split; [| split].
  - intros e.
    destruct (validate_shape env url' timeout h)
      as [(e0 & Hrun & Hc) | [(e0 & host & Hrun & Hc) | (r & host & Hrun)]];
      cbv zeta in Hrun; rewrite Hrun; cbn [fst]; intros H;
      try discriminate; injection H as <-; exact Hc.
  - intros e.
    destruct (validate_url_sync_shape env url' timeout h)
      as [(e0 & evs & Hrun & _ & Hc) | (host & Hrun)];
      cbv zeta in Hrun; rewrite Hrun; cbn [fst]; intros H;
      try discriminate; injection H as <-; exact Hc.
  - intros e.
    destruct (download_shape env url' max_size download_timeout h)
      as [(e0 & evs & Hrun & _ & Hc) | (host & _ & Hc)]; cbv zeta in *.
    + rewrite Hrun. cbn [fst]. intros H. injection H as <-.
      cbn in Hc |- *. intuition.
    + intros H. specialize (Hc e H). cbn in Hc |- *. intuition.
Qed.

(** X1: [validate_url_security] raises only [SSRFError] or
    [ValidationError]; [validate_url_sync] raises only these or
    [NetworkError]; [download_content_sync] raises only the five classes
    its docstring lists. *)
Theorem network_layer_raises_documented_classes (env : Env) (url' : string)
    (timeout max_size download_timeout : Z) (h : list Event) :
  (forall e, fst (validation.validate_url_security env url' timeout h) = Raise e ->
             In (exn_class e) [validation_SSRFError; validation_ValidationError])
  /\ (forall e, fst (network_simple.validate_url_sync env url' timeout h) = Raise e ->
                In (exn_class e) [validation_SSRFError; validation_ValidationError;
                                  network_NetworkError])
  /\ (forall e, fst (network_simple.download_content_sync env url' max_size
                       download_timeout h) = Raise e ->
                In (exn_class e) [validation_SSRFError; validation_ValidationError;
                                  network_NetworkError; network_DownloadError;
                                  network_ContentTooLargeError]).
Proof.
  exact (network_layer_classes env url' timeout max_size download_timeout h).
Qed.

(** X2: one call of [download_content_sync] calls [gethostbyname] at most
    once and [urlopen] at most twice, in a fixed order: the resolution, the
    trial request, the real GET.  The GET is called only after
    [validate_url_sync] has returned: when validation raises, as it does
    also on a negative verdict of [validate_url_security], the download
    raises the same exception and makes no further call; when validation
    returns, it has made the resolution and the trial request, and the GET
    is the one call that follows.  A download that returns has made all
    three calls.  What [urlopen] does within one call, such as following
    redirects, is not counted. *)
Theorem download_network_budget (env : Env) (url' : string) (max_size timeout : Z)
    (h : list Event) :
  let validation :=
    network_simple.validate_url_sync env url' network_simple.VALIDATION_TIMEOUT h in
  let run := network_simple.download_content_sync env url' max_size timeout h in
  exists evs,
    snd validation = (h ++ evs)%list
    /\ validation_events url' network_simple.VALIDATION_TIMEOUT evs
    /\ (forall e, fst validation = Raise e -> run = (Raise e, (h ++ evs)%list))
    /\ (forall ok, fst validation = Return ok ->
        (exists host, evs = [ev_gethostbyname host;
                             ev_urlopen url' network_simple.VALIDATION_TIMEOUT])
        /\ snd run = (h ++ evs ++ [ev_urlopen url' timeout])%list)
    /\ (forall msg h',
          validation.validate_url_security env url' network_simple.VALIDATION_TIMEOUT h
          = (Return (false, msg), h') ->
          exists e, fst validation = Raise e)
    /\ (forall text, fst run = Return text ->
        exists host, snd run = (h ++ [ev_gethostbyname host;
                                      ev_urlopen url' network_simple.VALIDATION_TIMEOUT;
                                      ev_urlopen url' timeout])%list).
Proof.
  cbv zeta.
  assert (Hneg : forall msg h',
             validation.validate_url_security env url' network_simple.VALIDATION_TIMEOUT h
             = (Return (false, msg), h') ->
             exists e, fst (network_simple.validate_url_sync env url'
                              network_simple.VALIDATION_TIMEOUT h) = Raise e).
  { intros msg h' Hsec.
    unfold network_simple.validate_url_sync, try_except, bind. rewrite Hsec.
    cbn [negb]. unfold raise.
    cbn [isinstance existsb issubclass exn_class ExnClass_eqb base_class orb].
    eexists. reflexivity. }
  unfold network_simple.download_content_sync, bind.
  destruct (validate_url_sync_shape env url' network_simple.VALIDATION_TIMEOUT h)
    as [(e & evs & Hrun & Hev & _) | (host & Hrun)]; cbv zeta in Hrun.
  - exists evs. rewrite Hrun in *. cbn [fst snd].
    split; [reflexivity |]. split; [exact Hev |].
    split; [intros e0 H; injection H as <-; reflexivity |].
    split; [discriminate |]. split; [exact Hneg | discriminate].
  - exists [ev_gethostbyname host; ev_urlopen url' network_simple.VALIDATION_TIMEOUT].
    rewrite Hrun in *. cbn [fst snd].
    split; [reflexivity |]. split; [right; exists host; right; reflexivity |].
    split; [discriminate |].
    split; [| split; [exact Hneg |]].
    + intros ok _. split; [exists host; reflexivity |].
      rewrite fetch_trace, <- app_assoc. reflexivity.
    + intros text _. exists host. rewrite fetch_trace, <- app_assoc. reflexivity.
Qed.

(** ** The side effects of [add_doc], in order *)

Lemma validate_returns_host (env : Env) (url' : string) (timeout : Z) (h h' : list Event)
    (r : bool * option string) :
  validation.validate_url_security env url' timeout h = (Return r, h') ->
  exists host, host_of env url' host
               /\ h' = (h ++ [ev_gethostbyname host; ev_urlopen url' timeout])%list.
Proof.
  intros Hrun.
  destruct (security_checks_pass env h url') eqn:Hchecks.
  - unfold security_checks_pass in Hchecks.
    destruct (urlparse env url') as [msg | parsed] eqn:Hparse; [discriminate |].
    apply Bool.andb_true_iff in Hchecks as [Hscheme Hchecks].
    destruct (hostname parsed) as [host |] eqn:Hhost; [| discriminate].
    apply Bool.andb_true_iff in Hchecks as [Htruthy Hchecks].
    destruct (gethostbyname env h host) as [ip_addr | msg | msg] eqn:Hres; try discriminate.
    apply Bool.negb_true_iff in Hchecks.
    rewrite (validate_after_resolution env url' timeout h parsed host ip_addr
               Hparse Hscheme Hhost Htruthy Hres), Hchecks in Hrun.
    exists host. split; [exists parsed; split; [exact Hparse | exact Hhost] |].
    destruct (after_address_check_shape env url' timeout parsed
                (h ++ [ev_gethostbyname host])%list) as [[e He] | [r0 Hr0]].
    + rewrite He in Hrun. discriminate Hrun.
    + rewrite Hr0 in Hrun. injection Hrun as _ <-. rewrite <- app_assoc. reflexivity.
  - destruct (validate_checks_fail env url' timeout h Hchecks) as (e & evs & He & _).
    rewrite He in Hrun. discriminate Hrun.
Qed.

Lemma validate_url_sync_returns_host (env : Env) (url' : string) (timeout : Z)
    (h h' : list Event) (ok : bool) :
  network_simple.validate_url_sync env url' timeout h = (Return ok, h') ->
  ok = true
  /\ exists host, host_of env url' host
                  /\ h' = (h ++ [ev_gethostbyname host; ev_urlopen url' timeout])%list.
Proof.
  intros Hrun.
  destruct (validate_url_sync_inv env url' timeout h) as [[e He] | [Hret [msg Hmsg]]].
  - rewrite He in Hrun. discriminate Hrun.
  - rewrite Hret in Hrun. injection Hrun as <- <-. split; [reflexivity |].
    destruct (validation.validate_url_security env url' timeout h) as [o h1] eqn:Hv.
    cbn [fst snd] in *. subst o.
    exact (validate_returns_host env url' timeout h h1 (true, msg) Hv).
Qed.

Lemma host_of_unique (env : Env) (url' host1 host2 : string) :
  host_of env url' host1 -> host_of env url' host2 -> host1 = host2.
Proof.
  intros (p1 & Hp1 & Hh1) (p2 & Hp2 & Hh2).
  rewrite Hp1 in Hp2. injection Hp2 as <-. rewrite Hh1 in Hh2. injection Hh2 as <-.
  reflexivity.
Qed.

Lemma validation_events_network (url' : string) (timeout : Z) (evs : list Event) :
  validation_events url' timeout evs -> Forall (fun e => is_network e = true) evs.
Proof.
  intros [-> | [host [-> | ->]]]; repeat constructor.
Qed.

(** The outcome and the events of [download_content_sync] as [add_doc]
    calls it. *)
Lemma download_events (env : Env) (url' : string) (h : list Event) :
  let run := network_simple.download_content_sync env url'
               network_simple.MAX_CONTENT_LENGTH network_simple.DOWNLOAD_TIMEOUT h in
  exists net,
    snd run = (h ++ net)%list
    /\ Forall (fun e => is_network e = true) net
    /\ (forall content, fst run = Return content ->
        exists host, host_of env url' host /\ net = downloaded_once url' host).
Proof.
  cbv zeta. unfold network_simple.download_content_sync, bind.
  destruct (network_simple.validate_url_sync env url' network_simple.VALIDATION_TIMEOUT h)
    as [[ok | e] h1] eqn:Hval.
  - destruct (validate_url_sync_returns_host env url' _ h h1 ok Hval)
      as (_ & host & Hhost & ->).
    exists (downloaded_once url' host). unfold downloaded_once, validated_once.
    split; [rewrite surjective_pairing at 1; rewrite fetch_trace, <- app_assoc; reflexivity |].
    split; [repeat constructor |].
    intros content _. exists host. split; [exact Hhost | reflexivity].
  - destruct (validate_url_sync_shape env url' network_simple.VALIDATION_TIMEOUT h)
      as [(e0 & evs & Hrun & Hev & _) | (host & Hrun)]; cbv zeta in Hrun;
      rewrite Hrun in Hval; [| discriminate Hval].
    injection Hval as _ <-. exists evs. cbn [fst snd].
    split; [reflexivity |]. split; [exact (validation_events_network _ _ _ Hev) |].
    discriminate.
Qed.

(** [DocManager.validate_url]: the same events as the validation it calls;
    it returns only [True], and raises [ValidationError] or
    [NetworkError] of [exceptions.py]. *)
Lemma validate_url_events (env : Env) (url' : string) (s : doc_manager.State) :
  let run := doc_manager.validate_url env url' s in
  exists net,
    snd run = doc_manager.mkState (doc_manager.config s) (doc_manager.trace s ++ net)%list
    /\ Forall (fun e => is_network e = true) net
    /\ (forall ok, fst run = Return ok ->
        exists host, host_of env url' host /\ net = validated_once url' host)
    /\ (forall e, fst run = Raise e ->
        In (exn_class e) [exceptions_ValidationError; exceptions_NetworkError]).
Proof.
  cbv zeta. unfold doc_manager.validate_url, try_except, doc_manager.lift.
  destruct (network_simple.validate_url_sync env url' network_simple.VALIDATION_TIMEOUT
              (doc_manager.trace s)) as [[ok | e] h1] eqn:Hval.
  - destruct (validate_url_sync_returns_host env url' _ _ h1 ok Hval)
      as (_ & host & Hhost & ->).
    exists (validated_once url' host). cbn [fst snd].
    split; [reflexivity |]. split; [repeat constructor |].
    split; [intros ok0 _; exists host; split; [exact Hhost | reflexivity] | discriminate].
  - destruct (validate_url_sync_shape env url' network_simple.VALIDATION_TIMEOUT
                (doc_manager.trace s))
      as [(e0 & evs & Hrun & Hev & _) | (host & Hrun)]; cbv zeta in Hrun;
      rewrite Hrun in Hval; [| discriminate Hval].
    injection Hval as _ <-. exists evs.
    destruct (Py.contains "SSRF" (exn_str e) || Py.contains "private IP" (exn_str e));
      cbn [fst snd]; (split; [reflexivity |]);
      (split; [exact (validation_events_network _ _ _ Hev) |]);
      (split; [discriminate |]); intros e1 H; injection H as <-; cbn; auto.
Qed.

(** What [store_content] appends and how it ends. *)
Lemma store_content_shape (env : Env) (url' : string) (content : Text)
    (s : doc_manager.State) :
  let run := doc_manager.store_content env url' content s in
  (exists writes,
      doc_manager.trace (snd run) = (doc_manager.trace s ++ writes)%list
      /\ write_events writes
      /\ exists e, fst run = Raise e)
  \/ (exists filename,
        content <> []
        /\ run = (Return (doc_manager._generate_hash_id env url'),
                  doc_manager.mkState (config_after_update env url' (doc_manager.config s))
                    (doc_manager.trace s
                       ++ [ev_write_file filename content;
                           ev_write_config (config_after_update env url'
                                              (doc_manager.config s));
                           ev_print ("✓ Downloaded as "
                                     ++ doc_manager._generate_hash_id env url' ++ ".md")])%list)).
Proof.
  cbv zeta. unfold doc_manager.store_content.
  destruct content as [| c content'].
  { left. exists []. cbn [snd fst raise]. rewrite app_nil_r.
    split; [reflexivity |]. split; [left; reflexivity | eexists; reflexivity]. }
  unfold bind, doc_manager.lift_outcome.
  destruct (doc_manager._generate_filename env url') as [filename | e].
  2:{ left. exists []. cbn [snd fst]. rewrite app_nil_r.
      split; [reflexivity |]. split; [left; reflexivity | eexists; reflexivity]. }
  unfold doc_manager.save_content.
  destruct (write_file env (doc_manager.trace s) filename (c :: content')) as [msg |].
  { left. exists [ev_write_file filename (c :: content')]. cbn [snd fst doc_manager.trace].
    split; [reflexivity |].
    split; [right; exists filename, (c :: content'); split; [discriminate | left; reflexivity] |].
    eexists; reflexivity. }
  unfold doc_manager.update_metadata, doc_manager._save_config, ConfigManager.save_config.
  cbn [doc_manager.config doc_manager.trace].
  fold (config_after_update env url' (doc_manager.config s)).
  unfold config_after_update.
  destruct (ConfigManager._validate_config_structure _) as [[[] | e] cfg'].
  - destruct (write_config env _ cfg').
    + right. exists filename. split; [discriminate |].
      unfold doc_manager.lift, print, emit, ret. cbn [snd fst doc_manager.trace doc_manager.config].
      rewrite <- !app_assoc. reflexivity.
    + left. exists [ev_write_file filename (c :: content'); ev_write_config cfg'].
      cbn [snd fst doc_manager.trace]. rewrite <- app_assoc.
      split; [reflexivity |].
      split; [right; exists filename, (c :: content'); split;
              [discriminate | right; exists cfg'; reflexivity] |].
      eexists; reflexivity.
  - left. exists [ev_write_file filename (c :: content')]. cbn [snd fst doc_manager.trace].
    split; [reflexivity |].
    split; [right; exists filename, (c :: content'); split; [discriminate | left; reflexivity] |].
    eexists; reflexivity.
Qed.

Lemma guarded_store_effects (env : Env) (url' : string) (full_net : string -> list Event)
    (download : doc_manager.Mgr Text) (s : doc_manager.State) :
  network_step env url' full_net download ->
  effects_in_order env url' full_net s
    (try_except (content <- download ;; doc_manager.store_content env url' content)
       (doc_manager.add_doc_handler url')
       (doc_manager.mkState (doc_manager.config s)
          (doc_manager.trace s ++ [ev_print ("Downloading " ++ url' ++ "...")])%list)).
Proof.
  intros Hstep.
  set (s0 := doc_manager.mkState (doc_manager.config s)
               (doc_manager.trace s ++ [ev_print ("Downloading " ++ url' ++ "...")])%list).
  destruct (Hstep s0) as (net & Hsnd & Hnet & Hfull).
  unfold try_except, bind.
  destruct (download s0) as [[content | e] s1]; cbn [fst snd] in *; subst s1.
  - destruct (store_content_shape env url' content
                (doc_manager.mkState (doc_manager.config s0) (doc_manager.trace s0 ++ net)%list))
      as [(writes & Htrace & Hwrites & e & He) | (filename & Hne & Hrun)]; cbv zeta in *.
    + destruct (doc_manager.store_content env url' content _) as [o s2].
      cbn [fst snd] in *. subst o.
      destruct (add_doc_handler_raises url' e s2) as [e' He']. rewrite He'.
      exists net, writes, ("✗ Failed to download " ++ url'). cbn [fst snd doc_manager.trace].
      split; [rewrite Htrace; subst s0; cbn [doc_manager.trace];
              rewrite <- !app_assoc; reflexivity |].
      split; [exact Hnet |]. split; [exact Hwrites |].
      split; [intros _; exact (Hfull content eq_refl) |].
      split; [discriminate | reflexivity].
    + rewrite Hrun. cbn [fst snd doc_manager.trace doc_manager.config].
      exists net,
        [ev_write_file filename content;
         ev_write_config (config_after_update env url' (doc_manager.config s0))],
        ("✓ Downloaded as " ++ doc_manager._generate_hash_id env url' ++ ".md").
      split; [subst s0; cbn [doc_manager.trace]; rewrite <- !app_assoc; reflexivity |].
      split; [exact Hnet |].
      split; [right; exists filename, content; split; [exact Hne | right; eexists; reflexivity] |].
      split; [intros _; exact (Hfull content eq_refl) |].
      split; [| discriminate].
      intros r H. injection H as <-.
      split; [reflexivity |]. split; [reflexivity |]. exists filename, content. reflexivity.
  - destruct (add_doc_handler_raises url' e
                (doc_manager.mkState (doc_manager.config s0) (doc_manager.trace s0 ++ net)%list))
      as [e' He']. rewrite He'.
    exists net, [], ("✗ Failed to download " ++ url'). cbn [fst snd doc_manager.trace].
    split; [subst s0; cbn [doc_manager.trace]; rewrite <- !app_assoc; reflexivity |].
    split; [exact Hnet |]. split; [left; reflexivity |].
    split; [intros H; contradiction H; reflexivity |].
    split; [discriminate | reflexivity].
Qed.

Lemma validate_and_download_step (env : Env) (url' : string) :
  network_step env url'
    (fun host => (validated_once url' host ++ downloaded_once url' host)%list)
    (validate_and_download env url').
Proof.
  intros s. unfold validate_and_download, bind.
  destruct (validate_url_events env url' s) as (net1 & Hsnd1 & Hnet1 & Hret1 & _).
  cbv zeta in *.
  destruct (doc_manager.validate_url env url' s) as [[ok | e] s1]; cbn [fst snd] in *; subst s1.
  - destruct (Hret1 ok eq_refl) as (host & Hhost & ->).
    destruct (download_events env url' (doc_manager.trace s ++ validated_once url' host)%list)
      as (net2 & Hsnd2 & Hnet2 & Hret2). cbv zeta in *.
    unfold doc_manager.lift. cbn [doc_manager.trace doc_manager.config].
    destruct (network_simple.download_content_sync env url' _ _ _) as [o h2].
    cbn [fst snd] in *. subst h2.
    exists (validated_once url' host ++ net2)%list.
    split; [rewrite app_assoc; reflexivity |].
    split; [apply Forall_app; split; [repeat constructor | exact Hnet2] |].
    intros content Ho. destruct (Hret2 content Ho) as (host2 & Hhost2 & ->).
    exists host. split; [exact Hhost |].
    rewrite (host_of_unique env url' host2 host Hhost2 Hhost). reflexivity.
  - exists net1. split; [reflexivity |]. split; [exact Hnet1 | discriminate].
Qed.

Lemma download_async_step (env : Env) (url' : string) :
  network_step env url' (downloaded_once url')
    (doc_manager.lift (network_simple.download_content_async env url'
                         network_simple.MAX_CONTENT_LENGTH network_simple.DOWNLOAD_TIMEOUT)).
Proof.
  intros s. unfold doc_manager.lift, network_simple.download_content_async.
  destruct (download_events env url' (doc_manager.trace s)) as (net & Hsnd & Hnet & Hret).
  cbv zeta in *.
  destruct (network_simple.download_content_sync env url' _ _ _) as [o h1].
  cbn [fst snd] in *. subst h1.
  exists net. split; [reflexivity |]. split; [exact Hnet | exact Hret].
Qed.

Lemma add_doc_effects (env : Env) (url' : string) (s : doc_manager.State) :
  effects_in_order env url'
    (fun host => (validated_once url' host ++ downloaded_once url' host)%list)
    s (doc_manager.add_doc env url' s)
  /\ effects_in_order env url' (downloaded_once url') s (doc_manager.add_doc_async env url' s).
Proof.
  split.
  - rewrite add_doc_unfold.
    apply guarded_store_effects. apply validate_and_download_step.
  - unfold doc_manager.add_doc_async. rewrite print_then.
    apply (guarded_store_effects env url' (downloaded_once url')). apply download_async_step.
Qed.

(** X3: the effects of [add_doc] and of [add_doc_async] come in a fixed
    order.  After the opening line there are only resolutions and
    requests; the content file is written only once they are all done
    ([add_doc] validates twice, so it resolves the host twice and requests
    the URL three times; [add_doc_async] resolves once and requests twice),
    and only with a content that is not empty; the configuration is
    written only after the content file; a failure before that writes
    nothing. *)
Theorem add_doc_effects_in_order (env : Env) (url' : string) (s : doc_manager.State) :
  effects_in_order env url'
    (fun host => (validated_once url' host ++ downloaded_once url' host)%list)
    s (doc_manager.add_doc env url' s)
  /\ effects_in_order env url' (downloaded_once url') s (doc_manager.add_doc_async env url' s).
Proof.
  exact (add_doc_effects env url' s).
Qed.

(** ** What [add_doc] and [add_doc_async] raise *)

Lemma add_doc_handler_class (url' : string) (e e' : Exn) (s s' : doc_manager.State) :
  doc_manager.add_doc_handler url' e s = (Raise e', s') ->
  (e' = e /\ In (exn_class e) [exceptions_ValidationError; exceptions_NetworkError;
                               exceptions_DownloadError])
  \/ (exn_class e' = exceptions_DownloadError
      /\ exn_str e' = "Unexpected error: " ++ exn_str e).
Proof.
  unfold doc_manager.add_doc_handler, bind, doc_manager.lift, print, emit, reraise, raise.
  cbn [fst snd].
  destruct e as [c msg]. destruct c; cbn; intros H; injection H as <- _; cbn; auto 10.
Qed.

Lemma sanitize_filename_raises (filename : string) (max_length : Z) (e : Exn) :
  validation.sanitize_filename filename max_length = Raise e ->
  In (exn_class e) [validation_ValidationError; validation_PathTraversalError].
Proof.
  unfold validation.sanitize_filename.
  destruct (negb (Py.truthy filename)).
  { intros H. injection H as <-. cbn. auto. }
  destruct (Py.contains ".." filename || Py.contains "/" filename || Py.contains "\" filename).
  { intros H. injection H as <-. cbn. auto. }
  discriminate.
Qed.

Lemma store_content_raises (env : Env) (url' : string) (content : Text)
    (s : doc_manager.State) (e : Exn) :
  fst (doc_manager.store_content env url' content s) = Raise e ->
  In (exn_class e) [exceptions_DownloadError; exceptions_ConfigurationError;
                    validation_ValidationError; validation_PathTraversalError].
Proof.
  unfold doc_manager.store_content.
  destruct content as [| c content'].
  { cbn. intros H. injection H as <-. cbn. auto. }
  unfold bind, doc_manager.lift_outcome.
  destruct (doc_manager._generate_filename env url') as [filename | e0] eqn:Hname.
  2:{ cbn [fst]. intros H. injection H as <-.
      pose proof (sanitize_filename_raises _ _ _ Hname) as Hc. cbn in Hc |- *. intuition. }
  unfold doc_manager.save_content.
  destruct (write_file env (doc_manager.trace s) filename (c :: content')) as [msg |].
  { cbn [fst]. intros H. injection H as <-. cbn. auto. }
  unfold doc_manager.update_metadata, doc_manager._save_config.
  cbn [doc_manager.config doc_manager.trace].
  destruct (ConfigManager.save_config env _ _) as [[[[] | e0] cfg'] h'].
  - unfold doc_manager.lift, print, emit, ret. cbn [fst snd]. discriminate.
  - cbn [fst]. intros H. injection H as <-. cbn. auto.
Qed.

Lemma guarded_raises (body : doc_manager.Mgr string) (url' : string)
    (s : doc_manager.State) (e : Exn) :
  fst (try_except body (doc_manager.add_doc_handler url') s) = Raise e ->
  exists e0, fst (body s) = Raise e0
             /\ ((e = e0 /\ In (exn_class e0) [exceptions_ValidationError;
                                               exceptions_NetworkError;
                                               exceptions_DownloadError])
                 \/ exn_class e = exceptions_DownloadError).
Proof.
  unfold try_except.
  destruct (body s) as [[r | e0] s1]; [discriminate |].
  destruct (doc_manager.add_doc_handler url' e0 s1) as [o s2] eqn:Hh.
  cbn [fst]. intros ->. exists e0. split; [reflexivity |].
  destruct (add_doc_handler_class _ _ _ _ _ Hh) as [[-> Hc] | [Hc _]]; auto.
Qed.

(** X4: [add_doc] raises only the three classes of [exceptions.py] its
    docstring lists.  [add_doc_async] raises [DownloadError] and nothing
    else: it does not call [validate_url], so a URL refused for security
    reasons is reported as a [DownloadError] too. *)
Theorem add_doc_raises_documented_classes (env : Env) (url' : string)
    (s : doc_manager.State) :
  (forall e, fst (doc_manager.add_doc env url' s) = Raise e ->
             In (exn_class e) [exceptions_ValidationError; exceptions_NetworkError;
                               exceptions_DownloadError])
  /\ (forall e, fst (doc_manager.add_doc_async env url' s) = Raise e ->
                exn_class e = exceptions_DownloadError).
Proof.
  split.
  - intros e. rewrite add_doc_unfold. intros H.
    destruct (guarded_raises _ _ _ _ H) as (e0 & _ & [[-> Hc] | Hc]);
      [exact Hc | rewrite Hc; cbn; auto].
  - intros e. unfold doc_manager.add_doc_async. rewrite print_then.
    set (s0 := doc_manager.mkState _ _). intros H.
    destruct (guarded_raises _ _ _ _ H) as (e0 & He0 & [[-> Hc] | Hc]);
      [| exact Hc].
    revert He0.
    unfold bind, doc_manager.lift, network_simple.download_content_async.
    pose proof (proj2 (proj2 (network_layer_classes env url' network_simple.VALIDATION_TIMEOUT
                                network_simple.MAX_CONTENT_LENGTH
                                network_simple.DOWNLOAD_TIMEOUT (doc_manager.trace s0))))
      as Hdl.
    destruct (network_simple.download_content_sync env url' _ _ _) as [[content | e1] h1].
    + intros He0.
      pose proof (store_content_raises env url' content _ e0 He0) as Hst.
      destruct e0 as [c msg]. cbn in Hst, Hc |- *. intuition congruence.
    + cbn [fst]. intros He0. injection He0 as ->.
      specialize (Hdl e0 eq_refl). destruct e0 as [c msg]. cbn in Hdl, Hc |- *.
      intuition congruence.
Qed.

(** ** The port stage of [validate_url_security] *)

(** X5: for a URL that passed the scheme, host and address checks and
    whose port is one [urllib] accepts (0 to 65535), the port stage has
    two outcomes only.  A port of the dangerous list is refused with an
    [SSRFError] after the resolution and before any request; every other
    port, 0 included, goes on to the trial request.  The range test of the
    source never fires. *)
Theorem port_stage_outcomes (env : Env) (url' : string) (timeout : Z) (h : list Event)
    (parsed : ParseResult) (host : string) (ip_addr : IPAddress) (p : Z) :
  urlparse env url' = inr parsed ->
  Py.mem_str (Py.lower (scheme parsed)) validation.ALLOWED_SCHEMES = true ->
  hostname parsed = Some host ->
  Py.truthy host = true ->
  gethostbyname env h host = Resolved ip_addr ->
  existsb (ip_in_network ip_addr) validation.PRIVATE_IP_RANGES = false ->
  port parsed = PortInt p ->
  0 <= p <= 65535 ->
  let run := validation.validate_url_security env url' timeout h in
  if Py.mem_int p validation.dangerous_ports
  then run = (Raise (mkExn validation_SSRFError
                       ("Access to port " ++ Py.str_of_int p ++ " is not allowed")),
              (h ++ [ev_gethostbyname host])%list)
  else exists r, run = (Return r, (h ++ [ev_gethostbyname host; ev_urlopen url' timeout])%list).
Proof.
  intros Hparse Hscheme Hhost Htruthy Hres Hpublic Hport Hrange. cbv zeta.
  rewrite (validate_after_resolution env url' timeout h parsed host ip_addr
             Hparse Hscheme Hhost Htruthy Hres), Hpublic.
  unfold after_address_check, try_except, bind, validation.check_port.
  rewrite Hport.
  destruct (Z.eqb_spec p 0) as [-> | Hnz].
  - cbn [Py.mem_int existsb validation.dangerous_ports Z.eqb orb]. unfold ret.
    destruct (trial_request_returns env url' timeout (h ++ [ev_gethostbyname host])%list)
      as [r Hr].
    exists r. rewrite Hr, <- app_assoc. reflexivity.
  - replace ((p <? 1) || (p >? 65535)) with false
      by (symmetry; apply Bool.orb_false_iff; split; lia).
    destruct (Py.mem_int p validation.dangerous_ports).
    + reflexivity.
    + unfold ret.
      destruct (trial_request_returns env url' timeout (h ++ [ev_gethostbyname host])%list)
        as [r Hr].
      exists r. rewrite Hr, <- app_assoc. reflexivity.
Qed.

Lemma port_stage_outcomes_witness :
  validation.validate_url_security sample.env sample.ssh_url 10 []
  = (Raise (mkExn validation_SSRFError "Access to port 22 is not allowed"),
     [ev_gethostbyname "example.com"]).
Proof.
  refine (port_stage_outcomes sample.env sample.ssh_url 10 []
            (sample.on_example_com (PortInt 22)) "example.com"
            (IPv4Address (ipv4 93 184 216 34)) 22
            eq_refl eq_refl eq_refl eq_refl eq_refl eq_refl eq_refl _).
  lia.
Defined.

(** ** A new entry of the document store *)

Lemma dict_set_absent {V} (k : string) (v : V) (d : Dict V) :
  dict_get k d = None -> dict_set k v d = (d ++ [(k, v)])%list.
Proof.
  induction d as [| [k' v'] r IH]; cbn [dict_get dict_set app]; [reflexivity |].
  destruct (String.eqb k k'); [discriminate |].
  intros H. rewrite (IH H). reflexivity.
Qed.

Lemma config_after_update_docs (env : Env) (url' : string) (cfg : Config) :
  validated cfg ->
  config_after_update env url' cfg
  = mkConfig (Some (doc_manager.set_document_url (doc_manager._generate_hash_id env url') url'
                      (stored_documents cfg))).
Proof.
  intros Hval. unfold stored_documents.
  destruct (documents cfg) as [docs |] eqn:Hdocs.
  - exact (config_after_update_validated env url' cfg docs Hdocs Hval).
  - unfold config_after_update, ConfigManager._validate_config_structure.
    rewrite Hdocs. cbn [documents].
    pose proof (validate_documents_id _
                  (set_document_url_validated (doc_manager._generate_hash_id env url') url' []
                     (Forall_nil _))) as Hid.
    destruct (ConfigManager.validate_documents _) as [r docs']. cbn [snd] in *. subst docs'.
    reflexivity.
Qed.

(** X6: a call of [add_doc] or [add_doc_async] that returns for a URL
    whose hash ID is not yet a key leaves the document store as it was
    with one entry appended: the key is the hash ID, the URL is the one of
    the call, name and description are unset and there are no tags. *)
Theorem new_document_appended (env : Env) (url' : string) (s : doc_manager.State) :
  validated (doc_manager.config s) ->
  dict_get (doc_manager._generate_hash_id env url') (stored_documents (doc_manager.config s))
  = None ->
  forall add, add = doc_manager.add_doc \/ add = doc_manager.add_doc_async ->
  forall r, fst (add env url' s) = Return r ->
  r = doc_manager._generate_hash_id env url'
  /\ documents (doc_manager.config (snd (add env url' s)))
     = Some (stored_documents (doc_manager.config s)
               ++ [(r, mkDocumentMetadata url' None None [])])%list.
Proof.
  intros Hval Habsent add Hadd r Hret.
  assert (Hcfg : doc_manager.config (snd (add env url' s))
                 = config_after_update env url' (doc_manager.config s)).
  { destruct Hadd as [-> | ->].
    - destruct (add_doc_config env url' s) as [[_ [e He]] | Hupd]; cbv zeta in *;
        [rewrite He in Hret; discriminate | exact Hupd].
    - destruct (add_doc_async_config env url' s) as [[_ [e He]] | Hupd]; cbv zeta in *;
        [rewrite He in Hret; discriminate | exact Hupd]. }
  assert (Hr : r = doc_manager._generate_hash_id env url').
  { destruct Hadd as [-> | ->].
    - destruct (proj1 (add_doc_effects env url' s)) as (net & writes & closing & _ & _ & _ & _
                                                        & Hok & _).
      exact (proj1 (Hok r Hret)).
    - destruct (proj2 (add_doc_effects env url' s)) as (net & writes & closing & _ & _ & _ & _
                                                        & Hok & _).
      exact (proj1 (Hok r Hret)). }
  split; [exact Hr |].
  rewrite Hcfg, (config_after_update_docs env url' _ Hval). cbn [documents].
  unfold doc_manager.set_document_url. rewrite Habsent, Hr.
  rewrite (dict_set_absent _ _ _ Habsent). reflexivity.
Qed.

Lemma new_document_appended_witness :
  documents (doc_manager.config (snd (doc_manager.add_doc sample.env sample.a_url sample.stored)))
  = Some [("89b8c46b", sample.doc_metadata);
          ("38507e16", mkDocumentMetadata sample.a_url None None [])].
Proof.
  refine (proj2 (new_document_appended sample.env sample.a_url sample.stored _ eq_refl
                   doc_manager.add_doc (or_introl eq_refl) "38507e16" eq_refl)).
  intros docs Hdocs. injection Hdocs as <-.
  repeat constructor; discriminate.
Defined.

(** ** [_validate_config_structure] *)

Lemma validate_documents_keys (docs : Dict DocumentMetadata) :
  map fst (snd (ConfigManager.validate_documents docs)) = map fst docs.
Proof.
  induction docs as [| [hash_id metadata] rest IH]; cbn [ConfigManager.validate_documents];
    [reflexivity |].
  destruct (negb (Py.len hash_id =? 8)); [reflexivity |].
  destruct (ConfigManager.validate_documents rest) as [r rest'].
  cbn [snd map fst] in *. rewrite IH. reflexivity.
Qed.

Lemma validate_documents_fields (docs : Dict DocumentMetadata) :
  Forall2 (fun old new => same_but_tags (snd old) (snd new))
    docs (snd (ConfigManager.validate_documents docs)).
Proof.
  assert (Hrefl : forall l : Dict DocumentMetadata,
             Forall2 (fun old new => same_but_tags (snd old) (snd new)) l l).
  { induction l as [| x l IH]; constructor; [| exact IH].
    repeat split. right. reflexivity. }
  induction docs as [| [hash_id metadata] rest IH]; cbn [ConfigManager.validate_documents];
    [constructor |].
  destruct (negb (Py.len hash_id =? 8)); [apply Hrefl |].
  destruct (ConfigManager.validate_documents rest) as [r rest'].
  cbn [snd] in *. constructor; [| exact IH].
  repeat split. left. reflexivity.
Qed.

(** On the typed configuration of the manager, whose entries hold a URL,
    a name and a description that are strings or unset, and a list of
    strings as tags, [_validate_config_structure] keeps the keys and their
    order, and in every entry the URL, the name and the description; it
    only drops tags longer than 20 characters.  When it returns, the
    configuration it leaves has every tag within the limit, and validating
    it again changes nothing. *)
Lemma typed_config_validation_idempotent (cfg : Config) :
  let run := ConfigManager._validate_config_structure cfg in
  map fst (stored_documents (snd run)) = map fst (stored_documents cfg)
  /\ Forall2 (fun old new => same_but_tags (snd old) (snd new))
       (stored_documents cfg) (stored_documents (snd run))
  /\ (fst run = Return tt ->
      validated (snd run)
      /\ ConfigManager._validate_config_structure (snd run) = (Return tt, snd run)).
Proof.
  cbv zeta. unfold ConfigManager._validate_config_structure.
  fold (stored_documents cfg).
  pose proof (validate_documents_keys (stored_documents cfg)) as Hkeys.
  pose proof (validate_documents_fields (stored_documents cfg)) as Hfields.
  pose proof (validate_documents_validated (stored_documents cfg)) as Hval.
  destruct (ConfigManager.validate_documents (stored_documents cfg)) as [r docs'] eqn:Hrun.
  cbn [fst snd stored_documents documents] in *.
  split; [exact Hkeys |]. split; [exact Hfields |].
  intros ->. specialize (Hval eq_refl). split.
  - intros docs0 H. injection H as <-. exact Hval.
  - pose proof (validate_documents_id docs' Hval) as Hid.
    assert (Hret : fst (ConfigManager.validate_documents docs') = Return tt).
    { clear - Hrun. revert docs' Hrun.
      induction (stored_documents cfg) as [| [hash_id metadata] rest IH]; intros docs' Hrun;
        cbn [ConfigManager.validate_documents] in Hrun.
      - injection Hrun as <-. reflexivity.
      - destruct (negb (Py.len hash_id =? 8)) eqn:Hlen; [discriminate |].
        destruct (ConfigManager.validate_documents rest) as [r rest'].
        injection Hrun as -> <-.
        cbn [ConfigManager.validate_documents]. rewrite Hlen.
        specialize (IH rest' eq_refl).
        destruct (ConfigManager.validate_documents rest') as [r' rest'']. cbn [fst] in *.
        exact IH. }
    destruct (ConfigManager.validate_documents docs') as [r' docs''].
    cbn [fst snd] in *. subst. reflexivity.
Qed.

(** ** Strings *)

Lemma all_chars_app (cls : ascii -> bool) (a b : string) :
  PyStr.all_chars cls (a ++ b) = PyStr.all_chars cls a && PyStr.all_chars cls b.
Proof.
  induction a as [| c r IH]; cbn [append PyStr.all_chars]; [reflexivity |].
  rewrite IH, andb_assoc. reflexivity.
Qed.

Lemma all_chars_weaken (cls cls' : ascii -> bool) (s : string) :
  (forall c, cls c = true -> cls' c = true) ->
  PyStr.all_chars cls s = true -> PyStr.all_chars cls' s = true.
Proof.
  intros Himp. induction s as [| c r IH]; cbn [PyStr.all_chars]; [reflexivity |].
  intros H. apply andb_true_iff in H as [Hc Hr].
  rewrite (Himp c Hc), (IH Hr). reflexivity.
Qed.

Lemma all_chars_substring (cls : ascii -> bool) (n : nat) (s : string) :
  PyStr.all_chars cls s = true -> PyStr.all_chars cls (String.substring 0 n s) = true.
Proof.
  revert s. induction n as [| n IH]; intros s.
  - destruct s; reflexivity.
  - destruct s as [| c r]; cbn [String.substring PyStr.all_chars]; [reflexivity |].
    intros H. apply andb_true_iff in H as [Hc Hr]. rewrite Hc, (IH r Hr). reflexivity.
Qed.

(** A character outside the class of every character of [s] does not occur
    in [s]. *)
Lemma all_chars_no_char (cls : ascii -> bool) (c : ascii) (s : string) :
  PyStr.all_chars cls s = true -> cls c = false ->
  Py.contains (String c EmptyString) s = false.
Proof.
  intros Hs Hc. induction s as [| c' r IH]; [reflexivity |].
  cbn [PyStr.all_chars] in Hs. apply andb_true_iff in Hs as [Hc' Hr].
  cbn [Py.contains String.prefix].
  destruct (ascii_dec c c') as [-> | _]; [congruence |].
  exact (IH Hr).
Qed.

Lemma length_append (a b : string) :
  String.length (a ++ b) = (String.length a + String.length b)%nat.
Proof. induction a as [| c r IH]; cbn [append String.length]; [reflexivity | rewrite IH; reflexivity]. Qed.

Lemma length_lower (s : string) : String.length (Py.lower s) = String.length s.
Proof. induction s as [| c r IH]; cbn [Py.lower String.length]; [reflexivity | rewrite IH; reflexivity]. Qed.

Lemma length_substring_le (n : nat) (s : string) :
  (String.length (String.substring 0 n s) <= n)%nat.
Proof.
  revert s. induction n as [| n IH]; intros s.
  - destruct s; cbn; lia.
  - destruct s as [| c r]; cbn [String.substring String.length]; [lia |].
    specialize (IH r). lia.
Qed.

Lemma length_remove_chars (cls : ascii -> bool) (s : string) :
  (String.length (PyStr.remove_chars cls s) <= String.length s)%nat.
Proof.
  induction s as [| c r IH]; cbn [PyStr.remove_chars String.length]; [lia |].
  destruct (cls c); cbn [String.length]; lia.
Qed.

Lemma remove_chars_clean (cls : ascii -> bool) (s : string) :
  PyStr.all_chars (fun c => negb (cls c)) (PyStr.remove_chars cls s) = true.
Proof.
  induction s as [| c r IH]; cbn [PyStr.remove_chars]; [reflexivity |].
  destruct (cls c) eqn:Hc; [exact IH |].
  cbn [PyStr.all_chars]. rewrite Hc, IH. reflexivity.
Qed.

Lemma truthy_nonempty (s : string) : Py.truthy s = true <-> s <> EmptyString.
Proof.
  unfold Py.truthy. destruct s; cbn; split; intros H; congruence.
Qed.

Lemma mem_str_In (x : string) (xs : list string) : Py.mem_str x xs = true <-> In x xs.
Proof.
  unfold Py.mem_str. rewrite existsb_exists. split.
  - intros (y & Hin & Heq). apply String.eqb_eq in Heq. subst y. exact Hin.
  - intros Hin. exists x. split; [exact Hin | apply String.eqb_refl].
Qed.

(** The body the regular expression sees: the string, or the string
    without its final newline. *)
Lemma before_final_newline_spec (s : string) :
  s = PyStr.before_final_newline s
  \/ s = PyStr.before_final_newline s ++ String PyStr.newline EmptyString.
Proof.
  induction s as [| c r IH]; [left; reflexivity |].
  cbn [PyStr.before_final_newline]. destruct r as [| c' r'].
  - destruct (Ascii.eqb_spec c PyStr.newline) as [-> | _]; [right | left]; reflexivity.
  - destruct IH as [IH | IH]; [left | right]; cbn [append]; rewrite <- IH; reflexivity.
Qed.

Lemma before_final_newline_id (s : string) :
  last_char s <> Some PyStr.newline -> PyStr.before_final_newline s = s.
Proof.
  induction s as [| c r IH]; [reflexivity |].
  cbn [last_char PyStr.before_final_newline]. destruct r as [| c' r'].
  - intros H. destruct (Ascii.eqb_spec c PyStr.newline) as [-> | _]; [contradiction H |];
      reflexivity.
  - intros H. rewrite (IH H). reflexivity.
Qed.

Lemma last_char_class (cls : ascii -> bool) (s : string) (c : ascii) :
  PyStr.all_chars cls s = true -> last_char s = Some c -> cls c = true.
Proof.
  induction s as [| c' r IH]; [discriminate |].
  cbn [PyStr.all_chars last_char]. intros H. apply andb_true_iff in H as [Hc Hr].
  destruct r as [| c'' r'].
  - intros E. injection E as <-. exact Hc.
  - exact (IH Hr).
Qed.

(** ** [validate_package_name] *)

(** X8: a name [validate_package_name] accepts is safe as one component
    of a path: it is not empty, has at most 255 characters, holds no
    slash, no backslash and no [..], does not start with a dot, and
    consists of characters of [a-zA-Z0-9._-], after which one newline may
    follow. *)
Theorem accepted_package_name_is_safe (package_name : string) :
  input_validation.validate_package_name package_name = true ->
  safe_package_name package_name.
Proof.
  unfold input_validation.validate_package_name.
  destruct (Py.truthy package_name) eqn:Htruthy; cbn [negb]; [| discriminate].
  destruct (Py.len package_name >? 255) eqn:Hlen; [discriminate |].
  destruct (Py.contains ".." package_name) eqn:Hdots; cbn [orb]; [discriminate |].
  destruct (PyStr.startswith "/" package_name || PyStr.startswith "\" package_name);
    [discriminate |].
  destruct (PyStr.re_match_plus input_validation.package_name_char package_name) eqn:Hre;
    cbn [negb]; [| discriminate].
  destruct (Py.mem_str (Py.lower package_name) validation.RESERVED_NAMES); [discriminate |].
  destruct (PyStr.startswith "." package_name) eqn:Hdot; cbn [orb]; [discriminate |].
  intros _.
  unfold PyStr.re_match_plus in Hre. apply andb_true_iff in Hre as [Hbody Hclass].
  assert (Hall : PyStr.all_chars
                   (fun c => input_validation.package_name_char c || Ascii.eqb c PyStr.newline)
                   package_name = true).
  { destruct (before_final_newline_spec package_name) as [E | E]; rewrite E.
    - apply (all_chars_weaken input_validation.package_name_char); [| exact Hclass].
      intros c Hc. rewrite Hc. reflexivity.
    - rewrite all_chars_app. apply andb_true_iff. split; [| reflexivity].
      apply (all_chars_weaken input_validation.package_name_char); [| exact Hclass].
      intros c Hc. rewrite Hc. reflexivity. }
  split; [apply truthy_nonempty; exact Htruthy |].
  split; [lia |].
  split; [exact (all_chars_no_char _ "/"%char _ Hall eq_refl) |].
  split; [exact (all_chars_no_char _ "\"%char _ Hall eq_refl) |].
  split; [exact Hdots |]. split; [exact Hdot |].
  exists (PyStr.before_final_newline package_name).
  split; [apply before_final_newline_spec |].
  split; [apply truthy_nonempty; exact Hbody | exact Hclass].
Qed.

Lemma accepted_package_name_is_safe_witness : safe_package_name "my-docs_1.0".
Proof. apply accepted_package_name_is_safe. reflexivity. Defined.

Lemma last_char_append_one (a : string) (c : ascii) :
  last_char (a ++ String c EmptyString) = Some c.
Proof.
  induction a as [| x r IH]; [reflexivity |].
  cbn [append last_char]. destruct r as [| y r']; [reflexivity | exact IH].
Qed.

Lemma lower_append (a b : string) : Py.lower (a ++ b) = Py.lower a ++ Py.lower b.
Proof.
  induction a as [| x r IH]; cbn [append Py.lower]; [reflexivity | rewrite IH; reflexivity].
Qed.

Lemma before_final_newline_append (cls : ascii -> bool) (body : string) :
  PyStr.all_chars cls body = true -> cls PyStr.newline = false ->
  PyStr.before_final_newline (body ++ String PyStr.newline EmptyString) = body.
Proof.
  intros Hall Hnl. induction body as [| c r IH]; [reflexivity |].
  cbn [PyStr.all_chars] in Hall. apply andb_true_iff in Hall as [Hc Hr].
  cbn [append PyStr.before_final_newline].
  specialize (IH Hr).
  destruct r as [| c' r'].
  - cbn [append]. cbn [append] in IH. rewrite IH. reflexivity.
  - cbn [append] in *. rewrite IH. reflexivity.
Qed.

Lemma endswith_last_char (c : ascii) (s : string) :
  PyStr.endswith (String c EmptyString) s = true -> last_char s = Some c.
Proof.
  induction s as [| x r IH]; [discriminate |].
  cbn [PyStr.endswith last_char]. intros H. apply orb_true_iff in H as [H | H].
  - apply String.eqb_eq in H. injection H as <- <-. reflexivity.
  - destruct r as [| y r']; [discriminate H | exact (IH H)].
Qed.

Lemma prefix_one_append (c : ascii) (a b : string) :
  a <> EmptyString ->
  String.prefix (String c EmptyString) (a ++ b) = String.prefix (String c EmptyString) a.
Proof.
  destruct a as [| x r]; [congruence |]. intros _.
  cbn [append String.prefix]. destruct (ascii_dec c x); [| reflexivity].
  destruct (r ++ b); destruct r; reflexivity.
Qed.

Lemma dots_append_one (a : string) (c : ascii) :
  Py.contains ".." a = false -> c <> "."%char ->
  Py.contains ".." (a ++ String c EmptyString) = false.
Proof.
  intros Ha Hc. induction a as [| x r IH].
  - cbn [append Py.contains String.prefix]. destruct (ascii_dec "."%char c); reflexivity.
  - cbn [Py.contains] in Ha. apply orb_false_iff in Ha as [Hpre Hrest].
    cbn [append Py.contains]. apply orb_false_iff. split; [| exact (IH Hrest)].
    cbn [String.prefix] in Hpre |- *.
    destruct (ascii_dec "."%char x) as [_ | _]; [| reflexivity].
    destruct r as [| y r']; cbn [append String.prefix] in Hpre |- *.
    + destruct (ascii_dec "."%char c) as [E | _]; [symmetry in E; contradiction | reflexivity].
    + destruct (ascii_dec "."%char y); [| reflexivity].
      destruct r'; discriminate Hpre.
Qed.

Lemma reserved_names_end (text : string) :
  last_char text = Some PyStr.newline -> Py.mem_str text validation.RESERVED_NAMES = false.
Proof.
  intros Hlast. destruct (Py.mem_str text validation.RESERVED_NAMES) eqn:Hmem; [| reflexivity].
  apply mem_str_In in Hmem. cbn in Hmem.
  repeat (destruct Hmem as [<- | Hmem]; [discriminate Hlast |]).
  contradiction.
Qed.

(** X9: one newline at the end takes a name past two of the checks of
    [validate_package_name].  Whenever the text before the newline is not
    empty, is shorter than 255 characters, is made of the characters of
    [a-zA-Z0-9._-], holds no [..] and does not start with a dot, the name
    is accepted: also when that text is a reserved name or ends with a
    dot, both of which are refused without the newline. *)
Theorem final_newline_passes_name_checks (body : string) :
  body <> EmptyString ->
  Py.len body < 255 ->
  PyStr.all_chars input_validation.package_name_char body = true ->
  Py.contains ".." body = false ->
  PyStr.startswith "." body = false ->
  input_validation.validate_package_name (body ++ String PyStr.newline EmptyString) = true.
Proof.
  intros Hne Hlen Hclass Hdots Hdot.
  set (package_name := body ++ String PyStr.newline EmptyString).
  assert (Hslash : forall c, input_validation.package_name_char c = false ->
                             PyStr.startswith (String c EmptyString) package_name = false).
  { intros c Hc. unfold PyStr.startswith, package_name.
    rewrite (prefix_one_append c body _ Hne).
    destruct body as [| x r]; [congruence |].
    cbn [PyStr.all_chars] in Hclass. apply andb_true_iff in Hclass as [Hx _].
    cbn [String.prefix]. destruct (ascii_dec c x) as [-> | _]; [congruence | reflexivity]. }
  assert (Hlast : last_char package_name = Some PyStr.newline)
    by apply last_char_append_one.
  unfold input_validation.validate_package_name.
  replace (Py.truthy package_name) with true
    by (symmetry; apply truthy_nonempty; unfold package_name; destruct body; discriminate).
  cbn [negb].
  replace (Py.len package_name >? 255) with false.
  2:{ symmetry. rewrite Z.gtb_ltb. apply Z.ltb_ge. unfold Py.len in *. unfold package_name.
      rewrite length_append. cbn [String.length]. lia. }
  unfold package_name at 1.
  rewrite (dots_append_one body PyStr.newline Hdots) by discriminate.
  rewrite (Hslash "/"%char eq_refl), (Hslash "\"%char eq_refl). cbn [orb].
  unfold PyStr.re_match_plus. unfold package_name at 1 2.
  rewrite (before_final_newline_append _ body Hclass eq_refl), Hclass.
  replace (Py.truthy body) with true by (symmetry; apply truthy_nonempty; exact Hne).
  cbn [andb negb].
  rewrite reserved_names_end.
  2:{ unfold package_name. rewrite lower_append. apply last_char_append_one. }
  unfold PyStr.startswith in Hdot |- *. unfold package_name at 1.
  rewrite (prefix_one_append "."%char body _ Hne), Hdot. cbn [orb].
  destruct (PyStr.endswith "." package_name) eqn:Hends.
  { apply endswith_last_char in Hends. rewrite Hlast in Hends. discriminate Hends. }
  destruct (String.eqb_spec package_name ".") as [E | _]; [| reflexivity].
  rewrite E in Hlast. discriminate Hlast.
Qed.

Lemma final_newline_passes_name_checks_witness :
  input_validation.validate_package_name "con" = false
  /\ input_validation.validate_package_name ("con" ++ String PyStr.newline EmptyString) = true.
Proof.
  split; [reflexivity |].
  apply (final_newline_passes_name_checks "con"); [discriminate | reflexivity ..].
Defined.

(** ** [validate_and_clean_tags] *)

Lemma tag_char_facts (c : ascii) :
  input_validation.tag_char c = true ->
  PyStr.isspace c = false /\ Py.lower_ascii c = c /\ c <> ","%char /\ c <> PyStr.newline.
Proof.
  destruct c as [[] [] [] [] [] [] [] []]; vm_compute; intros H;
    first [discriminate H | repeat split; discriminate].
Qed.

Lemma not_space_lower_newline (c : ascii) :
  PyStr.isspace c = false -> Py.lower_ascii c <> PyStr.newline.
Proof.
  destruct c as [[] [] [] [] [] [] [] []]; vm_compute; intros H;
    first [discriminate H | discriminate].
Qed.

Lemma rstrip_last_char (s : string) (c : ascii) :
  last_char (PyStr.rstrip s) = Some c -> PyStr.isspace c = false.
Proof.
  induction s as [| x r IH]; [discriminate |].
  cbn [PyStr.rstrip]. destruct (PyStr.rstrip r) as [| y r'] eqn:Hr.
  - destruct (PyStr.isspace x) eqn:Hx; [discriminate |].
    cbn [last_char]. intros E. injection E as <-. exact Hx.
  - cbn [last_char] in IH |- *. exact IH.
Qed.

Lemma last_char_lower (s : string) :
  last_char (Py.lower s) = option_map Py.lower_ascii (last_char s).
Proof.
  induction s as [| x r IH]; [reflexivity |].
  cbn [Py.lower last_char]. destruct r as [| y r']; [reflexivity |].
  cbn [Py.lower] in IH |- *. exact IH.
Qed.

(** A raw tag, stripped and lowered, does not end with a newline. *)
Lemma raw_tag_last_char (text : string) :
  last_char (Py.lower (PyStr.strip text)) <> Some PyStr.newline.
Proof.
  rewrite last_char_lower. unfold PyStr.strip.
  destruct (last_char (PyStr.rstrip (PyStr.lstrip text))) as [c |] eqn:Hlast; [| discriminate].
  cbn [option_map]. intros E. injection E as E.
  exact (not_space_lower_newline c (rstrip_last_char _ c Hlast) E).
Qed.

Lemma NoDup_snoc {A} (l : list A) (x : A) : NoDup l -> ~ In x l -> NoDup (l ++ [x]).
Proof.
  intros Hl Hx. apply NoDup_app; [exact Hl | repeat constructor; intros [] |].
  intros a Ha [<- | []]. exact (Hx Ha).
Qed.

Lemma firstn_keeps {A} (P : A -> Prop) (n : nat) (l : list A) :
  Forall P l -> NoDup l ->
  Forall P (firstn n l) /\ NoDup (firstn n l) /\ (List.length (firstn n l) <= n)%nat.
Proof.
  revert l. induction n as [| n IH]; intros l HP Hnd.
  - cbn. repeat split; [constructor | constructor | lia].
  - destruct l as [| x r]; cbn [firstn List.length].
    + repeat split; [constructor | constructor | lia].
    + inversion HP as [| ? ? Hx Hr]; subst. inversion Hnd as [| ? ? Hnotin Hnd']; subst.
      destruct (IH r Hr Hnd') as (H1 & H2 & H3).
      repeat split; [constructor; assumption | | lia].
      constructor; [| exact H2].
      intros Hin. apply Hnotin.
      clear - Hin. revert n Hin. induction r as [| y r IHr]; intros n Hin.
      * destruct n; contradiction Hin.
      * destruct n as [| n]; [contradiction Hin |].
        cbn [firstn] in Hin. destruct Hin as [<- | Hin]; [left; reflexivity |].
        right. exact (IHr n Hin).
Qed.

Lemma collect_tags_valid (raw_tags valid_tags : list string) :
  Forall (fun tag => last_char tag <> Some PyStr.newline) raw_tags ->
  Forall valid_tag valid_tags -> NoDup valid_tags ->
  Forall valid_tag (input_validation.collect_tags raw_tags valid_tags)
  /\ NoDup (input_validation.collect_tags raw_tags valid_tags).
Proof.
  intros Hraw. revert valid_tags.
  induction Hraw as [| tag rest Hlast Hrest IH]; intros valid_tags Hvalid Hnd;
    cbn [input_validation.collect_tags]; [split; assumption |].
  destruct (Py.truthy tag) eqn:Htruthy; cbn [negb]; [| apply IH; assumption].
  destruct (PyStr.re_match_plus input_validation.tag_char tag) eqn:Hre; cbn [negb orb];
    [| apply IH; assumption].
  destruct (Py.len tag >? 20) eqn:Hlong; cbn [orb]; [apply IH; assumption |].
  destruct (Py.len tag <? 1); [apply IH; assumption |].
  destruct (Py.mem_str tag valid_tags) eqn:Hmem; cbn [negb]; [apply IH; assumption |].
  apply IH.
  - apply Forall_app. split; [exact Hvalid |]. constructor; [| constructor].
    unfold PyStr.re_match_plus in Hre. rewrite (before_final_newline_id tag Hlast) in Hre.
    apply andb_true_iff in Hre as [_ Hclass].
    split; [apply truthy_nonempty; exact Htruthy |]. split; [lia | exact Hclass].
  - apply NoDup_snoc; [exact Hnd |].
    intros Hin. apply mem_str_In in Hin. congruence.
Qed.

Lemma cleaned_tags_well_formed (tags_input : string) :
  well_formed_tags (input_validation.validate_and_clean_tags tags_input).
Proof.
  unfold input_validation.validate_and_clean_tags.
  destruct (negb (Py.truthy tags_input) || negb (Py.truthy (PyStr.strip tags_input))).
  - repeat split; [constructor | constructor | cbn; lia].
  - destruct (collect_tags_valid
                (map (fun tag => Py.lower (PyStr.strip tag)) (PyStr.split ","%char tags_input)) [])
      as [Hvalid Hnd]; [| constructor | constructor |].
    + apply Forall_forall. intros tag Hin. apply in_map_iff in Hin as (text & <- & _).
      apply raw_tag_last_char.
    + exact (firstn_keeps valid_tag 10 _ Hvalid Hnd).
Qed.

(** X10: for every input text whose characters are code points below 256
    (the text a [string] represents, and on which the definition returns
    the list the source returns), [validate_and_clean_tags] returns a
    well-formed list of tags: every tag has 1 to 20 characters of
    [a-z0-9-], no tag occurs twice, and there are ten tags at most.  Text
    with other characters, which [str.lower] and [str.strip] treat by the
    Unicode tables, is outside the statement. *)
Theorem cleaned_tags_are_well_formed (tags_input : string) :
  well_formed_tags (input_validation.validate_and_clean_tags tags_input).
Proof. exact (cleaned_tags_well_formed tags_input). Qed.

Lemma split_piece (sep : ascii) (piece : string) :
  PyStr.all_chars (fun c => negb (Ascii.eqb c sep)) piece = true ->
  PyStr.split sep piece = [piece]
  /\ forall rest, PyStr.split sep (piece ++ String sep rest) = piece :: PyStr.split sep rest.
Proof.
  induction piece as [| c r IH]; cbn [PyStr.all_chars]; intros H.
  - split; [reflexivity |]. intros rest. cbn [append PyStr.split].
    rewrite Ascii.eqb_refl. reflexivity.
  - apply andb_true_iff in H as [Hc Hr]. apply negb_true_iff in Hc.
    destruct (IH Hr) as [IH1 IH2]. split.
    + cbn [PyStr.split]. rewrite Hc, IH1. reflexivity.
    + intros rest. cbn [append PyStr.split]. rewrite Hc, IH2. reflexivity.
Qed.

Lemma split_concat (sep : ascii) (pieces : list string) :
  pieces <> [] ->
  Forall (fun piece => PyStr.all_chars (fun c => negb (Ascii.eqb c sep)) piece = true) pieces ->
  PyStr.split sep (String.concat (String sep EmptyString) pieces) = pieces.
Proof.
  intros Hne Hall. induction Hall as [| piece rest Hpiece Hrest IH]; [congruence |].
  destruct rest as [| piece' rest'].
  - cbn [String.concat]. exact (proj1 (split_piece sep piece Hpiece)).
  - change (String.concat (String sep EmptyString) (piece :: piece' :: rest'))
      with (piece ++ String sep (String.concat (String sep EmptyString) (piece' :: rest'))).
    rewrite (proj2 (split_piece sep piece Hpiece)), IH by discriminate. reflexivity.
Qed.

Lemma lstrip_id (s : string) :
  PyStr.all_chars (fun c => negb (PyStr.isspace c)) s = true -> PyStr.lstrip s = s.
Proof.
  destruct s as [| c r]; [reflexivity |].
  cbn [PyStr.all_chars PyStr.lstrip]. intros H. apply andb_true_iff in H as [Hc _].
  apply negb_true_iff in Hc. rewrite Hc. reflexivity.
Qed.

Lemma rstrip_id (s : string) :
  PyStr.all_chars (fun c => negb (PyStr.isspace c)) s = true -> PyStr.rstrip s = s.
Proof.
  induction s as [| c r IH]; [reflexivity |].
  cbn [PyStr.all_chars PyStr.rstrip]. intros H. apply andb_true_iff in H as [Hc Hr].
  apply negb_true_iff in Hc. rewrite (IH Hr), Hc. destruct r; reflexivity.
Qed.

Lemma lower_id (s : string) :
  PyStr.all_chars (fun c => Ascii.eqb (Py.lower_ascii c) c) s = true -> Py.lower s = s.
Proof.
  induction s as [| c r IH]; [reflexivity |].
  cbn [PyStr.all_chars Py.lower]. intros H. apply andb_true_iff in H as [Hc Hr].
  apply Ascii.eqb_eq in Hc. rewrite Hc, (IH Hr). reflexivity.
Qed.

Lemma valid_tag_clean (tag : string) :
  valid_tag tag ->
  Py.lower (PyStr.strip tag) = tag
  /\ PyStr.all_chars (fun c => negb (Ascii.eqb c ","%char)) tag = true
  /\ last_char tag <> Some PyStr.newline.
Proof.
  intros (_ & _ & Hclass).
  assert (Hspace : PyStr.all_chars (fun c => negb (PyStr.isspace c)) tag = true).
  { revert Hclass. apply all_chars_weaken.
    intros c Hc. rewrite (proj1 (tag_char_facts c Hc)). reflexivity. }
  split; [| split].
  - unfold PyStr.strip. rewrite (lstrip_id tag Hspace), (rstrip_id tag Hspace).
    apply lower_id. revert Hclass. apply all_chars_weaken.
    intros c Hc. apply Ascii.eqb_eq. exact (proj1 (proj2 (tag_char_facts c Hc))).
  - revert Hclass. apply all_chars_weaken.
    intros c Hc. apply negb_true_iff, Ascii.eqb_neq.
    exact (proj1 (proj2 (proj2 (tag_char_facts c Hc)))).
  - intros Hlast. pose proof (last_char_class _ _ _ Hclass Hlast) as Hnl.
    discriminate Hnl.
Qed.

Lemma collect_tags_id (tags valid_tags : list string) :
  Forall valid_tag tags -> NoDup (valid_tags ++ tags) ->
  input_validation.collect_tags tags valid_tags = (valid_tags ++ tags)%list.
Proof.
  intros Hvalid. revert valid_tags.
  induction Hvalid as [| tag rest Htag Hrest IH]; intros valid_tags Hnd;
    cbn [input_validation.collect_tags]; [rewrite app_nil_r; reflexivity |].
  destruct (valid_tag_clean tag Htag) as (_ & _ & Hlast).
  destruct Htag as (Hne & Hlen & Hclass).
  replace (Py.truthy tag) with true by (symmetry; apply truthy_nonempty; exact Hne).
  unfold PyStr.re_match_plus. rewrite (before_final_newline_id tag Hlast), Hclass.
  replace (Py.truthy tag) with true by (symmetry; apply truthy_nonempty; exact Hne).
  cbn [negb andb orb].
  replace (Py.len tag >? 20) with false by (symmetry; rewrite Z.gtb_ltb; apply Z.ltb_ge; lia).
  replace (Py.len tag <? 1) with false.
  2:{ symmetry. apply Z.ltb_ge. unfold Py.len. destruct tag; [congruence |].
      cbn [String.length]. lia. }
  cbn [orb].
  replace (Py.mem_str tag valid_tags) with false.
  2:{ symmetry. destruct (Py.mem_str tag valid_tags) eqn:Hmem; [| reflexivity].
      apply mem_str_In in Hmem. apply NoDup_remove_2 in Hnd.
      exfalso. apply Hnd. apply in_or_app. left. exact Hmem. }
  cbn [negb]. rewrite IH; rewrite <- app_assoc; [reflexivity | exact Hnd].
Qed.

Lemma firstn_short {A} (n : nat) (l : list A) : (List.length l <= n)%nat -> firstn n l = l.
Proof.
  revert l. induction n as [| n IH]; intros [| x r] Hlen; cbn in *; try reflexivity; try lia.
  rewrite IH by lia. reflexivity.
Qed.

(** X11: a well-formed list of tags, written as the user would type it
    (joined by commas), is read back as the same list: the tags, their
    order and their number are kept. *)
Theorem cleaned_tags_round_trip (tags : list string) :
  well_formed_tags tags ->
  input_validation.validate_and_clean_tags (String.concat "," tags) = tags.
Proof.
  intros (Hvalid & Hnd & Hlen).
  destruct tags as [| tag rest]; [reflexivity |].
  unfold input_validation.validate_and_clean_tags.
  set (tags_input := String.concat "," (tag :: rest)).
  assert (Hfirst : exists c r, tags_input = String c r /\ PyStr.isspace c = false).
  { inversion Hvalid as [| ? ? (Hne & _ & Hclass) _]; subst.
    destruct tag as [| c r]; [congruence |].
    cbn [PyStr.all_chars] in Hclass. apply andb_true_iff in Hclass as [Hc _].
    exists c. unfold tags_input. destruct rest; cbn [String.concat append]; eexists;
      (split; [reflexivity | exact (proj1 (tag_char_facts c Hc))]). }
  destruct Hfirst as (c & r & Hinput & Hc).
  assert (Hstrip : Py.truthy (PyStr.strip tags_input) = true).
  { rewrite Hinput. unfold PyStr.strip. cbn [PyStr.lstrip]. rewrite Hc.
    cbn [PyStr.rstrip]. destruct (PyStr.rstrip r); [rewrite Hc |]; reflexivity. }
  rewrite Hstrip. rewrite Hinput at 1. cbn [Py.truthy String.eqb negb orb].
  unfold tags_input. rewrite split_concat; [| discriminate |].
  2:{ revert Hvalid. apply Forall_impl. intros t Ht.
      exact (proj1 (proj2 (valid_tag_clean t Ht))). }
  replace (map (fun t => Py.lower (PyStr.strip t)) (tag :: rest)) with (tag :: rest).
  2:{ symmetry. clear - Hvalid. induction Hvalid as [| t l Ht Hl IH]; [reflexivity |].
      cbn [map]. rewrite IH, (proj1 (valid_tag_clean t Ht)). reflexivity. }
  rewrite (collect_tags_id (tag :: rest) [] Hvalid Hnd). cbn [app].
  apply firstn_short. exact Hlen.
Qed.

Lemma cleaned_tags_round_trip_witness :
  input_validation.validate_and_clean_tags "python,docs,web-2" = ["python"; "docs"; "web-2"].
Proof.
  apply (cleaned_tags_round_trip ["python"; "docs"; "web-2"]).
  split; [| split].
  - repeat constructor; discriminate.
  - repeat constructor; cbn; intuition discriminate.
  - cbn. lia.
Defined.

(** ** [validate_document_metadata] *)

Lemma slice_to_length (k : Z) (s : string) : 0 <= k -> Py.len (Py.slice_to k s) <= k.
Proof.
  intros Hk. unfold Py.slice_to, Py.len.
  replace (k <? 0) with false by (symmetry; apply Z.ltb_ge; exact Hk).
  pose proof (length_substring_le (Z.to_nat (Z.min k (Z.of_nat (String.length s)))) s). lia.
Qed.

Lemma sanitize_field_sanitized (limit : Z) (value : string) :
  0 <= limit -> sanitized limit (input_validation.sanitize_field limit value).
Proof.
  intros Hlimit v. unfold input_validation.sanitize_field.
  set (stripped := PyStr.strip value).
  set (cut := if Py.len stripped >? limit then Py.slice_to limit stripped else stripped).
  assert (Hcut : Py.len cut <= limit).
  { unfold cut. destruct (Py.len stripped >? limit) eqn:Hlong.
    - apply slice_to_length. exact Hlimit.
    - rewrite Z.gtb_ltb in Hlong. apply Z.ltb_ge in Hlong. exact Hlong. }
  destruct (Py.truthy (PyStr.remove_chars input_validation.control_char cut)) eqn:Htruthy;
    [| discriminate].
  intros E. injection E as <-.
  split; [apply truthy_nonempty; exact Htruthy |].
  split; [| apply remove_chars_clean].
  pose proof (length_remove_chars input_validation.control_char cut). unfold Py.len in *. lia.
Qed.

(** X12: what [validate_document_metadata] returns for the name and for
    the description is either unset or a text that is not empty, has at
    most 200 (for the description 1000) characters and holds no control
    character; a field that is not given stays unset. *)
Theorem metadata_is_sanitized (name' description' : option string) :
  let result := input_validation.validate_document_metadata name' description' in
  sanitized 200 (fst result)
  /\ sanitized 1000 (snd result)
  /\ (name' = None -> fst result = None)
  /\ (description' = None -> snd result = None).
Proof.
  cbv zeta. unfold input_validation.validate_document_metadata. cbn [fst snd].
  split; [| split; [| split]].
  - destruct name' as [v |]; [apply sanitize_field_sanitized; lia | discriminate].
  - destruct description' as [v |]; [apply sanitize_field_sanitized; lia | discriminate].
  - intros ->. reflexivity.
  - intros ->. reflexivity.
Qed.

(** ** [sanitize_filename] *)

Lemma replace_dangerous_safe (c : ascii) :
  validation.dangerous_char (replace_dangerous c) = false.
Proof.
  unfold replace_dangerous. destruct (validation.dangerous_char c) eqn:Hc; [reflexivity | exact Hc].
Qed.

Lemma map_chars_safe (s : string) :
  PyStr.all_chars (fun c => negb (validation.dangerous_char c))
    (Py.map_chars replace_dangerous s) = true.
Proof.
  induction s as [| c r IH]; [reflexivity |].
  cbn [Py.map_chars PyStr.all_chars]. rewrite replace_dangerous_safe, IH. reflexivity.
Qed.

Lemma rsplit_last_spec (sep : ascii) (s a b : string) :
  Py.rsplit_last sep s = Some (a, b) -> s = a ++ String sep b.
Proof.
  revert a b. induction s as [| c r IH]; intros a b; cbn [Py.rsplit_last]; [discriminate |].
  destruct (Py.rsplit_last sep r) as [[a' b'] |].
  - intros E. injection E as <- <-. cbn [append]. rewrite (IH a' b' eq_refl) at 1. reflexivity.
  - destruct (Ascii.eqb_spec c sep) as [-> | _]; [| discriminate].
    intros E. injection E as <- <-. reflexivity.
Qed.

Lemma slice_to_all_chars (cls : ascii -> bool) (k : Z) (s : string) :
  PyStr.all_chars cls s = true -> PyStr.all_chars cls (Py.slice_to k s) = true.
Proof. intros H. unfold Py.slice_to. apply all_chars_substring. exact H. Qed.

(** X13: a name [sanitize_filename] returns is not empty, is not the
    single dot, and holds none of the characters the function replaces:
    no slash, no backslash, none of the other seven punctuation
    characters and no control character.  This holds for every input and
    for every [max_length]. *)
Theorem sanitized_filename_is_safe (filename : string) (max_length : Z) (result : string) :
  validation.sanitize_filename filename max_length = Return result ->
  result <> EmptyString
  /\ result <> "."
  /\ PyStr.all_chars (fun c => negb (validation.dangerous_char c)) result = true
  /\ Py.contains "/" result = false
  /\ Py.contains "\" result = false.
Proof.
  unfold validation.sanitize_filename.
  destruct (negb (Py.truthy filename)); [discriminate |].
  destruct (Py.contains ".." filename || Py.contains "/" filename || Py.contains "\" filename);
    [discriminate |].
  fold replace_dangerous.
  set (replaced := Py.map_chars replace_dangerous filename).
  set (prefixed := if Py.mem_str (Py.lower (Py.split_first "." replaced)) validation.RESERVED_NAMES
                   then "safe_" ++ replaced else replaced).
  set (limited := if Py.len prefixed >? max_length
                  then match Py.rsplit_last "." prefixed with
                       | Some (name0, ext) =>
                           Py.slice_to (max_length - Py.len ext - 1) name0 ++ "." ++ ext
                       | None => Py.slice_to max_length prefixed
                       end
                  else prefixed).
  assert (Hprefixed : PyStr.all_chars (fun c => negb (validation.dangerous_char c)) prefixed
                      = true).
  { unfold prefixed. destruct (Py.mem_str _ _); [| apply map_chars_safe].
    rewrite all_chars_app. apply andb_true_iff. split; [reflexivity | apply map_chars_safe]. }
  assert (Hlimited : PyStr.all_chars (fun c => negb (validation.dangerous_char c)) limited
                     = true).
  { unfold limited. destruct (Py.len prefixed >? max_length); [| exact Hprefixed].
    destruct (Py.rsplit_last "." prefixed) as [[name0 ext] |] eqn:Hsplit.
    - apply rsplit_last_spec in Hsplit. rewrite Hsplit, all_chars_app in Hprefixed.
      apply andb_true_iff in Hprefixed as [Hname Hext].
      rewrite !all_chars_app. rewrite (slice_to_all_chars _ _ _ Hname).
      cbn [PyStr.all_chars] in Hext |- *. exact Hext.
    - apply slice_to_all_chars. exact Hprefixed. }
  intros E. injection E as <-.
  assert (Hresult : forall out,
             out = (if negb (Py.truthy limited) || String.eqb limited "."
                    then "sanitized_file" else limited) ->
             out <> EmptyString /\ out <> "."
             /\ PyStr.all_chars (fun c => negb (validation.dangerous_char c)) out = true).
  { intros out ->. destruct (Py.truthy limited) eqn:Htruthy; cbn [negb orb].
    - destruct (String.eqb_spec limited ".") as [_ | Hne].
      + repeat split; discriminate.
      + split; [apply truthy_nonempty; exact Htruthy |]. split; [exact Hne | exact Hlimited].
    - repeat split; discriminate. }
  destruct (Hresult _ eq_refl) as (H1 & H2 & H3).
  split; [exact H1 |]. split; [exact H2 |]. split; [exact H3 |].
  split; [exact (all_chars_no_char _ "/"%char _ H3 eq_refl)
         | exact (all_chars_no_char _ "\"%char _ H3 eq_refl)].
Qed.

Lemma sanitized_filename_is_safe_witness :
  validation.sanitize_filename "a<b>:c.txt" 255 = Return "a_b__c.txt"
  /\ Py.contains "/" "a_b__c.txt" = false.
Proof.
  split; [reflexivity |].
  exact (proj1 (proj2 (proj2 (proj2 (sanitized_filename_is_safe "a<b>:c.txt" 255 "a_b__c.txt"
                                       eq_refl))))).
Defined.

(** ** The name of the content file *)

Lemma contains_after (c : ascii) (needle a b : string) :
  PyStr.all_chars (fun x => negb (Ascii.eqb x c)) a = true ->
  Py.contains (String c needle) (a ++ b) = Py.contains (String c needle) b.
Proof.
  induction a as [| x r IH]; [reflexivity |].
  cbn [PyStr.all_chars]. intros H. apply andb_true_iff in H as [Hx Hr].
  apply negb_true_iff, Ascii.eqb_neq in Hx.
  cbn [append Py.contains String.prefix].
  destruct (ascii_dec c x) as [E | _]; [symmetry in E; contradiction |].
  cbn [orb]. exact (IH Hr).
Qed.

Lemma map_chars_id (s : string) :
  PyStr.all_chars (fun c => negb (validation.dangerous_char c)) s = true ->
  Py.map_chars replace_dangerous s = s.
Proof.
  induction s as [| c r IH]; [reflexivity |].
  cbn [PyStr.all_chars Py.map_chars]. intros H. apply andb_true_iff in H as [Hc Hr].
  apply negb_true_iff in Hc. unfold replace_dangerous at 1. rewrite Hc, (IH Hr). reflexivity.
Qed.

Lemma split_first_append (sep : ascii) (a b : string) :
  PyStr.all_chars (fun x => negb (Ascii.eqb x sep)) a = true ->
  Py.split_first sep (a ++ String sep b) = a.
Proof.
  induction a as [| x r IH]; cbn [append Py.split_first PyStr.all_chars].
  - intros _. rewrite Ascii.eqb_refl. reflexivity.
  - intros H. apply andb_true_iff in H as [Hx Hr]. apply negb_true_iff in Hx.
    rewrite Hx, (IH Hr). reflexivity.
Qed.

Lemma hex_char_facts (c : ascii) :
  hex_char c = true ->
  validation.dangerous_char c = false /\ c <> "."%char /\ c <> "/"%char /\ c <> "\"%char.
Proof.
  destruct c as [[] [] [] [] [] [] [] []]; vm_compute; intros H;
    first [discriminate H | repeat split; discriminate].
Qed.

Lemma reserved_names_short (text : string) :
  Py.mem_str text validation.RESERVED_NAMES = true -> (String.length text <= 4)%nat.
Proof.
  intros Hmem. apply mem_str_In in Hmem. cbn in Hmem.
  repeat (destruct Hmem as [<- | Hmem]; [cbn; lia |]).
  contradiction.
Qed.

(** The sanitizer leaves a name of eight hexadecimal digits and the
    extension [.md] as it is. *)
Lemma sanitize_hash_name (hash_id : string) :
  String.length hash_id = 8%nat -> PyStr.all_chars hex_char hash_id = true ->
  validation.sanitize_filename (hash_id ++ ".md") 255 = Return (hash_id ++ ".md").
Proof.
  intros Hlen Hhex.
  assert (Hnot : forall c, c = "."%char \/ c = "/"%char \/ c = "\"%char ->
                   PyStr.all_chars (fun x => negb (Ascii.eqb x c)) hash_id = true).
  { intros c Hc. revert Hhex. apply all_chars_weaken. intros x Hx.
    apply negb_true_iff, Ascii.eqb_neq.
    destruct (hex_char_facts x Hx) as (_ & H1 & H2 & H3).
    destruct Hc as [-> | [-> | ->]]; assumption. }
  assert (Hsafe : PyStr.all_chars (fun c => negb (validation.dangerous_char c))
                    (hash_id ++ ".md") = true).
  { rewrite all_chars_app. apply andb_true_iff. split; [| reflexivity].
    revert Hhex. apply all_chars_weaken. intros x Hx.
    rewrite (proj1 (hex_char_facts x Hx)). reflexivity. }
  unfold validation.sanitize_filename.
  replace (Py.truthy (hash_id ++ ".md")) with true by (destruct hash_id; reflexivity).
  rewrite (contains_after "."%char "." hash_id ".md" (Hnot _ (or_introl eq_refl))).
  rewrite (contains_after "/"%char EmptyString hash_id ".md"
             (Hnot _ (or_intror (or_introl eq_refl)))).
  rewrite (contains_after "\"%char EmptyString hash_id ".md"
             (Hnot _ (or_intror (or_intror eq_refl)))).
  change (Py.contains ".." ".md") with false.
  change (Py.contains "/" ".md") with false.
  change (Py.contains "\" ".md") with false.
  cbn [negb orb]. fold replace_dangerous.
  rewrite (map_chars_id _ Hsafe).
  change (hash_id ++ ".md") with (hash_id ++ String "." "md") at 1.
  rewrite (split_first_append "."%char hash_id "md" (Hnot _ (or_introl eq_refl))).
  replace (Py.mem_str (Py.lower hash_id) validation.RESERVED_NAMES) with false.
  2:{ symmetry. destruct (Py.mem_str (Py.lower hash_id) validation.RESERVED_NAMES) eqn:Hmem;
        [| reflexivity].
      apply reserved_names_short in Hmem. rewrite length_lower in Hmem. lia. }
  replace (Py.len (hash_id ++ ".md") >? 255) with false.
  2:{ symmetry. rewrite Z.gtb_ltb. apply Z.ltb_ge. unfold Py.len.
      rewrite length_append, Hlen. cbn. lia. }
  replace (Py.truthy (hash_id ++ ".md")) with true by (destruct hash_id; reflexivity).
  replace (String.eqb (hash_id ++ ".md") ".") with false; [reflexivity |].
  symmetry. apply String.eqb_neq. intros E.
  apply (f_equal String.length) in E. rewrite length_append, Hlen in E. discriminate E.
Qed.

(** X14: when the digest is made of 64 hexadecimal digits, as a SHA-256
    digest is, [_generate_filename] never raises and the sanitizer
    changes nothing: the content of a URL is kept in the file named by
    its hash ID of 8 digits and [.md], the name [update_doc] and
    [remove_doc] expect. *)
Theorem content_file_is_named_by_hash (env : Env) (url' : string) :
  hexdigest_hex env ->
  String.length (doc_manager._generate_hash_id env url') = 8%nat
  /\ doc_manager._generate_filename env url'
     = Return (doc_manager._generate_hash_id env url' ++ ".md").
Proof.
  intros Hhex. destruct (Hhex url') as [Hlen Hall].
  assert (H8 : String.length (doc_manager._generate_hash_id env url') = 8%nat).
  { unfold doc_manager._generate_hash_id. apply substring_length. lia. }
  split; [exact H8 |].
  unfold doc_manager._generate_filename. apply sanitize_hash_name; [exact H8 |].
  unfold doc_manager._generate_hash_id. apply all_chars_substring. exact Hall.
Qed.

Lemma sample_hexdigest_hex : hexdigest_hex sample.env.
Proof.
  intros text. cbn [sha256_hexdigest sample.env].
  unfold sample.sha256_hexdigest. cbn [sample.assoc].
  repeat (match goal with
          | |- context [String.eqb text ?k] => destruct (String.eqb text k)
          end; [split; reflexivity |]).
  split; reflexivity.
Qed.

Lemma content_file_is_named_by_hash_witness :
  doc_manager._generate_filename sample.env sample.doc_url = Return "89b8c46b.md".
Proof.
  exact (proj2 (content_file_is_named_by_hash sample.env sample.doc_url sample_hexdigest_hex)).
Defined.

(** ** The document store as a dictionary *)

Lemma dict_get_In {V} (k : string) (v : V) (d : Dict V) :
  dict_get k d = Some v -> In (k, v) d.
Proof.
  induction d as [| [k' v'] r IH]; cbn [dict_get]; [discriminate |].
  destruct (String.eqb_spec k k') as [-> | _].
  - intros E. injection E as ->. left. reflexivity.
  - intros H. right. exact (IH H).
Qed.

Lemma In_dict_get {V} (k : string) (v : V) (d : Dict V) :
  NoDup (map fst d) -> In (k, v) d -> dict_get k d = Some v.
Proof.
  induction d as [| [k' v'] r IH]; cbn [dict_get map fst]; [contradiction |].
  intros Hnd [E | Hin]; inversion Hnd as [| ? ? Hnotin Hnd']; subst.
  - injection E as -> ->. rewrite String.eqb_refl. reflexivity.
  - destruct (String.eqb_spec k k') as [-> | _]; [| exact (IH Hnd' Hin)].
    exfalso. apply Hnotin. apply (in_map fst) in Hin. exact Hin.
Qed.

Lemma dict_set_same {V} (k : string) (v : V) (d : Dict V) :
  dict_get k d = Some v -> dict_set k v d = d.
Proof.
  induction d as [| [k' v'] r IH]; cbn [dict_get dict_set]; [discriminate |].
  destruct (String.eqb k k').
  - intros E. injection E as ->. reflexivity.
  - intros H. rewrite (IH H). reflexivity.
Qed.

Lemma dict_set_set {V} (k : string) (v1 v2 : V) (d : Dict V) :
  dict_set k v2 (dict_set k v1 d) = dict_set k v2 d.
Proof.
  induction d as [| [k' v'] r IH]; cbn [dict_set].
  - rewrite String.eqb_refl. reflexivity.
  - destruct (String.eqb k k') eqn:E; cbn [dict_set]; rewrite E; [reflexivity |].
    rewrite IH. reflexivity.
Qed.

Lemma dict_set_keys {V} (k : string) (v : V) (d : Dict V) :
  map fst (dict_set k v d)
  = match dict_get k d with
    | Some _ => map fst d
    | None => (map fst d ++ [k])%list
    end.
Proof.
  induction d as [| [k' v'] r IH]; cbn [dict_set dict_get map fst app]; [reflexivity |].
  destruct (String.eqb k k'); [reflexivity |].
  cbn [map fst]. rewrite IH. destruct (dict_get k r); reflexivity.
Qed.

Lemma dict_get_keys {V} (k : string) (d : Dict V) :
  dict_get k d = None -> ~ In k (map fst d).
Proof.
  induction d as [| [k' v'] r IH]; cbn [dict_get map fst]; [intros _ [] |].
  destruct (String.eqb_spec k k') as [-> | Hne]; [discriminate |].
  intros H [E | Hin]; [congruence | exact (IH H Hin)].
Qed.

Lemma dict_set_NoDup {V} (k : string) (v : V) (d : Dict V) :
  NoDup (map fst d) -> NoDup (map fst (dict_set k v d)).
Proof.
  intros Hnd. rewrite dict_set_keys.
  destruct (dict_get k d) eqn:Hget; [exact Hnd |].
  apply NoDup_snoc; [exact Hnd | exact (dict_get_keys k d Hget)].
Qed.

Lemma dict_set_entries {V} (P : string * V -> Prop) (k : string) (v : V) (d : Dict V) :
  P (k, v) -> Forall P d -> Forall P (dict_set k v d).
Proof.
  intros Hv Hd. induction Hd as [| [k' v'] r Hhead Htail IH]; cbn [dict_set].
  - constructor; [exact Hv | constructor].
  - destruct (String.eqb_spec k k') as [<- | _]; constructor; auto.
Qed.

Lemma config_eta (cfg : Config) (docs : Dict DocumentMetadata) :
  documents cfg = Some docs -> cfg = mkConfig (Some docs).
Proof. destruct cfg as [d]. cbn. intros ->. reflexivity. Qed.

Lemma validated_stored (cfg : Config) :
  validated cfg <-> Forall (fun entry => tags_within_limit (snd entry)) (stored_documents cfg).
Proof.
  unfold validated, stored_documents. destruct (documents cfg) as [docs |]; split.
  - intros H. exact (H docs eq_refl).
  - intros H docs' E. injection E as <-. exact H.
  - intros _. constructor.
  - intros _ docs' E. discriminate E.
Qed.

(** Setting the URL of an entry whose key is the hash ID of that URL
    changes nothing in a well-formed store. *)
Lemma set_document_url_same (env : Env) (docs : Dict DocumentMetadata) (hash_id : string)
    (metadata : DocumentMetadata) :
  keys_are_hashes env docs -> dict_get hash_id docs = Some metadata ->
  doc_manager.set_document_url (doc_manager._generate_hash_id env (url metadata))
    (url metadata) docs = docs.
Proof.
  intros Hkeys Hget.
  pose proof (dict_get_In _ _ _ Hget) as Hin.
  pose proof (proj1 (Forall_forall _ _) Hkeys _ Hin) as Hkey. cbn [fst snd] in Hkey.
  rewrite <- Hkey. unfold doc_manager.set_document_url. rewrite Hget.
  apply dict_set_same. rewrite Hget. destruct metadata. reflexivity.
Qed.

Lemma config_after_update_same (env : Env) (cfg : Config) (docs : Dict DocumentMetadata)
    (hash_id : string) (metadata : DocumentMetadata) :
  documents cfg = Some docs -> validated cfg -> keys_are_hashes env docs ->
  dict_get hash_id docs = Some metadata ->
  config_after_update env (url metadata) cfg = cfg.
Proof.
  intros Hdocs Hval Hkeys Hget.
  rewrite (config_after_update_validated env (url metadata) cfg docs Hdocs Hval).
  rewrite (set_document_url_same env docs hash_id metadata Hkeys Hget).
  symmetry. exact (config_eta cfg docs Hdocs).
Qed.

(** The store stays well formed when the entry of a URL is set. *)
Lemma config_after_update_well_formed (env : Env) (url' : string) (cfg : Config) :
  well_formed_store env cfg -> well_formed_store env (config_after_update env url' cfg).
Proof.
  intros (Hval & Hkeys & Hnd).
  rewrite (config_after_update_docs env url' cfg Hval).
  pose proof (config_after_update_is_validated env url' cfg Hval) as Hval'.
  rewrite (config_after_update_docs env url' cfg Hval) in Hval'.
  split; [exact Hval' |]. cbn [stored_documents documents].
  unfold doc_manager.set_document_url.
  destruct (dict_get (doc_manager._generate_hash_id env url') (stored_documents cfg));
    (split; [apply dict_set_entries; [reflexivity | exact Hkeys]
            | apply dict_set_NoDup; exact Hnd]).
Qed.

(** ** [set_metadata] *)

Lemma when_given_field {A} (value : option A)
    (set : A -> DocumentMetadata -> DocumentMetadata) (hash_id : string)
    (docs : Dict DocumentMetadata) (metadata : DocumentMetadata) (h : list Event)
    {B} (k : doc_manager.Mgr B) :
  (doc_updates.when_given value (fun v => doc_updates.set_field hash_id (set v)) ;;; k)%py
    (doc_manager.mkState (mkConfig (Some (dict_set hash_id metadata docs))) h)
  = k (doc_manager.mkState
         (mkConfig (Some (dict_set hash_id
                            (match value with Some v => set v metadata | None => metadata end)
                            docs))) h).
Proof.
  destruct value as [v |]; [| reflexivity].
  unfold bind, doc_updates.when_given, doc_updates.set_field, bind, doc_updates.get_entry.
  cbn [doc_manager.config doc_manager.trace stored_documents documents].
  rewrite dict_get_set_eq.
  cbn [doc_manager.config doc_manager.trace stored_documents documents].
  rewrite dict_set_set. reflexivity.
Qed.

(** Saving a validated configuration leaves it as it is in memory. *)
Lemma save_config_run (env : Env) (cfg : Config) (docs : Dict DocumentMetadata)
    (h : list Event) :
  Forall (fun entry => tags_within_limit (snd entry)) docs ->
  cfg = mkConfig (Some docs) ->
  doc_manager._save_config env (doc_manager.mkState cfg h)
  = (Return tt, doc_manager.mkState cfg (h ++ [ev_write_config cfg])%list)
  \/ exists msg evs,
       doc_manager._save_config env (doc_manager.mkState cfg h)
       = (Raise (mkExn exceptions_ConfigurationError ("Failed to save configuration: " ++ msg)),
          doc_manager.mkState cfg (h ++ evs)%list)
       /\ (evs = [] \/ evs = [ev_write_config cfg]).
Proof.
  intros Hval ->.
  unfold doc_manager._save_config, ConfigManager.save_config,
    ConfigManager._validate_config_structure.
  cbn [doc_manager.config doc_manager.trace documents].
  pose proof (validate_documents_id docs Hval) as Hid.
  destruct (ConfigManager.validate_documents docs) as [[[] | e] docs']; cbn [snd] in Hid;
    subst docs'.
  - destruct (write_config env h (mkConfig (Some docs))).
    + left. reflexivity.
    + right. eexists. exists [ev_write_config (mkConfig (Some docs))].
      split; [reflexivity | right; reflexivity].
  - right. eexists. exists []. rewrite app_nil_r. split; [reflexivity | left; reflexivity].
Qed.

Lemma edited_tags_within_limit (name' description' tags' : option string)
    (metadata : DocumentMetadata) :
  tags_within_limit metadata ->
  tags_within_limit (edited name' description' tags' metadata).
Proof.
  intros Hm. unfold tags_within_limit, edited. cbn [tags].
  destruct tags' as [v |]; [| exact Hm].
  destruct (cleaned_tags_well_formed v) as (Hvalid & _ & _).
  revert Hvalid. apply Forall_impl. intros tag (_ & Hlen & _). exact Hlen.
Qed.

Lemma dict_get_within_limit (hash_id : string) (docs : Dict DocumentMetadata)
    (metadata : DocumentMetadata) :
  Forall (fun entry => tags_within_limit (snd entry)) docs ->
  dict_get hash_id docs = Some metadata -> tags_within_limit metadata.
Proof.
  intros Hdocs Hget. apply dict_get_In in Hget.
  exact (proj1 (Forall_forall _ _) Hdocs _ Hget).
Qed.

Lemma fields_run (sanitized_name sanitized_description tags' : option string)
    (hash_id : string) (docs : Dict DocumentMetadata) (metadata : DocumentMetadata)
    (h : list Event) {B} (k : doc_manager.Mgr B) :
  dict_get hash_id docs = Some metadata ->
  (doc_updates.when_given sanitized_name
     (fun v => doc_updates.set_field hash_id (doc_updates.with_name v)) ;;;
   doc_updates.when_given sanitized_description
     (fun v => doc_updates.set_field hash_id (doc_updates.with_description v)) ;;;
   doc_updates.when_given tags'
     (fun v => doc_updates.set_field hash_id
                 (doc_updates.with_tags (input_validation.validate_and_clean_tags v))) ;;;
   k)%py (doc_manager.mkState (mkConfig (Some docs)) h)
  = k (doc_manager.mkState
         (mkConfig
            (Some (dict_set hash_id
                     (mkDocumentMetadata (url metadata)
                        (match sanitized_name with Some v => Some v | None => name metadata end)
                        (match sanitized_description with
                         | Some v => Some v
                         | None => description metadata
                         end)
                        (match tags' with
                         | Some v => input_validation.validate_and_clean_tags v
                         | None => tags metadata
                         end))
                     docs))) h).
Proof.
  intros Hget.
  replace (doc_manager.mkState (mkConfig (Some docs)) h)
    with (doc_manager.mkState (mkConfig (Some (dict_set hash_id metadata docs))) h)
    by (rewrite (dict_set_same hash_id metadata docs Hget); reflexivity).
  rewrite !when_given_field. f_equal. f_equal. f_equal. f_equal. f_equal.
  destruct metadata as [u n d t].
  destruct sanitized_name, sanitized_description, tags'; reflexivity.
Qed.

Lemma set_metadata_run (env : Env) (hash_id : string) (name' description' tags' : option string)
    (s : doc_manager.State) (metadata : DocumentMetadata) :
  validated (doc_manager.config s) ->
  dict_get hash_id (stored_documents (doc_manager.config s)) = Some metadata ->
  let run := doc_updates.set_metadata env hash_id name' description' tags' s in
  let cfg' := mkConfig (Some (dict_set hash_id (edited name' description' tags' metadata)
                                (stored_documents (doc_manager.config s)))) in
  (exists line,
      run = (Return true,
             doc_manager.mkState cfg'
               (doc_manager.trace s ++ [ev_write_config cfg'; ev_print line])%list))
  \/ (exists msg evs,
        run = (Raise (mkExn exceptions_ValidationError
                        ("Failed to update metadata: Failed to save configuration: " ++ msg)),
               doc_manager.mkState cfg' (doc_manager.trace s ++ evs)%list)
        /\ (evs = [] \/ evs = [ev_write_config cfg'])).
Proof.
  intros Hval Hget. cbv zeta.
  pose proof (proj1 (validated_stored _) Hval) as Hdocs.
  remember (doc_updates.set_metadata env hash_id name' description' tags' s) as run eqn:Hrun.
  unfold doc_updates.set_metadata, bind at 1, doc_updates.ensure_documents in Hrun.
  cbn [doc_manager.config doc_manager.trace stored_documents documents] in Hrun.
  fold (stored_documents (doc_manager.config s)) in Hrun.
  set (docs := stored_documents (doc_manager.config s)) in *.
  rewrite Hget in Hrun.
  unfold try_except, input_validation.validate_document_metadata in Hrun.
  rewrite (fields_run _ _ tags' hash_id docs metadata _ _ Hget) in Hrun.
  fold (input_validation.validate_document_metadata name' description') in Hrun.
  change (mkDocumentMetadata (url metadata) _ _ _)
    with (edited name' description' tags' metadata) in Hrun.
  set (metadata' := edited name' description' tags' metadata) in *.
  set (cfg' := mkConfig (Some (dict_set hash_id metadata' docs))) in *.
  assert (Hdocs' : Forall (fun entry => tags_within_limit (snd entry))
                     (dict_set hash_id metadata' docs)).
  { apply (Forall_dict_set tags_within_limit); [| exact Hdocs].
    apply edited_tags_within_limit. exact (dict_get_within_limit _ _ _ Hdocs Hget). }
  unfold bind at 1 in Hrun.
  destruct (save_config_run env cfg' _ (doc_manager.trace s) Hdocs' eq_refl)
    as [Hsave | (msg & evs & Hsave & Hevs)]; rewrite Hsave in Hrun.
  - left.
    assert (Hentry : forall h,
               doc_updates.get_entry hash_id (doc_manager.mkState cfg' h)
               = (Return metadata', doc_manager.mkState cfg' h)).
    { intros h. unfold doc_updates.get_entry.
      cbn [doc_manager.config stored_documents documents cfg'].
      rewrite dict_get_set_eq. reflexivity. }
    unfold bind at 1 in Hrun. destruct tags' as [v |].
    + unfold bind at 1 in Hrun. rewrite Hentry in Hrun. unfold ret at 1 in Hrun.
      rewrite print_then in Hrun. unfold ret in Hrun.
      cbn [doc_manager.config doc_manager.trace] in Hrun.
      rewrite <- app_assoc in Hrun. eexists. exact Hrun.
    + unfold ret at 1 in Hrun. rewrite print_then in Hrun. unfold ret in Hrun.
      cbn [doc_manager.config doc_manager.trace] in Hrun.
      rewrite <- app_assoc in Hrun. eexists. exact Hrun.
  - right. exists msg, evs. split; [exact Hrun | exact Hevs].
Qed.

(** X15: [set_metadata] on a validated store.  For an unknown ID it
    raises [DocumentNotFoundError] and nothing happens.  For a known ID
    the entry in memory becomes the edited one whatever the outcome: the
    URL is kept, a name or description that was set stays set (an empty
    one does not clear it), the tags are replaced whenever tags are given.
    The call then either returns [True], having written the configuration
    and printed one line, or raises [ValidationError] because the save
    failed, the edit staying in memory. *)
Theorem set_metadata_outcomes (env : Env) (hash_id : string)
    (name' description' tags' : option string) (s : doc_manager.State) :
  validated (doc_manager.config s) ->
  let run := doc_updates.set_metadata env hash_id name' description' tags' s in
  let docs := stored_documents (doc_manager.config s) in
  match dict_get hash_id docs with
  | None =>
      run = (Raise (doc_updates.DocumentNotFoundError hash_id),
             doc_manager.mkState (mkConfig (Some docs)) (doc_manager.trace s))
  | Some metadata =>
      let metadata' := edited name' description' tags' metadata in
      let cfg' := mkConfig (Some (dict_set hash_id metadata' docs)) in
      doc_manager.config (snd run) = cfg'
      /\ url metadata' = url metadata
      /\ (name metadata <> None -> name metadata' <> None)
      /\ (description metadata <> None -> description metadata' <> None)
      /\ ((exists line,
              fst run = Return true
              /\ doc_manager.trace (snd run)
                 = (doc_manager.trace s ++ [ev_write_config cfg'; ev_print line])%list)
          \/ (exists e,
                fst run = Raise e
                /\ exn_class e = exceptions_ValidationError
                /\ (doc_manager.trace (snd run) = doc_manager.trace s
                    \/ doc_manager.trace (snd run)
                       = (doc_manager.trace s ++ [ev_write_config cfg'])%list)))
  end.
Proof.
  intros Hval. cbv zeta.
  destruct (dict_get hash_id (stored_documents (doc_manager.config s))) as [metadata |] eqn:Hget.
  - destruct (set_metadata_run env hash_id name' description' tags' s metadata Hval Hget)
      as [(line & Hrun) | (msg & evs & Hrun & Hevs)]; cbv zeta in Hrun; rewrite Hrun;
      cbn [fst snd doc_manager.config doc_manager.trace].
    + split; [reflexivity |]. split; [reflexivity |].
      split; [unfold edited; cbn [name]; destruct (fst _); [discriminate | auto] |].
      split; [unfold edited; cbn [description]; destruct (snd _); [discriminate | auto] |].
      left. exists line. split; reflexivity.
    + split; [reflexivity |]. split; [reflexivity |].
      split; [unfold edited; cbn [name]; destruct (fst _); [discriminate | auto] |].
      split; [unfold edited; cbn [description]; destruct (snd _); [discriminate | auto] |].
      right. eexists. split; [reflexivity |]. split; [reflexivity |].
      destruct Hevs as [-> | ->]; [left; apply app_nil_r | right; reflexivity].
  - unfold doc_updates.set_metadata, bind, doc_updates.ensure_documents.
    cbn [doc_manager.config doc_manager.trace stored_documents documents].
    fold (stored_documents (doc_manager.config s)). rewrite Hget. reflexivity.
Qed.

Lemma set_metadata_outcomes_witness :
  doc_manager.config
    (snd (doc_updates.set_metadata sample.env "89b8c46b" (Some EmptyString) None
            (Some EmptyString) sample.stored))
  = mkConfig (Some [("89b8c46b",
                     mkDocumentMetadata sample.doc_url (Some "Docs")
                       (Some "The example page") [])]).
Proof.
  refine (proj1 (set_metadata_outcomes sample.env "89b8c46b" (Some EmptyString) None
                   (Some EmptyString) sample.stored _)).
  intros docs Hdocs. injection Hdocs as <-.
  repeat constructor; discriminate.
Defined.

(** ** The store stays well formed *)

Lemma run_each_config (P : Config -> Prop) (op : string -> doc_manager.Mgr string)
    (urls : list string) (s : doc_manager.State) :
  (forall url' s0, P (doc_manager.config s0) -> P (doc_manager.config (snd (op url' s0)))) ->
  P (doc_manager.config s) ->
  P (doc_manager.config (snd (run_each op urls s))).
Proof.
  intros Hop. revert s. induction urls as [| url' rest IH]; intros s Hs; [exact Hs |].
  cbn [run_each]. specialize (Hop url' s Hs).
  destruct (op url' s) as [o s1]. cbn [snd] in Hop.
  specialize (IH (match o with Return _ => s1 | Raise e => log_skip url' e s1 end)).
  destruct (run_each op rest _) as [os s3]. cbn [snd] in *.
  apply IH. destruct o; [exact Hop | exact Hop].
Qed.

Lemma add_doc_well_formed (env : Env) (url' : string) (use_async : bool)
    (s : doc_manager.State) :
  well_formed_store env (doc_manager.config s) ->
  well_formed_store env (doc_manager.config (snd (batch_op env use_async url' s))).
Proof.
  intros Hwf. unfold batch_op. destruct use_async.
  - destruct (add_doc_async_config env url' s) as [[Hsame _] | Hupd]; cbv zeta in *.
    + rewrite Hsame. exact Hwf.
    + rewrite Hupd. apply config_after_update_well_formed. exact Hwf.
  - destruct (add_doc_config env url' s) as [[Hsame _] | Hupd]; cbv zeta in *.
    + rewrite Hsame. exact Hwf.
    + rewrite Hupd. apply config_after_update_well_formed. exact Hwf.
Qed.

Lemma set_metadata_well_formed (env : Env) (hash_id : string)
    (name' description' tags' : option string) (s : doc_manager.State) :
  well_formed_store env (doc_manager.config s) ->
  well_formed_store env
    (doc_manager.config (snd (doc_updates.set_metadata env hash_id name' description' tags' s))).
Proof.
  intros (Hval & Hkeys & Hnd).
  pose proof (proj1 (validated_stored _) Hval) as Hdocs.
  destruct (dict_get hash_id (stored_documents (doc_manager.config s))) as [metadata |] eqn:Hget.
  - assert (Hcfg : doc_manager.config
                     (snd (doc_updates.set_metadata env hash_id name' description' tags' s))
                   = mkConfig (Some (dict_set hash_id (edited name' description' tags' metadata)
                                       (stored_documents (doc_manager.config s))))).
    { destruct (set_metadata_run env hash_id name' description' tags' s metadata Hval Hget)
        as [(line & Hrun) | (msg & evs & Hrun & _)]; cbv zeta in Hrun; rewrite Hrun;
        reflexivity. }
    rewrite Hcfg. split; [| split]; cbn [stored_documents documents].
    + apply validated_stored. cbn [stored_documents documents].
      apply (Forall_dict_set tags_within_limit); [| exact Hdocs].
      apply edited_tags_within_limit. exact (dict_get_within_limit _ _ _ Hdocs Hget).
    + apply dict_set_entries; [| exact Hkeys].
      pose proof (proj1 (Forall_forall _ _) Hkeys _ (dict_get_In _ _ _ Hget)) as Hkey.
      exact Hkey.
    + apply dict_set_NoDup. exact Hnd.
  - unfold doc_updates.set_metadata, bind, doc_updates.ensure_documents.
    cbn [doc_manager.config doc_manager.trace stored_documents documents].
    fold (stored_documents (doc_manager.config s)). rewrite Hget. cbn [snd doc_manager.config].
    split; [| split]; cbn [stored_documents documents]; [| exact Hkeys | exact Hnd].
    apply validated_stored. exact Hdocs.
Qed.

(** X16: the store stays well formed (every tag within the limit, every
    key the hash ID of the URL of its entry, no key twice) through
    [add_doc], [add_doc_async], a whole batch of [add_multiple] in either
    mode, and [set_metadata], whether they succeed or fail. *)
Theorem store_stays_well_formed (env : Env) (s : doc_manager.State) :
  hexdigest_ok env ->
  well_formed_store env (doc_manager.config s) ->
  (forall url',
      well_formed_store env (doc_manager.config (snd (doc_manager.add_doc env url' s)))
      /\ well_formed_store env
           (doc_manager.config (snd (doc_manager.add_doc_async env url' s))))
  /\ (forall urls use_async,
         well_formed_store env
           (doc_manager.config (snd (doc_manager.add_multiple env urls use_async s))))
  /\ (forall hash_id name' description' tags',
         well_formed_store env
           (doc_manager.config
              (snd (doc_updates.set_metadata env hash_id name' description' tags' s)))).
Proof.
  intros Hhex Hwf. split; [| split].
  - intros url'. split.
    + exact (add_doc_well_formed env url' false s Hwf).
    + exact (add_doc_well_formed env url' true s Hwf).
  - intros urls use_async.
    rewrite (add_multiple_is_the_run env urls use_async s Hhex).
    cbn [snd]. unfold concluded. cbn [doc_manager.config].
    apply (run_each_config (well_formed_store env)).
    + intros url' s0. apply add_doc_well_formed.
    + exact Hwf.
  - intros hash_id name' description' tags'. apply set_metadata_well_formed. exact Hwf.
Qed.

Lemma store_stays_well_formed_witness :
  well_formed_store sample.env
    (doc_manager.config
       (snd (doc_manager.add_multiple sample.env sample.five_urls false sample.stored))).
Proof.
  refine (proj1 (proj2 (store_stays_well_formed sample.env sample.stored
                          sample_hexdigest_ok _)) sample.five_urls false).
  split; [| split].
  - intros docs Hdocs. injection Hdocs as <-. repeat constructor; discriminate.
  - repeat constructor.
  - repeat constructor. intros [].
Defined.

(** ** [update_doc] and [update_all] *)

Lemma batch_op_config (env : Env) (use_async : bool) (url' : string) (s : doc_manager.State) :
  doc_manager.config (snd (batch_op env use_async url' s)) = doc_manager.config s
  \/ doc_manager.config (snd (batch_op env use_async url' s))
     = config_after_update env url' (doc_manager.config s).
Proof.
  unfold batch_op. destruct use_async.
  - destruct (add_doc_async_config env url' s) as [[H _] | H]; auto.
  - destruct (add_doc_config env url' s) as [[H _] | H]; auto.
Qed.

Lemma batch_op_returns (env : Env) (use_async : bool) (url' : string) (s : doc_manager.State)
    (r : string) :
  fst (batch_op env use_async url' s) = Return r -> r = doc_manager._generate_hash_id env url'.
Proof.
  unfold batch_op. destruct use_async; intros Hret.
  - destruct (proj2 (add_doc_effects env url' s))
      as (net & writes & closing & _ & _ & _ & _ & Hok & _).
    exact (proj1 (Hok r Hret)).
  - destruct (proj1 (add_doc_effects env url' s))
      as (net & writes & closing & _ & _ & _ & _ & Hok & _).
    exact (proj1 (Hok r Hret)).
Qed.

(** Downloading again the URL of a stored entry leaves a well-formed store
    as it is. *)
Lemma batch_op_stored_url (env : Env) (use_async : bool) (hash_id : string)
    (metadata : DocumentMetadata) (s : doc_manager.State) :
  well_formed_store env (doc_manager.config s) ->
  dict_get hash_id (stored_documents (doc_manager.config s)) = Some metadata ->
  doc_manager.config (snd (batch_op env use_async (url metadata) s)) = doc_manager.config s.
Proof.
  intros (Hval & Hkeys & _) Hget.
  destruct (batch_op_config env use_async (url metadata) s) as [H | H]; [exact H |].
  rewrite H. unfold stored_documents in Hget, Hkeys.
  destruct (documents (doc_manager.config s)) as [docs |] eqn:Hdocs; [| discriminate Hget].
  exact (config_after_update_same env _ docs hash_id metadata Hdocs Hval Hkeys Hget).
Qed.

Lemma update_doc_unfold (env : Env) (hash_id : string) (use_async : bool)
    (s : doc_manager.State) :
  doc_updates.update_doc env hash_id use_async s
  = match dict_get hash_id (stored_documents (doc_manager.config s)) with
    | None => (Raise (doc_updates.DocumentNotFoundError hash_id), s)
    | Some metadata =>
        try_except
          (result <- batch_op env use_async (url metadata) ;;
           if Py.truthy result
           then doc_manager.lift (print ("✓ " ++ hash_id ++ " updated")) ;;; ret true
           else doc_manager.lift (print ("✗ " ++ hash_id ++ " update failed")) ;;; ret false)
          (fun e =>
             doc_manager.lift (print ("✗ " ++ hash_id ++ " update failed: " ++ exn_str e)) ;;;
             reraise e)
          (doc_manager.mkState (doc_manager.config s)
             (doc_manager.trace s ++ [ev_print ("Updating " ++ hash_id ++ "...")])%list)
    end.
Proof.
  unfold doc_updates.update_doc, stored_documents.
  destruct (documents (doc_manager.config s)) as [docs |]; [| reflexivity].
  destruct (dict_get hash_id docs) as [metadata |]; [| reflexivity].
  rewrite print_then. unfold batch_op. destruct use_async; reflexivity.
Qed.

Lemma update_doc_run (env : Env) (hash_id : string) (use_async : bool)
    (s : doc_manager.State) :
  hexdigest_ok env ->
  well_formed_store env (doc_manager.config s) ->
  exists o s',
    doc_updates.update_doc env hash_id use_async s = (o, s')
    /\ doc_manager.config s' = doc_manager.config s
    /\ (o = Return true \/ exists e, o = Raise e).
Proof.
  intros Hhex Hwf. rewrite update_doc_unfold.
  destruct (dict_get hash_id (stored_documents (doc_manager.config s))) as [metadata |] eqn:Hget.
  2:{ eexists. eexists. split; [reflexivity |]. split; [reflexivity |].
      right. eexists. reflexivity. }
  set (s0 := doc_manager.mkState (doc_manager.config s)
               (doc_manager.trace s ++ [ev_print ("Updating " ++ hash_id ++ "...")])%list).
  pose proof (batch_op_stored_url env use_async hash_id metadata s0 Hwf Hget) as Hcfg.
  pose proof (batch_op_returns env use_async (url metadata) s0) as Hret.
  unfold try_except, bind.
  destruct (batch_op env use_async (url metadata) s0) as [[r | e] s1]; cbn [fst snd] in *.
  - rewrite (Hret r eq_refl), (hash_id_truthy env (url metadata) Hhex).
    unfold doc_manager.lift, print, emit, ret. cbv beta iota.
    eexists. eexists. split; [reflexivity |]. split; [exact Hcfg |]. left. reflexivity.
  - unfold doc_manager.lift, print, emit, reraise. cbv beta iota.
    eexists. eexists. split; [reflexivity |]. split; [exact Hcfg |].
    right. eexists. reflexivity.
Qed.

(** X17: on a well-formed store [update_doc] never changes the store: the
    URL it downloads again is the one whose hash ID is the key, so the
    entry is set to what it was.  It returns [True] or raises, never
    [False]; for an unknown ID it raises [DocumentNotFoundError] before
    anything happens. *)
Theorem update_doc_keeps_store (env : Env) (hash_id : string) (use_async : bool)
    (s : doc_manager.State) :
  hexdigest_ok env ->
  well_formed_store env (doc_manager.config s) ->
  let run := doc_updates.update_doc env hash_id use_async s in
  doc_manager.config (snd run) = doc_manager.config s
  /\ (forall updated, fst run = Return updated -> updated = true)
  /\ (dict_get hash_id (stored_documents (doc_manager.config s)) = None ->
      run = (Raise (doc_updates.DocumentNotFoundError hash_id), s)).
Proof.
  intros Hhex Hwf. cbv zeta.
  destruct (update_doc_run env hash_id use_async s Hhex Hwf) as (o & s' & Hrun & Hcfg & Ho).
  split; [rewrite Hrun; exact Hcfg |].
  split.
  - rewrite Hrun. cbn [fst]. intros updated E.
    destruct Ho as [-> | [e ->]]; [injection E as <-; reflexivity | discriminate E].
  - intros Hget. rewrite update_doc_unfold, Hget. reflexivity.
Qed.

Lemma update_doc_keeps_store_witness :
  doc_updates.update_doc sample.env "89b8c46b" false sample.stored
  = (Return true,
     doc_manager.mkState (doc_manager.config sample.stored)
       [ev_print "Updating 89b8c46b...";
        ev_print "Downloading https://example.com/doc.md...";
        ev_gethostbyname "example.com";
        ev_urlopen sample.doc_url 10;
        ev_gethostbyname "example.com";
        ev_urlopen sample.doc_url 10;
        ev_urlopen sample.doc_url 60;
        ev_write_file "89b8c46b.md" (map (fun c => N.of_nat (nat_of_ascii c))
                                       (list_ascii_of_string "# Hello, docs"));
        ev_write_config (doc_manager.config sample.stored);
        ev_print "✓ Downloaded as 89b8c46b.md";
        ev_print "✓ 89b8c46b updated"])
  /\ doc_manager.config (snd (doc_updates.update_doc sample.env "89b8c46b" false sample.stored))
     = doc_manager.config sample.stored.
Proof.
  split; [vm_compute; reflexivity |].
  refine (proj1 (update_doc_keeps_store sample.env "89b8c46b" false sample.stored
                   sample_hexdigest_ok _)).
  split; [| split].
  - intros docs Hdocs. injection Hdocs as <-. repeat constructor; discriminate.
  - repeat constructor.
  - repeat constructor. intros [].
Defined.

Lemma update_all_loop_run (env : Env) (size : nat) (keys : list string) (count : Z)
    (s : doc_manager.State) :
  hexdigest_ok env ->
  well_formed_store env (doc_manager.config s) ->
  List.length (stored_documents (doc_manager.config s)) = size ->
  exists n s',
    doc_updates.update_all_loop env size keys count s = (Return n, s')
    /\ doc_manager.config s' = doc_manager.config s
    /\ count <= n <= count + Z.of_nat (List.length keys).
Proof.
  intros Hhex. revert count s.
  induction keys as [| hash_id rest IH]; intros count s Hwf Hsize;
    cbn [doc_updates.update_all_loop]; rewrite Hsize, Nat.eqb_refl; cbn [negb].
  - exists count, s. cbn [List.length]. repeat split; lia.
  - destruct (update_doc_run env hash_id false s Hhex Hwf) as (o & s1 & Hrun & Hcfg & Ho).
    unfold bind at 1, try_except, bind at 1. rewrite Hrun.
    assert (Hnext : forall s2 count',
               doc_manager.config s2 = doc_manager.config s ->
               count <= count' <= count + 1 ->
               exists n s',
                 doc_updates.update_all_loop env size rest count' s2 = (Return n, s')
                 /\ doc_manager.config s' = doc_manager.config s
                 /\ count <= n <= count + Z.of_nat (List.length (hash_id :: rest))).
    { intros s2 count' Hcfg2 Hcount.
      destruct (IH count' s2) as (n & s' & Hloop & Hcfg' & Hn).
      - rewrite Hcfg2. exact Hwf.
      - rewrite Hcfg2. exact Hsize.
      - exists n, s'. split; [exact Hloop |]. split; [congruence |].
        cbn [List.length]. rewrite Nat2Z.inj_succ. lia. }
    destruct Ho as [-> | [e ->]].
    + unfold ret. apply Hnext; [exact Hcfg | lia].
    + rewrite print_then. unfold ret. apply Hnext; [exact Hcfg | lia].
Qed.

Lemma gather_updates_run (env : Env) (urls : list (string * string)) (s : doc_manager.State) :
  well_formed_store env (doc_manager.config s) ->
  (forall hash_id url', In (hash_id, url') urls ->
     exists metadata,
       dict_get hash_id (stored_documents (doc_manager.config s)) = Some metadata
       /\ url metadata = url') ->
  exists results s',
    doc_updates.gather_updates env urls s = (Return results, s')
    /\ doc_manager.config s' = doc_manager.config s
    /\ List.length results = List.length urls.
Proof.
  intros Hwf. revert s Hwf.
  induction urls as [| [hash_id url'] rest IH]; intros s Hwf Hurls;
    cbn [doc_updates.gather_updates].
  - exists [], s. repeat split.
  - destruct (Hurls hash_id url' (or_introl eq_refl)) as (metadata & Hget & <-).
    pose proof (batch_op_stored_url env true hash_id metadata s Hwf Hget) as Hcfg.
    unfold batch_op in Hcfg.
    assert (Hnext : forall s2 result,
               doc_manager.config s2 = doc_manager.config s ->
               exists results s',
                 (results0 <- doc_updates.gather_updates env rest ;;
                  ret (result :: results0))%py s2 = (Return results, s')
                 /\ doc_manager.config s' = doc_manager.config s
                 /\ List.length results = List.length ((hash_id, url metadata) :: rest)).
    { intros s2 result Hcfg2.
      destruct (IH s2) as (results & s' & Hrest & Hcfg' & Hlen).
      - rewrite Hcfg2. exact Hwf.
      - rewrite Hcfg2. intros k u Hin. apply Hurls. right. exact Hin.
      - exists (result :: results), s'. unfold bind. rewrite Hrest. unfold ret.
        split; [reflexivity |]. split; [congruence |]. cbn [List.length]. rewrite Hlen.
        reflexivity. }
    unfold bind at 1, doc_updates.update_single, try_except, bind at 1.
    destruct (doc_manager.add_doc_async env (url metadata) s) as [[r | e] s1]; cbn [snd] in Hcfg.
    + unfold ret at 1. apply Hnext. exact Hcfg.
    + rewrite print_then. unfold ret at 1. apply Hnext. exact Hcfg.
Qed.

Lemma bind_returns {S A B} (m : M S A) (k : A -> M S B) (s s' : S) (a : A) :
  m s = (Return a, s') -> bind m k s = k a s'.
Proof. intros H. unfold bind. rewrite H. reflexivity. Qed.

Lemma filter_length_le {A} (f : A -> bool) (l : list A) :
  (List.length (filter f l) <= List.length l)%nat.
Proof.
  induction l as [| x r IH]; cbn [filter List.length]; [lia |].
  destruct (f x); cbn [List.length]; lia.
Qed.

(** X18: on a well-formed store [update_all], in either mode, never
    raises: it returns a count between 0 and the number of stored
    documents and leaves the store as it was.  In particular the
    dictionary is never resized while the sequential mode iterates over
    its keys. *)
Theorem update_all_keeps_store (env : Env) (use_async : bool) (s : doc_manager.State) :
  hexdigest_ok env ->
  well_formed_store env (doc_manager.config s) ->
  let run := doc_updates.update_all env use_async s in
  exists updated_count,
    fst run = Return updated_count
    /\ 0 <= updated_count <= Z.of_nat (List.length (stored_documents (doc_manager.config s)))
    /\ doc_manager.config (snd run) = doc_manager.config s.
Proof.
  intros Hhex Hwf. cbv zeta. unfold doc_updates.update_all.
  destruct (documents (doc_manager.config s)) as [[| entry rest] |] eqn:Hdocs.
  - exists 0. cbn. repeat split; lia.
  - set (docs := entry :: rest) in *.
    assert (Hstored : stored_documents (doc_manager.config s) = docs)
      by (unfold stored_documents; rewrite Hdocs; reflexivity).
    rewrite print_then.
    set (s0 := doc_manager.mkState (doc_manager.config s) _).
    pose (closing := fun n : Z =>
            (((fun s' => doc_manager.lift
                           (print (doc_updates.updated_line n
                                     (stored_documents (doc_manager.config s')))) s') ;;;
              ret n)%py : doc_manager.Mgr Z)).
    assert (Hclose : forall n s1,
               doc_manager.config s1 = doc_manager.config s ->
               0 <= n <= Z.of_nat (List.length docs) ->
               exists updated_count,
                 fst (closing n s1) = Return updated_count
                 /\ 0 <= updated_count <= Z.of_nat (List.length docs)
                 /\ doc_manager.config (snd (closing n s1)) = doc_manager.config s).
    { intros n s1 Hcfg Hn. exists n.
      unfold closing, bind, doc_manager.lift, print, emit, ret.
      cbn [fst snd doc_manager.config]. repeat split; [lia | lia | exact Hcfg]. }
    rewrite Hstored.
    assert (Hpart : exists n s1,
               (if use_async
                then (results <- doc_updates.gather_updates env
                                   (map (fun entry => (fst entry, url (snd entry))) docs) ;;
                      ret (Z.of_nat (List.length (filter (fun result => result) results))))%py
                else doc_updates.update_all_loop env (List.length docs) (map fst docs) 0) s0
               = (Return n, s1)
               /\ doc_manager.config s1 = doc_manager.config s
               /\ 0 <= n <= Z.of_nat (List.length docs)).
    { destruct use_async.
      - destruct (gather_updates_run env (map (fun e => (fst e, url (snd e))) docs) s0)
          as (results & s1 & Hrun & Hcfg & Hlen).
        + exact Hwf.
        + intros hash_id url' Hin. apply in_map_iff in Hin as ([k metadata] & E & Hin).
          cbn [fst snd] in E. injection E as <- <-.
          exists metadata. split; [| reflexivity].
          cbn [doc_manager.config s0]. rewrite Hstored.
          apply In_dict_get; [| exact Hin].
          destruct Hwf as (_ & _ & Hnd). rewrite Hstored in Hnd. exact Hnd.
        + eexists. exists s1. split; [exact (bind_returns _ _ _ _ _ Hrun) |].
          split; [exact Hcfg |].
          pose proof (filter_length_le (fun result : bool => result) results) as Hle.
          rewrite length_map in Hlen. lia.
      - destruct (update_all_loop_run env (List.length docs) (map fst docs) 0 s0 Hhex Hwf)
          as (n & s1 & Hrun & Hcfg & Hn).
        + cbn [doc_manager.config s0]. rewrite Hstored. reflexivity.
        + exists n, s1. split; [exact Hrun |]. split; [exact Hcfg |].
          rewrite length_map in Hn. lia. }
    destruct Hpart as (n & s1 & Hrun & Hcfg & Hn).
    rewrite (bind_returns _ _ _ _ _ Hrun).
    exact (Hclose n s1 Hcfg Hn).
  - exists 0. cbn. repeat split; lia.
Qed.

Lemma update_all_keeps_store_witness :
  fst (doc_updates.update_all sample.env false sample.stored) = Return 1
  /\ doc_manager.config (snd (doc_updates.update_all sample.env false sample.stored))
     = doc_manager.config sample.stored.
Proof.
  split; [vm_compute; reflexivity |].
  assert (Hwf : well_formed_store sample.env (doc_manager.config sample.stored)).
  { split; [| split].
    - intros docs Hdocs. injection Hdocs as <-. repeat constructor; discriminate.
    - repeat constructor.
    - repeat constructor. intros []. }
  destruct (update_all_keeps_store sample.env false sample.stored sample_hexdigest_ok Hwf)
    as (n & _ & _ & Hcfg).
  exact Hcfg.
Defined.

(** ** [_filter_docs_by_tags] *)

Lemma set_eq_spec (a b : list string) :
  doc_updates.set_eq a b = true <-> (forall x, In x a <-> In x b).
Proof.
  unfold doc_updates.set_eq. rewrite andb_true_iff, !forallb_forall. split.
  - intros [Hab Hba] x. split; intros Hin.
    + apply mem_str_In. exact (Hab x Hin).
    + apply mem_str_In. exact (Hba x Hin).
  - intros H. split; intros x Hin; apply mem_str_In; apply H; exact Hin.
Qed.

Lemma dict_get_snoc {V} (k k' : string) (v : V) (d : Dict V) :
  dict_get k d = None -> k <> k' -> dict_get k (d ++ [(k', v)])%list = None.
Proof.
  intros Hget Hne. induction d as [| [k0 v0] r IH]; cbn [app dict_get] in *.
  - destruct (String.eqb_spec k k'); [contradiction | reflexivity].
  - destruct (String.eqb k k0); [discriminate Hget | exact (IH Hget)].
Qed.

(** Over a dictionary the loop that fills [filtered_docs] is a filter. *)
Lemma filter_loop (keep : DocumentMetadata -> bool) (docs acc : Dict DocumentMetadata) :
  NoDup (map fst docs) ->
  (forall k, In k (map fst docs) -> dict_get k acc = None) ->
  fold_left (fun filtered_docs entry =>
               if keep (snd entry)
               then dict_set (fst entry) (snd entry) filtered_docs
               else filtered_docs) docs acc
  = (acc ++ filter (fun entry => keep (snd entry)) docs)%list.
Proof.
  revert acc. induction docs as [| [k metadata] rest IH]; intros acc Hnd Hfresh;
    cbn [fold_left filter fst snd map] in *; [rewrite app_nil_r; reflexivity |].
  inversion Hnd as [| ? ? Hnotin Hnd']; subst.
  destruct (keep metadata).
  - rewrite (dict_set_absent k metadata acc (Hfresh k (or_introl eq_refl))).
    rewrite IH; [rewrite <- app_assoc; reflexivity | exact Hnd' |].
    intros k' Hin. apply dict_get_snoc; [apply Hfresh; right; exact Hin |].
    intros ->. exact (Hnotin Hin).
  - apply IH; [exact Hnd' |]. intros k' Hin. apply Hfresh. right. exact Hin.
Qed.

(** X19: what [_filter_docs_by_tags] returns, for a dictionary of
    documents.  An entry is returned when it is an entry of [docs], the
    filter is not empty, and either the entry has one of the selected
    tags or the selected tags are, as a set, exactly the tags in use.  So
    a document without tags is returned only in the second case, when
    every document is. *)
Theorem filter_by_tags_characterized (docs : Dict DocumentMetadata)
    (tag_filters : list string) (hash_id : string) (metadata : DocumentMetadata) :
  NoDup (map fst docs) ->
  In (hash_id, metadata) (doc_updates._filter_docs_by_tags docs tag_filters)
  <-> In (hash_id, metadata) docs
      /\ tag_filters <> []
      /\ ((forall tag, In tag tag_filters <-> In tag (doc_updates.all_available_tags docs))
          \/ exists tag, In tag (tags metadata) /\ In tag tag_filters).
Proof.
  intros Hnd. unfold doc_updates._filter_docs_by_tags.
  destruct tag_filters as [| tag0 filters0].
  { split; [intros [] | intros (_ & H & _); congruence]. }
  set (tag_filters := tag0 :: filters0).
  destruct (doc_updates.set_eq tag_filters (doc_updates.all_available_tags docs)) eqn:Hset.
  - pose proof (proj1 (set_eq_spec _ _) Hset) as Hall. split.
    + intros Hin. split; [exact Hin |]. split; [discriminate | left; exact Hall].
    + intros (Hin & _). exact Hin.
  - rewrite (filter_loop (doc_updates.shown tag_filters) docs [] Hnd (fun k _ => eq_refl)).
    cbn [app]. rewrite filter_In. cbn [snd].
    assert (Hshown : doc_updates.shown tag_filters metadata = true
                     <-> exists tag, In tag (tags metadata) /\ In tag tag_filters).
    { unfold doc_updates.shown. cbn zeta. unfold tag_filters at 2.
      rewrite andb_false_r, orb_false_r, existsb_exists.
      split; intros (tag & Htag & Hmem); exists tag; (split; [exact Htag |]);
        apply mem_str_In; exact Hmem. }
    split.
    + intros (Hin & Hkeep). split; [exact Hin |]. split; [discriminate |].
      right. apply Hshown. exact Hkeep.
    + intros (Hin & _ & [Hall | Hsome]).
      * pose proof (proj2 (set_eq_spec _ _) Hall) as Htrue. congruence.
      * split; [exact Hin | apply Hshown; exact Hsome].
Qed.

Lemma filter_by_tags_characterized_witness :
  In ("38507e16", mkDocumentMetadata sample.a_url None None [])
    (doc_updates._filter_docs_by_tags
       [("89b8c46b", sample.doc_metadata);
        ("38507e16", mkDocumentMetadata sample.a_url None None [])]
       ["docs"; "python"])
  /\ ~ In ("38507e16", mkDocumentMetadata sample.a_url None None [])
       (doc_updates._filter_docs_by_tags
          [("89b8c46b", sample.doc_metadata);
           ("38507e16", mkDocumentMetadata sample.a_url None None [])]
          ["docs"]).
Proof.
  assert (Hnd : NoDup (map fst [("89b8c46b", sample.doc_metadata);
                                ("38507e16", mkDocumentMetadata sample.a_url None None [])])).
  { repeat constructor; cbn; intuition discriminate. }
  split.
  - apply (proj2 (filter_by_tags_characterized _ ["docs"; "python"] _ _ Hnd)).
    split; [right; left; reflexivity |]. split; [discriminate |].
    left. intros tag. cbn. intuition.
  - intros Hin.
    apply (proj1 (filter_by_tags_characterized _ ["docs"] _ _ Hnd)) in Hin.
    destruct Hin as (_ & _ & [Hall | (tag & [] & _)]).
    assert (H : In "python" ["docs"]) by (apply Hall; cbn; auto).
    cbn in H. intuition discriminate.
Defined.

(** ** What the network calls are given *)

Lemma appends_bind (P : Event -> Prop) {A B} (m : doc_manager.Mgr A)
    (k : A -> doc_manager.Mgr B) :
  appends P m -> (forall a, appends P (k a)) -> appends P (bind m k).
Proof.
  intros Hm Hk s. unfold bind. destruct (Hm s) as (evs & Htrace & Hevs).
  destruct (m s) as [[a | e] s1]; cbn [snd] in *; [| exists evs; auto].
  destruct (Hk a s1) as (evs' & Htrace' & Hevs').
  exists (evs ++ evs')%list. rewrite Htrace', Htrace, app_assoc.
  split; [reflexivity | apply Forall_app; auto].
Qed.

Lemma appends_try_except (P : Event -> Prop) {A} (m : doc_manager.Mgr A)
    (handler : Exn -> doc_manager.Mgr A) :
  appends P m -> (forall e, appends P (handler e)) -> appends P (try_except m handler).
Proof.
  intros Hm Hh s. unfold try_except. destruct (Hm s) as (evs & Htrace & Hevs).
  destruct (m s) as [[a | e] s1]; cbn [snd] in *; [exists evs; auto |].
  destruct (Hh e s1) as (evs' & Htrace' & Hevs').
  exists (evs ++ evs')%list. rewrite Htrace', Htrace, app_assoc.
  split; [reflexivity | apply Forall_app; auto].
Qed.

Lemma appends_lift (P : Event -> Prop) {A} (m : Net A) :
  net_appends P m -> appends P (doc_manager.lift m).
Proof.
  intros Hm s. unfold doc_manager.lift. destruct (Hm (doc_manager.trace s)) as (evs & H & Hevs).
  destruct (m (doc_manager.trace s)) as [r h']. exists evs. auto.
Qed.

Lemma appends_pure (P : Event -> Prop) {A} (o : Outcome A) :
  appends P (fun s => (o, s)).
Proof. intros s. exists []. rewrite app_nil_r. split; [reflexivity | constructor]. Qed.

Lemma appends_print (P : Event -> Prop) (line : string) :
  P (ev_print line) -> appends P (doc_manager.lift (print line)).
Proof.
  intros HP. apply appends_lift. intros h. exists [ev_print line].
  split; [reflexivity | constructor; [exact HP | constructor]].
Qed.

Lemma appends_weaken (P Q : Event -> Prop) {A} (m : doc_manager.Mgr A) :
  (forall e, P e -> Q e) -> appends P m -> appends Q m.
Proof.
  intros HPQ Hm s. destruct (Hm s) as (evs & H & Hevs). exists evs.
  split; [exact H | revert Hevs; apply Forall_impl; exact HPQ].
Qed.

Lemma call_within_mono (env : Env) (urls urls' : list string) (e : Event) :
  (forall u, In u urls -> In u urls') -> call_within env urls e -> call_within env urls' e.
Proof.
  intros Hsub. destruct e; cbn [call_within]; auto.
  intros (u & Hu & Hhost). exists u. auto.
Qed.

(** The trace of [validate_url_security]: nothing; the resolution of the
    host name of the URL; or the resolution and the trial request. *)
Lemma validate_security_calls (env : Env) (url' : string) (timeout : Z) :
  net_appends (call_within env [url']) (validation.validate_url_security env url' timeout).
Proof.
  intros h.
  assert (Hnone : forall r : Outcome (bool * option string) * list Event,
             snd r = h -> exists evs, snd r = (h ++ evs)%list
                                      /\ Forall (call_within env [url']) evs).
  { intros r Hr. exists []. rewrite app_nil_r. split; [exact Hr | constructor]. }
  assert (Hwrap : forall (e : Exn) (h0 : list Event),
             snd (@validation.reraise_or_wrap (bool * option string) e h0) = h0).
  { intros e h0. unfold validation.reraise_or_wrap. destruct (isinstance e _); reflexivity. }
  unfold validation.validate_url_security, try_except, bind, validation.call_urlparse.
  destruct (urlparse env url') as [msg | parsed] eqn:Hparse.
  { apply Hnone. apply Hwrap. }
  unfold ret.
  destruct (Py.mem_str (Py.lower (scheme parsed)) validation.ALLOWED_SCHEMES); cbn [negb];
    [| apply Hnone; apply Hwrap].
  destruct (hostname parsed) as [host |] eqn:Hhost; [| apply Hnone; apply Hwrap].
  destruct (Py.truthy host); cbn [negb]; [| apply Hnone; apply Hwrap].
  assert (Hres : call_within env [url'] (ev_gethostbyname host)).
  { exists url'. split; [left; reflexivity |]. exists parsed. auto. }
  assert (Hone : forall r : Outcome (bool * option string) * list Event,
             snd r = (h ++ [ev_gethostbyname host])%list ->
             exists evs, snd r = (h ++ evs)%list /\ Forall (call_within env [url']) evs).
  { intros r Hr. exists [ev_gethostbyname host].
    split; [exact Hr | constructor; [exact Hres | constructor]]. }
  unfold validation.resolve_hostname.
  destruct (gethostbyname env h host) as [ip_addr | msg | msg];
    [| apply Hone; apply Hwrap | apply Hone; apply Hwrap].
  rewrite check_private_ranges_eq.
  destruct (existsb (ip_in_network ip_addr) validation.PRIVATE_IP_RANGES);
    [apply Hone; apply Hwrap |].
  pose proof (check_port_trace parsed (h ++ [ev_gethostbyname host])%list) as Hport.
  destruct (validation.check_port parsed (h ++ [ev_gethostbyname host])%list)
    as [[[] | e] h0]; cbn [snd] in Hport; subst h0; [| apply Hone; apply Hwrap].
  destruct (trial_request_returns env url' timeout (h ++ [ev_gethostbyname host])%list)
    as [r Hr]. rewrite Hr.
  exists [ev_gethostbyname host; ev_urlopen url' timeout]. cbn [snd].
  split; [rewrite <- app_assoc; reflexivity |].
  constructor; [exact Hres |]. constructor; [left; reflexivity | constructor].
Qed.

Lemma validate_url_sync_calls (env : Env) (url' : string) (timeout : Z) :
  net_appends (call_within env [url']) (network_simple.validate_url_sync env url' timeout).
Proof.
  intros h. destruct (validate_security_calls env url' timeout h) as (evs & Htrace & Hevs).
  exists evs. split; [| exact Hevs].
  unfold network_simple.validate_url_sync, try_except, bind.
  destruct (validation.validate_url_security env url' timeout h)
    as [[[is_valid error_msg] | e] h1]; cbn [snd] in Htrace; subst h1.
  - destruct is_valid; reflexivity.
  - destruct (isinstance e _); reflexivity.
Qed.

Lemma download_calls (env : Env) (url' : string) (max_size timeout : Z) :
  net_appends (call_within env [url'])
    (network_simple.download_content_sync env url' max_size timeout).
Proof.
  intros h.
  destruct (validate_url_sync_calls env url' network_simple.VALIDATION_TIMEOUT h)
    as (evs & Htrace & Hevs).
  unfold network_simple.download_content_sync, bind.
  destruct (network_simple.validate_url_sync env url' network_simple.VALIDATION_TIMEOUT h)
    as [[ok | e] h1]; cbn [snd] in Htrace; subst h1.
  - exists (evs ++ [ev_urlopen url' timeout])%list.
    rewrite fetch_trace, app_assoc. split; [reflexivity |].
    apply Forall_app. split; [exact Hevs |].
    constructor; [left; reflexivity | constructor].
  - exists evs. split; [reflexivity | exact Hevs].
Qed.

Lemma validate_url_calls (env : Env) (url' : string) :
  appends (call_within env [url']) (doc_manager.validate_url env url').
Proof.
  unfold doc_manager.validate_url. apply appends_try_except.
  - apply appends_lift. apply validate_url_sync_calls.
  - intros e. destruct (_ || _); apply appends_pure.
Qed.

Lemma store_content_calls (env : Env) (urls : list string) (url' : string)
    (content : Text) :
  appends (call_within env urls) (doc_manager.store_content env url' content).
Proof.
  intros s.
  destruct (store_content_shape env url' content s)
    as [(writes & Htrace & Hwrites & _) | (filename & _ & Hrun)]; cbv zeta in *.
  - exists writes. split; [exact Htrace |].
    destruct Hwrites as [-> | (filename & c & _ & [-> | (cfg & ->)])];
      repeat constructor.
  - rewrite Hrun. cbn [snd doc_manager.trace]. eexists. split; [reflexivity |].
    repeat constructor.
Qed.

Lemma add_doc_handler_calls (env : Env) (urls : list string) (url' : string) (e : Exn) :
  appends (call_within env urls) (doc_manager.add_doc_handler url' e).
Proof.
  intros s. destruct (add_doc_handler_raises url' e s) as [e' He']. rewrite He'.
  cbn [snd doc_manager.trace]. eexists. split; [reflexivity | repeat constructor].
Qed.

Lemma batch_op_calls (env : Env) (urls : list string) (use_async : bool) (url' : string) :
  In url' urls -> appends (call_within env urls) (batch_op env use_async url').
Proof.
  intros Hin.
  assert (Hmono : forall e, call_within env [url'] e -> call_within env urls e).
  { intros e. apply call_within_mono. intros u [<- | []]. exact Hin. }
  unfold batch_op. destruct use_async.
  - unfold doc_manager.add_doc_async.
    apply appends_bind; [apply appends_print; exact I | intros _].
    apply appends_try_except; [| intros e; apply add_doc_handler_calls].
    apply appends_bind; [| intros content; apply store_content_calls].
    apply (appends_weaken _ _ _ Hmono). apply appends_lift.
    unfold network_simple.download_content_async. apply download_calls.
  - unfold doc_manager.add_doc.
    apply appends_bind; [apply appends_print; exact I | intros _].
    apply appends_try_except; [| intros e; apply add_doc_handler_calls].
    apply appends_bind;
      [apply (appends_weaken _ _ _ Hmono); apply validate_url_calls | intros _].
    apply appends_bind; [| intros content; apply store_content_calls].
    apply (appends_weaken _ _ _ Hmono). apply appends_lift. apply download_calls.
Qed.

Lemma sync_loop_calls (env : Env) (all_urls urls : list string) (count : Z) :
  (forall u, In u urls -> In u all_urls) ->
  appends (call_within env all_urls) (doc_manager.add_multiple_sync_loop env urls count).
Proof.
  revert count. induction urls as [| url' rest IH]; intros count Hsub;
    cbn [doc_manager.add_multiple_sync_loop].
  - apply appends_pure.
  - apply appends_bind.
    + apply appends_try_except.
      * apply appends_bind;
          [apply (batch_op_calls env all_urls false); apply Hsub; left; reflexivity |].
        intros result. destruct (Py.truthy result); apply appends_pure.
      * intros e. apply appends_bind; [apply appends_print; exact I | intros _].
        apply appends_pure.
    + intros count'. apply IH. intros u Hu. apply Hsub. right. exact Hu.
Qed.

Lemma gather_calls (env : Env) (all_urls urls : list string) :
  (forall u, In u urls -> In u all_urls) ->
  appends (call_within env all_urls) (doc_manager.gather env urls).
Proof.
  induction urls as [| url' rest IH]; intros Hsub; cbn [doc_manager.gather].
  - apply appends_pure.
  - apply appends_bind.
    + unfold doc_manager.download_with_semaphore. apply appends_try_except.
      * apply appends_bind;
          [apply (batch_op_calls env all_urls true); apply Hsub; left; reflexivity |].
        intros _. apply appends_pure.
      * intros e. apply appends_bind; [apply appends_print; exact I | intros _].
        apply appends_pure.
    + intros result. apply appends_bind.
      * apply IH. intros u Hu. apply Hsub. right. exact Hu.
      * intros results. apply appends_pure.
Qed.

Lemma add_multiple_calls (env : Env) (urls : list string) (use_async : bool) :
  appends (call_within env urls) (doc_manager.add_multiple env urls use_async).
Proof.
  unfold doc_manager.add_multiple.
  apply appends_bind; [apply appends_print; exact I | intros _].
  destruct use_async.
  - unfold doc_manager._add_multiple_async.
    apply appends_bind; [apply gather_calls; auto | intros results].
    apply appends_bind; [apply appends_print; exact I | intros _]. apply appends_pure.
  - unfold doc_manager._add_multiple_sync.
    apply appends_bind; [apply sync_loop_calls; auto | intros count].
    apply appends_bind; [apply appends_print; exact I | intros _]. apply appends_pure.
Qed.

(** X20: the network calls of a batch name nothing outside its list.
    Whatever happens, [add_multiple] only appends to the trace; every URL
    it passes to [urlopen] is a URL of the list it was given, and every
    host name it passes to [gethostbyname] is the host name of one of them.
    The statement is about the calls and their arguments: a redirect that
    [urlopen] follows within a call is not covered. *)
Theorem batch_calls_name_only_listed_urls (env : Env) (urls : list string) (use_async : bool)
    (s : doc_manager.State) :
  exists evs,
    doc_manager.trace (snd (doc_manager.add_multiple env urls use_async s))
    = (doc_manager.trace s ++ evs)%list
    /\ (forall u timeout, In (ev_urlopen u timeout) evs -> In u urls)
    /\ (forall host, In (ev_gethostbyname host) evs ->
        exists u, In u urls /\ host_of env u host).
Proof.
  destruct (add_multiple_calls env urls use_async s) as (evs & Htrace & Hevs).
  exists evs. split; [exact Htrace |].
  split.
  - intros u timeout Hin. exact (proj1 (Forall_forall _ _) Hevs _ Hin).
  - intros host Hin. exact (proj1 (Forall_forall _ _) Hevs _ Hin).
Qed.

(** ** [add_from_file] *)

(** The loop over the lines returns the URL lines, in order, and only
    prints. *)
Lemma collect_urls_run (lines : list string) (line_num : Z) (urls : list string)
    (s : doc_manager.State) :
  exists evs,
    doc_files.collect_urls lines line_num urls s
    = (Return (urls ++ url_lines lines)%list,
       doc_manager.mkState (doc_manager.config s) (doc_manager.trace s ++ evs)%list)
    /\ Forall (fun e => exists line, e = ev_print line) evs.
Proof.
  revert line_num urls s.
  induction lines as [| line rest IH]; intros line_num urls s;
    cbn [doc_files.collect_urls].
  - exists []. unfold ret, url_lines. cbn [map filter]. rewrite !app_nil_r.
    destruct s. split; [reflexivity | constructor].
  - unfold url_lines. cbn [map filter]. fold (url_lines rest). unfold url_line at 1.
    destruct (Py.truthy (PyStr.strip line) && negb (PyStr.startswith "#" (PyStr.strip line)));
      cbn [andb]; [| apply IH].
    destruct (PyStr.startswith "http://" (PyStr.strip line)
              || PyStr.startswith "https://" (PyStr.strip line)); cbn [negb].
    + destruct (IH (line_num + 1) (urls ++ [PyStr.strip line])%list s) as (evs & Hrun & Hevs).
      exists evs. rewrite Hrun, <- app_assoc. split; [reflexivity | exact Hevs].
    + rewrite print_then.
      destruct (IH (line_num + 1) urls
                  (doc_manager.mkState (doc_manager.config s)
                     (doc_manager.trace s
                        ++ [ev_print ("Warning: Skipping invalid URL on line "
                                      ++ Py.str_of_int line_num ++ ": "
                                      ++ PyStr.strip line)])%list))
        as (evs & Hrun & Hevs).
      eexists. rewrite Hrun. cbn [doc_manager.config doc_manager.trace].
      rewrite <- app_assoc. split; [reflexivity |].
      constructor; [eexists; reflexivity | exact Hevs].
Qed.

Lemma url_lines_spec (lines : list string) (u : string) :
  In u (url_lines lines) ->
  (exists line, In line lines /\ u = PyStr.strip line)
  /\ (PyStr.startswith "http://" u = true \/ PyStr.startswith "https://" u = true).
Proof.
  unfold url_lines. rewrite filter_In, in_map_iff. intros [(line & <- & Hin) Hurl].
  split; [exists line; auto |].
  unfold url_line in Hurl. apply andb_true_iff in Hurl as [_ Hurl].
  apply orb_true_iff in Hurl. exact Hurl.
Qed.

(** X21: [add_from_file] raises nothing but [ValidationError], and every
    URL it passes to [urlopen] is a line of the file, stripped, that starts
    with [http://] or [https://] (a redirect that [urlopen] follows within
    a call is not covered).  A file that does not exist or cannot be opened
    leaves the trace as it was. *)
Theorem file_batch_opens_only_url_lines (env : Env) (read_file : doc_files.FileSystem)
    (file_path : string) (use_async : bool) (s : doc_manager.State) :
  let run := doc_files.add_from_file env read_file file_path use_async s in
  (forall e, fst run = Raise e -> exn_class e = exceptions_ValidationError)
  /\ ((forall lines failure,
          read_file (doc_manager.trace s) file_path <> doc_files.Lines lines failure) ->
      doc_manager.trace (snd run) = doc_manager.trace s)
  /\ exists evs,
       doc_manager.trace (snd run) = (doc_manager.trace s ++ evs)%list
       /\ forall u timeout, In (ev_urlopen u timeout) evs ->
            exists lines failure line,
              read_file (doc_manager.trace s) file_path = doc_files.Lines lines failure
              /\ In line lines
              /\ u = PyStr.strip line
              /\ (PyStr.startswith "http://" u = true \/ PyStr.startswith "https://" u = true).
Proof.
  cbv zeta. unfold doc_files.add_from_file, try_except.
  destruct (read_file (doc_manager.trace s) file_path) as [| msg | lines failure] eqn:Hread.
  - cbn [raise fst snd]. split; [intros e H; injection H as <-; reflexivity |].
    split; [reflexivity |].
    exists []. rewrite app_nil_r. split; [reflexivity | intros u timeout []].
  - cbn [raise fst snd]. split; [intros e H; injection H as <-; reflexivity |].
    split; [reflexivity |].
    exists []. rewrite app_nil_r. split; [reflexivity | intros u timeout []].
  - destruct (collect_urls_run lines 1 [] s) as (evs0 & Hcollect & Hprints).
    cbn [app] in Hcollect.
    assert (Hno : forall u timeout, ~ In (ev_urlopen u timeout) evs0).
    { intros u timeout Hin.
      destruct (proj1 (Forall_forall _ _) Hprints _ Hin) as [line E]. discriminate E. }
    set (s1 := doc_manager.mkState (doc_manager.config s) (doc_manager.trace s ++ evs0)%list)
      in *.
    assert (Hgoal : forall (o : Outcome Z) (s2 : doc_manager.State) (evs1 : list Event),
               doc_manager.trace s2 = (doc_manager.trace s1 ++ evs1)%list ->
               Forall (call_within env (url_lines lines)) evs1 ->
               let run := match o with
                          | Return a => (Return a, s2)
                          | Raise e =>
                              raise exceptions_ValidationError
                                ("Error reading " ++ file_path ++ ": " ++ exn_str e) s2
                          end in
               (forall e, fst run = Raise e -> exn_class e = exceptions_ValidationError)
               /\ ((forall lines0 failure0,
                       doc_files.Lines lines failure <> doc_files.Lines lines0 failure0) ->
                   doc_manager.trace (snd run) = doc_manager.trace s)
               /\ exists evs,
                    doc_manager.trace (snd run) = (doc_manager.trace s ++ evs)%list
                    /\ forall u timeout, In (ev_urlopen u timeout) evs ->
                         exists lines0 failure0 line,
                           doc_files.Lines lines failure = doc_files.Lines lines0 failure0
                           /\ In line lines0
                           /\ u = PyStr.strip line
                           /\ (PyStr.startswith "http://" u = true
                               \/ PyStr.startswith "https://" u = true)).
    { intros o s2 evs1 Htrace Hevs1. cbv zeta.
      assert (Htrace2 : doc_manager.trace s2 = (doc_manager.trace s ++ evs0 ++ evs1)%list).
      { rewrite Htrace. unfold s1. cbn [doc_manager.trace]. rewrite app_assoc. reflexivity. }
      split; [| split].
      - destruct o as [a | e0]; cbn [raise fst]; intros e1 H; [discriminate H |].
        injection H as <-. reflexivity.
      - intros Hne. exfalso. exact (Hne lines failure eq_refl).
      - exists (evs0 ++ evs1)%list. split; [destruct o as [a | e0]; exact Htrace2 |].
        intros u timeout Hin. apply in_app_or in Hin as [Hin | Hin];
          [exfalso; exact (Hno u timeout Hin) |].
        pose proof (proj1 (Forall_forall _ _) Hevs1 _ Hin) as Hu. cbn [call_within] in Hu.
        destruct (url_lines_spec lines u Hu) as ((line & Hline & Hstrip) & Hprefix).
        exists lines, failure, line. auto. }
    rewrite (bind_returns _ _ _ _ _ Hcollect).
    destruct failure as [msg |].
    + assert (Htrace : doc_manager.trace s1 = (doc_manager.trace s1 ++ [])%list)
        by (rewrite app_nil_r; reflexivity).
      exact (Hgoal (Raise (mkExn builtin_Exception msg)) s1 [] Htrace (Forall_nil _)).
    + destruct (url_lines lines) as [| u0 rest0] eqn:Hurls.
      * rewrite print_then. unfold ret.
        refine (Hgoal (Return 0)
                  (doc_manager.mkState (doc_manager.config s1)
                     (doc_manager.trace s1
                        ++ [ev_print ("No valid URLs found in " ++ file_path)])%list)
                  [ev_print ("No valid URLs found in " ++ file_path)] eq_refl _).
        constructor; [exact I | constructor].
      * destruct (add_multiple_calls env (u0 :: rest0) use_async s1)
          as (evs1 & Htrace1 & Hevs1).
        destruct (doc_manager.add_multiple env (u0 :: rest0) use_async s1) as [o s2].
        exact (Hgoal o s2 evs1 Htrace1 Hevs1).
Qed.

(** ** Packaging *)

Lemma package_selected_docs_run
    (resolve : list Event -> string -> string + string)
    (path_exists : list Event -> string -> bool)
    (create_package : string -> string -> Dict DocumentMetadata -> string -> bool
                      -> doc_manager.Mgr bool)
    (package_name : string) (include_docs : list string) (format_type : string)
    (soft_links : bool) (s : doc_manager.State) :
  (forall h path resolved, resolve h path = inr resolved ->
                           PyStr.startswith "/" resolved = true) ->
  exists o evs,
    doc_packaging.package_selected_docs resolve path_exists create_package
      package_name include_docs format_type soft_links s
    = doc_packaging.package_selected_docs resolve path_exists
        (fun _ _ _ _ _ => ret true) package_name include_docs format_type soft_links s
    /\ doc_packaging.package_selected_docs resolve path_exists create_package
         package_name include_docs format_type soft_links s
       = (o, doc_manager.mkState (doc_manager.config s) (doc_manager.trace s ++ evs)%list)
    /\ Forall (fun e => exists line, e = ev_print line) evs
    /\ (o = Return true -> stored_documents (doc_manager.config s) = [])
    /\ (o = Return false ->
        forall doc_id, In doc_id include_docs ->
                       dict_get doc_id (stored_documents (doc_manager.config s)) = None).
Proof.
  intros Hposix. unfold doc_packaging.package_selected_docs, stored_documents.
  destruct (documents (doc_manager.config s)) as [[| entry rest] |] eqn:Hdocs.
  - exists (Return true), [ev_print "No documents available for packaging"].
    split; [reflexivity |]. split; [reflexivity |].
    split; [constructor; [eexists; reflexivity | constructor] |].
    split; [reflexivity | discriminate].
  - set (all_docs := entry :: rest).
    destruct (input_validation.validate_package_name package_name); cbn [negb].
    2:{ eexists. exists []. split; [reflexivity |].
        split; [unfold raise; rewrite app_nil_r; destruct s; reflexivity |].
        split; [constructor |]. split; discriminate. }
    assert (Hselect : forall ids docs missing,
               (fst (doc_packaging.select_docs ids all_docs docs missing) = [] ->
                docs = [] /\ forall doc_id, In doc_id ids -> dict_get doc_id all_docs = None)).
    { induction ids as [| doc_id ids IH]; intros docs missing;
        cbn [doc_packaging.select_docs fst].
      - intros ->. split; [reflexivity | intros doc_id []].
      - destruct (dict_get doc_id all_docs) as [metadata |] eqn:Hget.
        + intros H. destruct (IH _ _ H) as [Hempty _].
          destruct docs as [| [k v] r]; cbn [dict_set] in Hempty; [discriminate Hempty |].
          destruct (String.eqb doc_id k); discriminate Hempty.
        + intros H. destruct (IH _ _ H) as [-> Hids]. split; [reflexivity |].
          intros d [<- | Hd]; [exact Hget | exact (Hids d Hd)]. }
    specialize (Hselect include_docs [] []).
    destruct (doc_packaging.select_docs include_docs all_docs [] []) as [docs missing_docs].
    cbn [fst] in Hselect.
    set (warn := match missing_docs with
                 | [] => ret tt
                 | _ :: _ =>
                     doc_manager.lift (print ("Warning: Documents not found: "
                                              ++ String.concat ", " missing_docs))
                 end : doc_manager.Mgr unit).
    assert (Hwarn : exists evs0,
               warn s = (Return tt, doc_manager.mkState (doc_manager.config s)
                                      (doc_manager.trace s ++ evs0)%list)
               /\ Forall (fun e => exists line, e = ev_print line) evs0).
    { unfold warn. destruct missing_docs as [| m ms].
      - exists []. unfold ret. rewrite app_nil_r. destruct s.
        split; [reflexivity | constructor].
      - eexists. split; [reflexivity |]. constructor; [eexists; reflexivity | constructor]. }
    destruct Hwarn as (evs0 & Hwarn & Hevs0).
    rewrite !(bind_returns _ _ _ _ _ Hwarn).
    destruct docs as [| doc docs'].
    + exists (Return false), (evs0 ++ [ev_print "No valid documents to package"])%list.
      split; [reflexivity |].
      split; [rewrite print_then; unfold ret; cbn [doc_manager.config doc_manager.trace];
              rewrite app_assoc; reflexivity |].
      split; [apply Forall_app; split;
              [exact Hevs0 | constructor; [eexists; reflexivity | constructor]] |].
      split; [discriminate |]. intros _. exact (proj2 (Hselect eq_refl)).
    + cbn [doc_manager.trace].
      destruct (resolve (doc_manager.trace s ++ evs0)%list package_name)
        as [msg | package_path] eqn:Hresolve.
      * eexists. exists evs0. split; [reflexivity |]. split; [reflexivity |].
        split; [exact Hevs0 |]. split; discriminate.
      * rewrite (Hposix _ _ _ Hresolve), orb_true_r.
        destruct (path_exists (doc_manager.trace s ++ evs0)%list package_path);
          eexists; exists evs0; (split; [reflexivity |]); (split; [reflexivity |]);
          (split; [exact Hevs0 |]); split; discriminate.
  - exists (Return true), [ev_print "No documents available for packaging"].
    split; [reflexivity |]. split; [reflexivity |].
    split; [constructor; [eexists; reflexivity | constructor] |].
    split; [reflexivity | discriminate].
Qed.

(** X22: where a resolved path is absolute and starts with a slash, as on
    POSIX, [package_selected_docs] and [package_all_docs] never get to
    create the package directory: the path check refuses every resolved
    path, so whatever creating the package would do makes no difference.
    The call only prints and leaves the store alone; it returns [True]
    only when the store is empty and [False] only when none of the
    requested IDs is stored, and raises otherwise. *)
Theorem packaging_stops_at_the_path_check
    (resolve : list Event -> string -> string + string)
    (path_exists : list Event -> string -> bool)
    (create_package : string -> string -> Dict DocumentMetadata -> string -> bool
                      -> doc_manager.Mgr bool)
    (package_name : string) (include_docs : list string) (format_type : string)
    (soft_links : bool) (s : doc_manager.State) :
  (forall h path resolved, resolve h path = inr resolved ->
                           PyStr.startswith "/" resolved = true) ->
  let run := doc_packaging.package_selected_docs resolve path_exists create_package
               package_name include_docs format_type soft_links s in
  let run_all := doc_packaging.package_all_docs resolve path_exists create_package
                   package_name format_type soft_links s in
  run = doc_packaging.package_selected_docs resolve path_exists (fun _ _ _ _ _ => ret true)
          package_name include_docs format_type soft_links s
  /\ run_all = doc_packaging.package_all_docs resolve path_exists (fun _ _ _ _ _ => ret true)
                 package_name format_type soft_links s
  /\ doc_manager.config (snd run) = doc_manager.config s
  /\ (exists evs, doc_manager.trace (snd run) = (doc_manager.trace s ++ evs)%list
                  /\ Forall (fun e => exists line, e = ev_print line) evs)
  /\ (fst run = Return true -> stored_documents (doc_manager.config s) = [])
  /\ (fst run = Return false ->
      forall doc_id, In doc_id include_docs ->
                     dict_get doc_id (stored_documents (doc_manager.config s)) = None)
  /\ (fst run_all = Return true -> stored_documents (doc_manager.config s) = []).
Proof.
  intros Hposix. cbv zeta.
  destruct (package_selected_docs_run resolve path_exists create_package package_name
              include_docs format_type soft_links s Hposix)
    as (o & evs & Hsame & Hrun & Hevs & Htrue & Hfalse).
  split; [exact Hsame |].
  assert (Hall : exists o',
             doc_packaging.package_all_docs resolve path_exists create_package
               package_name format_type soft_links s
             = doc_packaging.package_all_docs resolve path_exists (fun _ _ _ _ _ => ret true)
                 package_name format_type soft_links s
             /\ fst (doc_packaging.package_all_docs resolve path_exists create_package
                       package_name format_type soft_links s) = o'
             /\ (o' = Return true -> stored_documents (doc_manager.config s) = [])).
  { unfold doc_packaging.package_all_docs.
    destruct (documents (doc_manager.config s)) as [[| entry rest] |] eqn:Hdocs.
    - eexists. split; [reflexivity |]. split; [reflexivity |].
      intros _. unfold stored_documents. rewrite Hdocs. reflexivity.
    - destruct (package_selected_docs_run resolve path_exists create_package package_name
                  (map fst (entry :: rest)) format_type soft_links s Hposix)
        as (o' & evs' & Hsame' & Hrun' & _ & Htrue' & _).
      exists o'. split; [exact Hsame' |]. split; [rewrite Hrun'; reflexivity | exact Htrue'].
    - eexists. split; [reflexivity |]. split; [reflexivity |].
      intros _. unfold stored_documents. rewrite Hdocs. reflexivity. }
  destruct Hall as (o' & Hsame_all & Hfst_all & Htrue_all).
  split; [exact Hsame_all |].
  rewrite Hrun. cbn [fst snd doc_manager.config doc_manager.trace].
  split; [reflexivity |].
  split; [exists evs; split; [reflexivity | exact Hevs] |].
  split; [exact Htrue |]. split; [exact Hfalse |].
  rewrite Hfst_all. exact Htrue_all.
Qed.

Lemma packaging_stops_at_the_path_check_witness :
  fst (doc_packaging.package_selected_docs
         (fun _ path => inr ("/home/user/" ++ path)) (fun _ _ => false)
         (fun _ _ _ _ _ => ret false)
         "my-docs" ["89b8c46b"] "toc" false sample.stored)
  = Raise (doc_packaging.PackagingError
             "Cannot create package directory: Invalid package path").
Proof.
  assert (H := packaging_stops_at_the_path_check
                 (fun _ path => inr ("/home/user/" ++ path)) (fun _ _ => false)
                 (fun _ _ _ _ _ => ret false)
                 "my-docs" ["89b8c46b"] "toc" false sample.stored).
  cbv zeta in H.
  assert (Hposix : forall (h : list Event) (path resolved : string),
             @inr string string ("/home/user/" ++ path) = inr resolved ->
             PyStr.startswith "/" resolved = true).
  { intros h path resolved E. injection E as <-. reflexivity. }
  destruct (H Hposix) as (Hsame & _).
  rewrite Hsame. reflexivity.
Defined.
(** ** [_validate_config_structure] on raw configurations *)

Import config_json.

Lemma contains_get {V} (key : string) (d : Dict V) :
  contains key d = true <-> dict_get key d <> None.
Proof.
  unfold contains. destruct (dict_get key d); split; congruence.
Qed.

Lemma coerce_field_get (py_str : Json -> string) (key : string) (metadata : Dict Json) :
  dict_get key (coerce_field py_str key metadata) = coerced py_str (dict_get key metadata).
Proof.
  unfold coerce_field. destruct (dict_get key metadata) as [value |] eqn:Hget; [| exact Hget].
  destruct value; cbn [is_none isinstance_str negb andb coerced];
    first [exact Hget | apply dict_get_set_eq].
Qed.

Lemma coerce_field_other (py_str : Json -> string) (key key0 : string)
    (metadata : Dict Json) :
  key0 <> key -> dict_get key0 (coerce_field py_str key metadata) = dict_get key0 metadata.
Proof.
  intros Hne. unfold coerce_field. destruct (dict_get key metadata) as [value |]; [| reflexivity].
  destruct (negb (is_none value) && negb (isinstance_str value)); [| reflexivity].
  apply dict_get_set_ne. exact Hne.
Qed.

Lemma clean_tags_get (metadata : Dict Json) :
  dict_get "tags" (clean_tags metadata) = Some (cleaned (dict_get "tags" metadata)).
Proof.
  unfold clean_tags. destruct (dict_get "tags" metadata) as [value |]; cbn [cleaned].
  - destruct value; apply dict_get_set_eq.
  - apply dict_get_set_eq.
Qed.

Lemma clean_tags_other (key0 : string) (metadata : Dict Json) :
  key0 <> "tags" -> dict_get key0 (clean_tags metadata) = dict_get key0 metadata.
Proof.
  intros Hne. unfold clean_tags. destruct (dict_get "tags" metadata) as [value |].
  - destruct value; apply dict_get_set_ne; exact Hne.
  - apply dict_get_set_ne. exact Hne.
Qed.

(** A name or a description that is already absent, [None] or a string is
    left where it is. *)
Lemma coerce_field_fixed (py_str : Json -> string) (key : string) (metadata : Dict Json)
    (old : option Json) :
  dict_get key metadata = coerced py_str old -> coerce_field py_str key metadata = metadata.
Proof.
  intros Hget. unfold coerce_field. rewrite Hget.
  destruct old as [value |]; [| reflexivity]. destruct value; reflexivity.
Qed.

Lemma filter_keep_tag_idempotent (tags : list Json) :
  filter keep_tag (filter keep_tag tags) = filter keep_tag tags.
Proof.
  induction tags as [| tag rest IH]; [reflexivity |].
  cbn [filter]. destruct (keep_tag tag) eqn:Hkeep; [| exact IH].
  cbn [filter]. rewrite Hkeep, IH. reflexivity.
Qed.

Lemma clean_tags_fixed (metadata : Dict Json) (old : option Json) :
  dict_get "tags" metadata = Some (cleaned old) -> clean_tags metadata = metadata.
Proof.
  intros Hget. unfold clean_tags. rewrite Hget.
  destruct old as [value |]; cbn [cleaned] in *.
  - destruct value; cbn [filter]; try (apply dict_set_same; exact Hget).
    rewrite filter_keep_tag_idempotent. apply dict_set_same. exact Hget.
  - cbn [filter]. apply dict_set_same. exact Hget.
Qed.


Lemma validate_entry_returns (py_str : Json -> string) (hash_id : string)
    (metadata metadata' : Json) :
  validate_entry py_str hash_id metadata = Return metadata' ->
  entry_accepted (hash_id, metadata)
  /\ entry_sanitized py_str metadata metadata'
  /\ validate_entry py_str hash_id metadata' = Return metadata'.
Proof.
  unfold validate_entry.
  destruct (Py.len hash_id =? 8) eqn:Hlen; cbn [negb]; [| discriminate].
  destruct metadata as [| | | | | | fields]; try discriminate.
  destruct (contains "url" fields) eqn:Hurl; cbn [negb]; [| discriminate].
  intros H. injection H as <-.
  set (named := coerce_field py_str "name" fields).
  set (described := coerce_field py_str "description" named).
  assert (Hname : dict_get "name" (clean_tags described)
                  = coerced py_str (dict_get "name" fields)).
  { rewrite clean_tags_other by discriminate.
    unfold described. rewrite coerce_field_other by discriminate.
    apply coerce_field_get. }
  assert (Hdescription : dict_get "description" (clean_tags described)
                         = coerced py_str (dict_get "description" fields)).
  { rewrite clean_tags_other by discriminate.
    unfold described. rewrite coerce_field_get.
    unfold named. rewrite coerce_field_other by discriminate. reflexivity. }
  assert (Htags : dict_get "tags" (clean_tags described)
                  = Some (cleaned (dict_get "tags" fields))).
  { rewrite clean_tags_get. unfold described, named.
    rewrite !coerce_field_other by discriminate. reflexivity. }
  assert (Hother : forall key, key <> "name" -> key <> "description" -> key <> "tags" ->
                               dict_get key (clean_tags described) = dict_get key fields).
  { intros key H1 H2 H3. rewrite clean_tags_other by exact H3.
    unfold described, named. rewrite !coerce_field_other by assumption. reflexivity. }
  split; [| split].
  - split; [apply Z.eqb_eq; exact Hlen |].
    exists fields. split; [reflexivity |]. apply contains_get. exact Hurl.
  - unfold entry_sanitized. cbn [json_field]. auto.
  - replace (contains "url" (clean_tags described)) with true.
    2:{ symmetry. unfold contains. rewrite Hother by discriminate. exact Hurl. }
    cbn [negb].
    assert (Hnamed : coerce_field py_str "name" (clean_tags described) = clean_tags described).
    { exact (coerce_field_fixed py_str _ _ _ Hname). }
    rewrite Hnamed.
    rewrite (coerce_field_fixed py_str _ _ _ Hdescription).
    rewrite (clean_tags_fixed _ _ Htags). reflexivity.
Qed.

Lemma validate_entry_raises (py_str : Json -> string) (hash_id : string)
    (metadata : Json) (e : Exn) :
  validate_entry py_str hash_id metadata = Raise e ->
  exn_class e = validation_ValidationError /\ ~ entry_accepted (hash_id, metadata).
Proof.
  unfold validate_entry, entry_accepted. cbn [fst snd].
  destruct (Py.len hash_id =? 8) eqn:Hlen; cbn [negb].
  2:{ intros H. injection H as <-. split; [reflexivity |].
      intros [Hlen' _]. apply Z.eqb_neq in Hlen. contradiction. }
  destruct metadata as [| | | | | | fields];
    try (intros H; injection H as <-; split; [reflexivity |];
         intros (_ & fields' & Hfields & _); discriminate).
  destruct (contains "url" fields) eqn:Hurl; cbn [negb]; [discriminate |].
  intros H. injection H as <-. split; [reflexivity |].
  intros (_ & fields' & Hfields & Hget). injection Hfields as <-.
  apply contains_get in Hget. congruence.
Qed.

Lemma json_documents_keys (py_str : Json -> string) (documents : Dict Json) :
  map fst (snd (validate_documents py_str documents)) = map fst documents.
Proof.
  induction documents as [| [hash_id metadata] rest IH]; cbn [validate_documents];
    [reflexivity |].
  destruct (validate_entry py_str hash_id metadata) as [metadata' | e]; [| reflexivity].
  destruct (validate_documents py_str rest) as [r rest'].
  cbn [snd map fst] in *. rewrite IH. reflexivity.
Qed.

Lemma json_documents_entries (py_str : Json -> string) (documents : Dict Json) :
  Forall2 (fun old new => snd new = snd old \/ entry_sanitized py_str (snd old) (snd new))
    documents (snd (validate_documents py_str documents)).
Proof.
  assert (Hrefl : forall l : Dict Json,
             Forall2 (fun old new => snd new = snd old
                                     \/ entry_sanitized py_str (snd old) (snd new)) l l).
  { induction l as [| x l IH]; constructor; [left; reflexivity | exact IH]. }
  induction documents as [| [hash_id metadata] rest IH]; cbn [validate_documents];
    [constructor |].
  destruct (validate_entry py_str hash_id metadata) as [metadata' | e] eqn:Hentry;
    [| apply Hrefl].
  destruct (validate_documents py_str rest) as [r rest'].
  cbn [snd] in *. constructor; [| exact IH].
  right. exact (proj1 (proj2 (validate_entry_returns py_str _ _ _ Hentry))).
Qed.

Lemma json_documents_return (py_str : Json -> string) (documents : Dict Json) :
  fst (validate_documents py_str documents) = Return tt ->
  Forall entry_accepted documents
  /\ Forall2 (fun old new => entry_sanitized py_str (snd old) (snd new))
       documents (snd (validate_documents py_str documents))
  /\ validate_documents py_str (snd (validate_documents py_str documents))
     = (Return tt, snd (validate_documents py_str documents)).
Proof.
  induction documents as [| [hash_id metadata] rest IH]; cbn [validate_documents].
  - intros _. repeat split; constructor.
  - destruct (validate_entry py_str hash_id metadata) as [metadata' | e] eqn:Hentry;
      [| discriminate].
    destruct (validate_entry_returns py_str _ _ _ Hentry) as (Hacc & Hsan & Hfix).
    destruct (validate_documents py_str rest) as [r rest'].
    cbn [fst snd] in *. intros ->. destruct (IH eq_refl) as (Hall & Hentries & Hagain).
    split; [constructor; assumption |]. split; [constructor; assumption |].
    cbn [validate_documents]. rewrite Hfix, Hagain. reflexivity.
Qed.

Lemma json_documents_raise (py_str : Json -> string) (documents : Dict Json) (e : Exn) :
  fst (validate_documents py_str documents) = Raise e ->
  exn_class e = validation_ValidationError /\ ~ Forall entry_accepted documents.
Proof.
  induction documents as [| [hash_id metadata] rest IH]; cbn [validate_documents];
    [discriminate |].
  destruct (validate_entry py_str hash_id metadata) as [metadata' | e0] eqn:Hentry.
  - destruct (validate_documents py_str rest) as [r rest']. cbn [fst] in *.
    intros Hr. destruct (IH Hr) as [Hclass Hnot]. split; [exact Hclass |].
    intros Hall. inversion Hall; subst. contradiction.
  - cbn [fst]. intros H. injection H as <-.
    destruct (validate_entry_raises py_str _ _ _ Hentry) as [Hclass Hnot].
    split; [exact Hclass |]. intros Hall. inversion Hall; subst. contradiction.
Qed.

Lemma outcome_unit_cases (r : Outcome unit) : r = Return tt \/ exists e, r = Raise e.
Proof. destruct r as [[] | e]; [left; reflexivity | right; exists e; reflexivity]. Qed.

(** The two shapes of a run: the documents are reached and validated, or
    the call raises before the loop and leaves the documents and every
    field it did not add as they were. *)
Lemma validate_config_shape (py_str : Json -> string) (config : Json) :
  let run := _validate_config_structure py_str config in
  (exists fields fields',
      config = JDict fields
      /\ (forall key, key <> "documents" -> key <> "storage_directory" ->
                      dict_get key fields' = dict_get key fields)
      /\ dict_get "documents" fields' = Some (JDict (json_documents config))
      /\ (exists dir, dict_get "storage_directory" fields' = Some (JStr dir))
      /\ (config_accepted config <-> Forall entry_accepted (json_documents config))
      /\ run = (fst (validate_documents py_str (json_documents config)),
                JDict (dict_set "documents"
                         (JDict (snd (validate_documents py_str (json_documents config))))
                         fields')))
  \/ (exists e,
         fst run = Raise e
         /\ exn_class e = validation_ValidationError
         /\ ~ config_accepted config
         /\ json_documents (snd run) = json_documents config
         /\ forall key, key <> "documents" -> key <> "storage_directory" ->
                        json_field key (snd run) = json_field key config).
Proof.
  cbv zeta. unfold _validate_config_structure.
  destruct config as [| | | | | | fields];
    try (right; eexists; cbn [fst snd]; split; [reflexivity |]; split; [reflexivity |];
         split; [intros (fields' & Hfields & _); discriminate |];
         split; [reflexivity | reflexivity]).
  set (fields1 := if negb (contains "storage_directory" fields)
                  then dict_set "storage_directory" (JStr ".") fields else fields).
  set (fields2 := if negb (contains "documents" fields1)
                  then dict_set "documents" (JDict []) fields1 else fields1).
  assert (Hdir1 : dict_get "storage_directory" fields1
                  = match dict_get "storage_directory" fields with
                    | Some value => Some value
                    | None => Some (JStr ".")
                    end).
  { unfold fields1, contains.
    destruct (dict_get "storage_directory" fields) as [value |] eqn:Hget; cbn [negb];
      [exact Hget | apply dict_get_set_eq]. }
  assert (Hother1 : forall key, key <> "storage_directory" ->
                                dict_get key fields1 = dict_get key fields).
  { intros key Hne. unfold fields1.
    destruct (negb (contains "storage_directory" fields)); [| reflexivity].
    apply dict_get_set_ne. exact Hne. }
  assert (Hdocs2 : dict_get "documents" fields2
                   = match dict_get "documents" fields with
                     | Some value => Some value
                     | None => Some (JDict [])
                     end).
  { unfold fields2, contains. rewrite (Hother1 "documents") by discriminate.
    destruct (dict_get "documents" fields) as [value |] eqn:Hget; cbn [negb].
    - rewrite Hother1 by discriminate. exact Hget.
    - apply dict_get_set_eq. }
  assert (Hother2 : forall key, key <> "documents" -> dict_get key fields2 = dict_get key fields1).
  { intros key Hne. unfold fields2.
    destruct (negb (contains "documents" fields1)); [| reflexivity].
    apply dict_get_set_ne. exact Hne. }
  assert (Hdir2 : dict_get "storage_directory" fields2
                  = match dict_get "storage_directory" fields with
                    | Some value => Some value
                    | None => Some (JStr ".")
                    end).
  { rewrite Hother2 by discriminate. exact Hdir1. }
  assert (Hkeep : forall key, key <> "documents" -> key <> "storage_directory" ->
                              dict_get key fields2 = dict_get key fields).
  { intros key H1 H2. rewrite Hother2 by exact H1. apply Hother1. exact H2. }
  assert (Hdocs_raise : json_documents (JDict fields2) = json_documents (JDict fields)).
  { unfold json_documents. cbn [json_field]. rewrite Hdocs2.
    destruct (dict_get "documents" fields) as [value |]; reflexivity. }
  assert (Hraise : forall msg,
             ~ config_accepted (JDict fields) ->
             exists e,
               fst (@Raise unit (ValidationError msg), JDict fields2) = Raise e
               /\ exn_class e = validation_ValidationError
               /\ ~ config_accepted (JDict fields)
               /\ json_documents (snd (@Raise unit (ValidationError msg), JDict fields2))
                  = json_documents (JDict fields)
               /\ forall key, key <> "documents" -> key <> "storage_directory" ->
                              json_field key (snd (@Raise unit (ValidationError msg),
                                                   JDict fields2))
                              = json_field key (JDict fields)).
  { intros msg Hnot. eexists. cbn [fst snd]. split; [reflexivity |].
    split; [reflexivity |]. split; [exact Hnot |]. split; [exact Hdocs_raise |].
    intros key H1 H2. cbn [json_field]. apply Hkeep; assumption. }
  destruct (dict_get "storage_directory" fields2) as [dir |] eqn:Hdir.
  2:{ destruct (dict_get "storage_directory" fields); discriminate. }
  assert (Hbad_dir : isinstance_str dir = false -> ~ config_accepted (JDict fields)).
  { intros Hstr (fields0 & Hfields & Hdir0 & _). injection Hfields as <-.
    destruct (dict_get "storage_directory" fields) as [value |]; [| first [injection Hdir2 as -> | injection Hdir2 as <-]; discriminate].
    first [injection Hdir2 as -> | injection Hdir2 as <-]. destruct value; solve [contradiction | discriminate]. }
  destruct dir as [| | | | dir | |]; try (right; apply Hraise; apply Hbad_dir; reflexivity).
  clear Hbad_dir.
  assert (Hgood_dir : match dict_get "storage_directory" fields with
                      | None | Some (JStr _) => True
                      | Some _ => False
                      end).
  { destruct (dict_get "storage_directory" fields) as [value |]; [| exact I].
    first [injection Hdir2 as -> | injection Hdir2 as <-]. exact I. }
  destruct (dict_get "documents" fields2) as [value |] eqn:Hdocs.
  2:{ destruct (dict_get "documents" fields); discriminate. }
  assert (Hbad_docs : (forall documents, value <> JDict documents) ->
                      ~ config_accepted (JDict fields)).
  { intros Hno (fields0 & Hfields & _ & Hdocs0). injection Hfields as <-.
    destruct (dict_get "documents" fields) as [value0 |].
    - first [injection Hdocs2 as -> | injection Hdocs2 as <-]. destruct value0; try contradiction.
      exact (Hno _ eq_refl).
    - first [injection Hdocs2 as -> | injection Hdocs2 as <-]. exact (Hno _ eq_refl). }
  destruct value as [| | | | | | documents];
    try (right; apply Hraise; apply Hbad_docs; intros documents; discriminate).
  clear Hbad_docs.
  assert (Hdocuments : json_documents (JDict fields) = documents).
  { unfold json_documents. cbn [json_field].
    destruct (dict_get "documents" fields) as [value0 |]; first [injection Hdocs2 as -> | injection Hdocs2 as <-]; reflexivity. }
  left. exists fields, fields2. rewrite Hdocuments.
  split; [reflexivity |]. split; [exact Hkeep |]. split; [exact Hdocs |].
  split; [exists dir; exact Hdir |]. split.
  - split.
    + intros (fields0 & Hfields & _ & Hdocs0). injection Hfields as <-.
      destruct (dict_get "documents" fields) as [value0 |].
      * first [injection Hdocs2 as -> | injection Hdocs2 as <-]. exact Hdocs0.
      * first [injection Hdocs2 as -> | injection Hdocs2 as <-]. constructor.
    + intros Hall. exists fields. split; [reflexivity |]. split; [exact Hgood_dir |].
      destruct (dict_get "documents" fields) as [value0 |]; [| exact I].
      first [injection Hdocs2 as -> | injection Hdocs2 as <-]. exact Hall.
  - destruct (validate_documents py_str documents) as [r documents']. reflexivity.
Qed.

(** On the typed configuration of the manager the raw validation does
    what [ConfigManager._validate_config_structure] does. *)
Lemma filter_keep_tag_typed (tags : list string) :
  filter keep_tag (map JStr tags) = map JStr (filter (fun tag => Py.len tag <=? 20) tags).
Proof.
  induction tags as [| tag rest IH]; [reflexivity |].
  cbn [map filter keep_tag]. destruct (Py.len tag <=? 20); cbn [map]; rewrite IH; reflexivity.
Qed.

Lemma validate_entry_typed (py_str : Json -> string) (hash_id : string)
    (metadata : DocumentMetadata) :
  validate_entry py_str hash_id (json_of_metadata metadata)
  = if negb (Py.len hash_id =? 8)
    then Raise (ValidationError ("Invalid document hash ID: " ++ hash_id))
    else Return (json_of_metadata (ConfigManager.validate_metadata metadata)).
Proof.
  unfold validate_entry. destruct (negb (Py.len hash_id =? 8)); [reflexivity |].
  destruct metadata as [url' name' description' tags'].
  unfold json_of_metadata, ConfigManager.validate_metadata.
  cbn [url name description tags].
  destruct name' as [name' |], description' as [description' |];
    cbn; rewrite filter_keep_tag_typed; reflexivity.
Qed.

Lemma json_documents_typed (py_str : Json -> string) (docs : Dict DocumentMetadata) :
  validate_documents py_str (json_of_documents docs)
  = (fst (ConfigManager.validate_documents docs),
     json_of_documents (snd (ConfigManager.validate_documents docs))).
Proof.
  induction docs as [| [hash_id metadata] rest IH];
    cbn [json_of_documents map fst snd validate_documents ConfigManager.validate_documents];
    [reflexivity |].
  rewrite validate_entry_typed.
  destruct (negb (Py.len hash_id =? 8)); [reflexivity |].
  fold (json_of_documents rest). rewrite IH.
  destruct (ConfigManager.validate_documents rest) as [r rest']. reflexivity.
Qed.

Lemma validate_config_typed (py_str : Json -> string) (cfg : Config) :
  _validate_config_structure py_str (json_of_config cfg)
  = (fst (ConfigManager._validate_config_structure cfg),
     json_of_config (snd (ConfigManager._validate_config_structure cfg))).
Proof.
  unfold ConfigManager._validate_config_structure, json_of_config.
  destruct cfg as [[docs |]]; cbn [documents].
  - cbn. rewrite json_documents_typed.
    destruct (ConfigManager.validate_documents docs) as [r docs']. reflexivity.
  - reflexivity.
Qed.

(** X7: [_validate_config_structure] on any value [json.load] can give
    (its strings being text of code points below 256, as everywhere
    here).  It raises nothing but [ValidationError], and it returns exactly for an
    object whose storage directory, if any, is a string and whose
    documents, if any, are an object of entries with a key of 8
    characters and an object with a URL as metadata.  Whatever the
    outcome, it keeps the keys of the documents and their order, and
    every top-level field other than the two it may add; an entry is
    either untouched or sanitized: a name or a description that is
    neither [None] nor a string becomes its [str], tags that are no list
    become the empty list, a list of tags keeps its strings of at most 20
    characters, and every other field, the URL among them, is as it was.
    When it returns, every entry is sanitized and validating the result
    again changes nothing.  On the typed configuration of the manager it
    is the function [ConfigManager._validate_config_structure]. *)
Theorem validate_config_structure_sanitizes_once (py_str : Json -> string) (config : Json) :
  let run := _validate_config_structure py_str config in
  (forall e, fst run = Raise e -> exn_class e = validation_ValidationError)
  /\ (fst run = Return tt <-> config_accepted config)
  /\ map fst (json_documents (snd run)) = map fst (json_documents config)
  /\ Forall2 (fun old new => snd new = snd old \/ entry_sanitized py_str (snd old) (snd new))
       (json_documents config) (json_documents (snd run))
  /\ (forall key, key <> "documents" -> key <> "storage_directory" ->
                  json_field key (snd run) = json_field key config)
  /\ (fst run = Return tt ->
      Forall2 (fun old new => entry_sanitized py_str (snd old) (snd new))
        (json_documents config) (json_documents (snd run))
      /\ _validate_config_structure py_str (snd run) = (Return tt, snd run))
  /\ (forall cfg, config = json_of_config cfg ->
        run = (fst (ConfigManager._validate_config_structure cfg),
               json_of_config (snd (ConfigManager._validate_config_structure cfg)))).
Proof.
  cbv zeta.
  assert (Htyped : forall cfg, config = json_of_config cfg ->
             _validate_config_structure py_str config
             = (fst (ConfigManager._validate_config_structure cfg),
                json_of_config (snd (ConfigManager._validate_config_structure cfg)))).
  { intros cfg ->. apply validate_config_typed. }
  assert (Hrefl : forall l : Dict Json,
             Forall2 (fun old new => snd new = snd old
                                     \/ entry_sanitized py_str (snd old) (snd new)) l l).
  { induction l as [| x l IH]; constructor; [left; reflexivity | exact IH]. }
  destruct (validate_config_shape py_str config)
    as [(fields & fields' & Hconfig & Hkeep & Hdocs & (dir & Hdir) & Haccepted & Hrun)
       | (e & Hfst & Hclass & Hnot & Hdocs & Hkeep)]; cbv zeta in *.
  - set (documents := json_documents config) in *.
    assert (Hafter : json_documents (snd (_validate_config_structure py_str config))
                     = snd (validate_documents py_str documents)).
    { rewrite Hrun. cbn [snd]. unfold json_documents. cbn [json_field].
      rewrite dict_get_set_eq. reflexivity. }
    rewrite Hafter.
    assert (Hfst : fst (_validate_config_structure py_str config)
                   = fst (validate_documents py_str documents)).
    { rewrite Hrun. reflexivity. }
    rewrite Hfst.
    split; [| split; [| split; [| split; [| split; [| split]]]]].
    + intros e He. exact (proj1 (json_documents_raise py_str documents e He)).
    + rewrite Haccepted. split.
      * intros Hret. exact (proj1 (json_documents_return py_str documents Hret)).
      * intros Hall.
        destruct (outcome_unit_cases (fst (validate_documents py_str documents)))
          as [Hret | [e He]]; [exact Hret |].
        destruct (json_documents_raise py_str documents e He) as [_ Hno]. contradiction.
    + apply json_documents_keys.
    + apply json_documents_entries.
    + intros key H1 H2. rewrite Hrun, Hconfig. cbn [snd json_field].
      rewrite dict_get_set_ne by exact H1. apply Hkeep; assumption.
    + intros Hret.
      destruct (json_documents_return py_str documents Hret) as (_ & Hentries & Hagain).
      split; [exact Hentries |].
      rewrite Hrun. cbn [snd].
      unfold _validate_config_structure.
      set (validated := snd (validate_documents py_str documents)) in *.
      set (after := dict_set "documents" (JDict validated) fields').
      assert (Hafter_dir : dict_get "storage_directory" after = Some (JStr dir)).
      { unfold after. rewrite dict_get_set_ne by discriminate. exact Hdir. }
      assert (Hafter_docs : dict_get "documents" after = Some (JDict validated)).
      { unfold after. apply dict_get_set_eq. }
      unfold contains. rewrite Hafter_dir. cbn [negb]. rewrite Hafter_docs. cbn [negb].
      rewrite Hafter_dir, Hafter_docs, Hagain.
      unfold after. rewrite dict_set_set. reflexivity.
    + exact Htyped.
  - rewrite Hfst, Hdocs.
    split; [| split; [| split; [| split; [| split; [| split]]]]].
    + intros e0 He. injection He as <-. exact Hclass.
    + split; [discriminate | intros Hacc; contradiction].
    + reflexivity.
    + apply Hrefl.
    + exact Hkeep.
    + discriminate.
    + exact Htyped.
Qed.

(** The raw sample is accepted: the storage directory is added, the name
    becomes the text of the number, and the tags keep their one string
    within the limit. *)
Example raw_sample_sanitized (py_str : Json -> string) :
  py_str (JInt 42) = "42" ->
  _validate_config_structure py_str raw_sample
  = (Return tt,
     JDict [("documents",
             JDict [("89b8c46b",
                     JDict [("url", JStr "https://example.com/a.md");
                            ("name", JStr "42");
                            ("tags", JList [JStr "guide"])])]);
            ("storage_directory", JStr ".")]).
Proof.
  intros Hstr. cbn. rewrite Hstr. reflexivity.
Qed.
